(** * CS-330 final project: scene manager and view manager

    A shallow embedding of the resource registry, the shader state channel,
    the transform composer, the preparation of the scene and the renderers
    of [Source/SceneManager.cpp], and of the pointer and scroll callbacks
    and the per-frame view preparation of [Source/ViewManager.cpp].

    Modelling conventions.
    - [int] is a signed 32-bit integer, [GLuint] an unsigned 32-bit one; both
      are carried as [Z] and the conversion between them is written out
      ([int_of_GLuint]).
    - In the pointer and scroll callbacks of the view manager, [float] and
      [double] are the IEEE 754 formats binary32 and binary64: every
      product, difference, comparison and conversion is the machine
      operation, rounding included, on the [spec_float]s of the Standard
      Library, so that the model stays executable.  In the scene manager
      and in the per-frame view preparation, where GLM needs [cos], [sin]
      and [sqrt], scalars are idealised as reals and rounding is not
      modelled.
    - A call through a null pointer and an array access outside its bounds
      are undefined behaviour in C++; the model stops with a [fault] there.
    - GLM, the shader manager, the mesh library, the image decoder and OpenGL
      are collaborators outside the repository; the little that is needed of
      them is modelled in the modules [glm], [ShaderManager], [ShapeMeshes],
      [BasicMeshes], [GL], [GLFW] and [Camera] below; the methods of the
      camera and the projections of GLM are parameters of the frame.
    - The texture units of the GL context are modelled with [Context]: the
      binding of the selected unit is [GL.bound_2D], the bindings of the
      other units are kept beside it. *)

From Stdlib Require Import ZArith QArith Reals Lra Lia String List SpecFloat.
From stdpp Require Import gmap strings list.

Local Open Scope Z_scope.

(** ** Machine integers *)

Definition GLuint_modulus : Z := 2 ^ 32.
Definition INT_MAX : Z := 2 ^ 31 - 1.

(** Conversion of an unsigned 32-bit value to [int] (modular, as every
    two's-complement target and C++20 define it). *)
Definition int_of_GLuint (u : Z) : Z :=
  (u + 2 ^ 31) mod GLuint_modulus - 2 ^ 31.

Definition is_GLuint (u : Z) : Prop := 0 <= u < GLuint_modulus.

(** ** GLM (external): vectors and column-major 4x4 matrices over the reals *)

Module glm.
Local Open Scope R_scope.

Record vec2 := mkvec2 { u2 : R; v2 : R }.
Record vec3 := mkvec3 { x3 : R; y3 : R; z3 : R }.
Record vec4 := mkvec4 { x4 : R; y4 : R; z4 : R; w4 : R }.

(** [mat4] is four columns, [m[0]] .. [m[3]]. *)
Record mat4 := mkmat4 { col0 : vec4; col1 : vec4; col2 : vec4; col3 : vec4 }.

Definition vadd (a b : vec4) : vec4 :=
  mkvec4 (x4 a + x4 b) (y4 a + y4 b) (z4 a + z4 b) (w4 a + w4 b).
Definition vscale (a : vec4) (k : R) : vec4 :=
  mkvec4 (x4 a * k) (y4 a * k) (z4 a * k) (w4 a * k).

(** [mat4(1.0f)] *)
Definition identity : mat4 :=
  mkmat4 (mkvec4 1 0 0 0) (mkvec4 0 1 0 0) (mkvec4 0 0 1 0) (mkvec4 0 0 0 1).

(** [operator*(mat4, vec4)] *)
Definition mul_vec (m : mat4) (v : vec4) : vec4 :=
  vadd (vadd (vadd (vscale (col0 m) (x4 v)) (vscale (col1 m) (y4 v)))
               (vscale (col2 m) (z4 v)))
         (vscale (col3 m) (w4 v)).

(** [operator*(mat4, mat4)]: column [j] of the product is [m1 * m2[j]]. *)
Definition mul (m1 m2 : mat4) : mat4 :=
  mkmat4 (mul_vec m1 (col0 m2)) (mul_vec m1 (col1 m2))
           (mul_vec m1 (col2 m2)) (mul_vec m1 (col3 m2)).

(** [glm::radians] *)
Definition radians (degrees : R) : R := degrees * (PI / 180).

Definition dot (a b : vec3) : R := x3 a * x3 b + y3 a * y3 b + z3 a * z3 b.
Definition inversesqrt (x : R) : R := 1 / sqrt x.
Definition normalize (v : vec3) : vec3 :=
  let k := inversesqrt (dot v v) in mkvec3 (x3 v * k) (y3 v * k) (z3 v * k).

(** [glm::scale(v)], that is [scale(mat4(1), v)]. *)
Definition scale (v : vec3) : mat4 :=
  let m := identity in
  mkmat4 (vscale (col0 m) (x3 v)) (vscale (col1 m) (y3 v))
           (vscale (col2 m) (z3 v)) (col3 m).

(** [glm::translate(v)], that is [translate(mat4(1), v)]. *)
Definition translate (v : vec3) : mat4 :=
  let m := identity in
  mkmat4 (col0 m) (col1 m) (col2 m)
           (vadd (vadd (vadd (vscale (col0 m) (x3 v)) (vscale (col1 m) (y3 v)))
                       (vscale (col2 m) (z3 v)))
                 (col3 m)).

(** [glm::rotate(angle, v)], that is [rotate(mat4(1), angle, v)]. *)
Definition rotate (angle : R) (v : vec3) : mat4 :=
  let m := identity in
  let c := cos angle in
  let s := sin angle in
  let axis := normalize v in
  let temp := mkvec3 ((1 - c) * x3 axis) ((1 - c) * y3 axis) ((1 - c) * z3 axis) in
  let r00 := c + x3 temp * x3 axis in
  let r01 := x3 temp * y3 axis + s * z3 axis in
  let r02 := x3 temp * z3 axis - s * y3 axis in
  let r10 := y3 temp * x3 axis - s * z3 axis in
  let r11 := c + y3 temp * y3 axis in
  let r12 := y3 temp * z3 axis + s * x3 axis in
  let r20 := z3 temp * x3 axis + s * y3 axis in
  let r21 := z3 temp * y3 axis - s * x3 axis in
  let r22 := c + z3 temp * z3 axis in
  mkmat4
      (vadd (vadd (vscale (col0 m) r00) (vscale (col1 m) r01)) (vscale (col2 m) r02))
      (vadd (vadd (vscale (col0 m) r10) (vscale (col1 m) r11)) (vscale (col2 m) r12))
      (vadd (vadd (vscale (col0 m) r20) (vscale (col1 m) r21)) (vscale (col2 m) r22))
      (col3 m).

(** The affine maps the matrices stand for, on points of space. *)
Definition scale_point (s p : vec3) : vec3 :=
  mkvec3 (x3 s * x3 p) (y3 s * y3 p) (z3 s * z3 p).
Definition rotateX_point (a : R) (p : vec3) : vec3 :=
  mkvec3 (x3 p) (cos a * y3 p - sin a * z3 p) (sin a * y3 p + cos a * z3 p).
Definition rotateY_point (a : R) (p : vec3) : vec3 :=
  mkvec3 (cos a * x3 p + sin a * z3 p) (y3 p) (cos a * z3 p - sin a * x3 p).
Definition rotateZ_point (a : R) (p : vec3) : vec3 :=
  mkvec3 (cos a * x3 p - sin a * y3 p) (sin a * x3 p + cos a * y3 p) (z3 p).
Definition translate_point (t p : vec3) : vec3 :=
  mkvec3 (x3 p + x3 t) (y3 p + y3 t) (z3 p + z3 t).

(** A point in homogeneous coordinates, and back. *)
Definition point (p : vec3) : vec4 := mkvec4 (x3 p) (y3 p) (z3 p) 1.
Definition xyz (v : vec4) : vec3 := mkvec3 (x4 v) (y4 v) (z4 v).
End glm.

(** ** The shader manager (external): named uniforms of the active program *)

Module ShaderManager.

Inductive uniform :=
| UInt (i : Z)
| UBool (b : bool)
| UFloat (f : R)
| UVec2 (v : glm.vec2)
| UVec3 (v : glm.vec3)
| UVec4 (v : glm.vec4)
| UMat4 (m : glm.mat4)
| USampler2D (unit_index : Z).

(** The program's uniform values, by name. *)
Abbreviation t := (gmap string uniform).

Definition setIntValue (name : string) (value : Z) (sh : t) : t := <[name := UInt value]> sh.
Definition setBoolValue (name : string) (value : bool) (sh : t) : t := <[name := UBool value]> sh.
Definition setFloatValue (name : string) (value : R) (sh : t) : t := <[name := UFloat value]> sh.
Definition setVec2Value (name : string) (value : glm.vec2) (sh : t) : t := <[name := UVec2 value]> sh.
Definition setVec3Value (name : string) (value : glm.vec3) (sh : t) : t := <[name := UVec3 value]> sh.
Definition setVec4Value (name : string) (value : glm.vec4) (sh : t) : t := <[name := UVec4 value]> sh.
Definition setMat4Value (name : string) (value : glm.mat4) (sh : t) : t := <[name := UMat4 value]> sh.
Definition setSampler2DValue (name : string) (value : Z) (sh : t) : t :=
  <[name := USampler2D value]> sh.

End ShaderManager.

(** ** The mesh library (external): the draw calls the scene issues *)

Module ShapeMeshes.

Inductive BoxSide := back | front | left | right | top | bottom.

Inductive draw :=
| DrawBoxMesh
| DrawBoxMeshSide (side : BoxSide)
| DrawCylinderMesh (bDrawTop bDrawBottom bDrawSides : bool)
| DrawExtraTorusMesh1
| DrawHalfSphereMesh
| DrawHalfTorusMesh
| DrawPlaneMesh
| DrawSphereMesh
| DrawTaperedCylinderMesh (bDrawTop bDrawBottom bDrawSides : bool).

End ShapeMeshes.

(** ** OpenGL and the image decoder (external) *)

Module GL.

Inductive format := GL_RGB8 | GL_RGBA8.

(** What [stbi_load] hands back for a file it could decode. *)
Record stbi_image := mkimage { width : Z; height : Z; colorChannels : Z }.

(** Texture names handed out so far, the texture bound to [GL_TEXTURE_2D],
    and the images uploaded by [glTexImage2D] (name, format, width, height). *)
Record state := mkstate {
  generated : list Z;
  bound_2D : Z;
  uploads : list (Z * format * Z * Z)
}.

Definition glBindTexture (name : Z) (g : state) : state :=
  mkstate (generated g) name (uploads g).

Definition glTexImage2D (f : format) (w h : Z) (g : state) : state :=
  mkstate (generated g) (bound_2D g) ((bound_2D g, f, w, h) :: uploads g).

End GL.

(** ** SceneManager.cpp *)

Module TEXTURE_INFO.
Record t := mk { ID : Z; tag : string }.
End TEXTURE_INFO.

Module OBJECT_MATERIAL.
Record t := mk {
  diffuseColor : glm.vec3;
  specularColor : glm.vec3;
  shininess : R;
  tag : string
}.
End OBJECT_MATERIAL.

(** Modelled from the spec: the declaration of [m_textureIDs] is in
    SceneManager.h, which is not among the sources; the spec caps the texture
    registry at 16 entries and the comments of [BindGLTextures] and
    [LoadSceneTextures] speak of 16 slots, so the array has 16 elements. *)
Definition MAX_TEXTURES : Z := 16.

(** The names of the uniforms (the anonymous namespace of the file). *)
Definition g_ModelName : string := "model".
Definition g_ColorValueName : string := "objectColor".
Definition g_TextureValueName : string := "objectTexture".
Definition g_UseTextureName : string := "bUseTexture".
Definition g_UseLightingName : string := "bUseLighting".

(** The object, with the shader manager it points to ([None] for [NULL]),
    the GL context it drives and the draw calls issued so far, each with the
    uniform values it was issued under. *)
Record SceneManager := mkSceneManager {
  m_pShaderManager : option ShaderManager.t;
  m_textureIDs : list TEXTURE_INFO.t;
  m_loadedTextures : Z;
  m_objectMaterials : list OBJECT_MATERIAL.t;
  gl : GL.state;
  drawn : list (ShapeMeshes.draw * option ShaderManager.t)
}.

(** Undefined behaviour the code can run into. *)
Inductive fault :=
| NullPointer
| OutOfBounds (index : Z).

Inductive outcome (A : Type) :=
| Done (a : A)
| Crash (f : fault).
Arguments Done {A} a.
Arguments Crash {A} f.

(** A method of [SceneManager]: it runs on the object and either returns a
    value and the updated object, or stops on a fault. *)
Definition M (A : Type) : Type := SceneManager -> outcome (A * SceneManager).

Definition ret {A} (a : A) : M A := fun st => Done (a, st).
Definition bind {A B} (c : M A) (k : A -> M B) : M B :=
  fun st => match c st with
            | Done (a, st') => k a st'
            | Crash f => Crash f
            end.
Definition get : M SceneManager := fun st => Done (st, st).

#[global] Instance M_ret : MRet M := @ret.
#[global] Instance M_bind : MBind M := fun A B k c => bind c k.

(** [m_textureIDs[index]], read.  The list is the array, its length the
    declared size. *)
Definition texture_at (index : Z) : M TEXTURE_INFO.t :=
  fun st =>
    if 0 <=? index then
      match m_textureIDs st !! Z.to_nat index with
      | Some e => Done (e, st)
      | None => Crash (OutOfBounds index)
      end
    else Crash (OutOfBounds index).

(** [m_textureIDs[index].ID = id; m_textureIDs[index].tag = tag;] *)
Definition set_texture_at (index : Z) (e : TEXTURE_INFO.t) : M unit :=
  fun st =>
    if (0 <=? index) && (index <? Z.of_nat (length (m_textureIDs st))) then
      Done (tt, mkSceneManager (m_pShaderManager st)
                  (<[Z.to_nat index := e]> (m_textureIDs st))
                  (m_loadedTextures st) (m_objectMaterials st) (gl st) (drawn st))
    else Crash (OutOfBounds index).

Definition set_loadedTextures (n : Z) : M unit :=
  fun st => Done (tt, mkSceneManager (m_pShaderManager st) (m_textureIDs st) n
                        (m_objectMaterials st) (gl st) (drawn st)).

Definition with_gl (f : GL.state -> GL.state) : M unit :=
  fun st => Done (tt, mkSceneManager (m_pShaderManager st) (m_textureIDs st)
                        (m_loadedTextures st) (m_objectMaterials st) (f (gl st)) (drawn st)).

(** A call [m_pShaderManager->set...(...)]: through a null pointer it is a
    fault. *)
Definition shader_call (f : ShaderManager.t -> ShaderManager.t) : M unit :=
  fun st =>
    match m_pShaderManager st with
    | Some sh => Done (tt, mkSceneManager (Some (f sh)) (m_textureIDs st)
                             (m_loadedTextures st) (m_objectMaterials st) (gl st) (drawn st))
    | None => Crash NullPointer
    end.

(** A call [m_basicMeshes->Draw...()]: the draw is issued under the uniform
    values staged at that moment. *)
Definition mesh_call (d : ShapeMeshes.draw) : M unit :=
  fun st => Done (tt, mkSceneManager (m_pShaderManager st) (m_textureIDs st)
                        (m_loadedTextures st) (m_objectMaterials st) (gl st)
                        (drawn st ++ [(d, m_pShaderManager st)])).

Definition has_shader (st : SceneManager) : bool :=
  match m_pShaderManager st with Some _ => true | None => false end.

Section SceneManager_methods.

(** The collaborators' answers: what [stbi_load] returns for a file name
    ([None] when it cannot decode it), and the texture name
    [glGenTextures(1, &textureID)] writes in a given GL state. *)
Variable stbi_load : string -> option GL.stbi_image.
Variable fresh_texture_name : GL.state -> Z.

(** The indeterminate contents of the local [OBJECT_MATERIAL material;] of
    [SetShaderMaterial]. *)
Variable indeterminate : OBJECT_MATERIAL.t.

Definition glGenTextures : M Z :=
  fun st =>
    let name := fresh_texture_name (gl st) in
    Done (name, mkSceneManager (m_pShaderManager st) (m_textureIDs st)
                  (m_loadedTextures st) (m_objectMaterials st)
                  (GL.mkstate (name :: GL.generated (gl st)) (GL.bound_2D (gl st))
                              (GL.uploads (gl st)))
                  (drawn st)).

(** The tail of [CreateGLTexture], after the upload: unbind, register the
    texture under the tag in the next slot, count it. *)
Definition register_texture (textureID : Z) (tag : string) : M bool :=
  with_gl (GL.glBindTexture 0);;
  st ← get;
  set_texture_at (m_loadedTextures st) (TEXTURE_INFO.mk textureID tag);;
  set_loadedTextures (m_loadedTextures st + 1);;
  mret true.

(** [CreateGLTexture(filename, tag)].  The texture parameters, the mipmaps
    and the release of the decoded image leave no trace in [GL.state]. *)
Definition CreateGLTexture (filename : string) (tag : string) : M bool :=
  match stbi_load filename with
  | Some image =>
      textureID ← glGenTextures;
      with_gl (GL.glBindTexture textureID);;
      if GL.colorChannels image =? 3 then
        with_gl (GL.glTexImage2D GL.GL_RGB8 (GL.width image) (GL.height image));;
        register_texture textureID tag
      else if GL.colorChannels image =? 4 then
        with_gl (GL.glTexImage2D GL.GL_RGBA8 (GL.width image) (GL.height image));;
        register_texture textureID tag
      else
        mret false
  | None => mret false
  end.

(** The loops of [FindTextureID] and [FindTextureSlot] run while
    [index < m_loadedTextures] and nothing was found; [remaining] is
    [m_loadedTextures - index], the number of entries still to visit. *)
Fixpoint FindTextureID_loop (tag : string) (remaining : nat) (index : Z) : M Z :=
  match remaining with
  | O => mret (-1)
  | S remaining' =>
      e ← texture_at index;
      if String.eqb (TEXTURE_INFO.tag e) tag
      then mret (int_of_GLuint (TEXTURE_INFO.ID e))
      else FindTextureID_loop tag remaining' (index + 1)
  end.

Definition FindTextureID (tag : string) : M Z :=
  st ← get;
  FindTextureID_loop tag (Z.to_nat (m_loadedTextures st)) 0.

Fixpoint FindTextureSlot_loop (tag : string) (remaining : nat) (index : Z) : M Z :=
  match remaining with
  | O => mret (-1)
  | S remaining' =>
      e ← texture_at index;
      if String.eqb (TEXTURE_INFO.tag e) tag
      then mret index
      else FindTextureSlot_loop tag remaining' (index + 1)
  end.

Definition FindTextureSlot (tag : string) : M Z :=
  st ← get;
  FindTextureSlot_loop tag (Z.to_nat (m_loadedTextures st)) 0.

(** The loop of [FindMaterial] over the vector, from [index] on: the first
    entry with the tag is copied field by field into [material] (its own tag
    is not assigned). *)
Fixpoint FindMaterial_loop (tag : string) (from_index : list OBJECT_MATERIAL.t)
    (material : OBJECT_MATERIAL.t) : OBJECT_MATERIAL.t :=
  match from_index with
  | [] => material
  | m :: rest =>
      if String.eqb (OBJECT_MATERIAL.tag m) tag
      then OBJECT_MATERIAL.mk (OBJECT_MATERIAL.diffuseColor m)
                              (OBJECT_MATERIAL.specularColor m)
                              (OBJECT_MATERIAL.shininess m)
                              (OBJECT_MATERIAL.tag material)
      else FindMaterial_loop tag rest material
  end.

(** [FindMaterial(tag, material)]: the result and the out-parameter. *)
Definition FindMaterial (tag : string) (material : OBJECT_MATERIAL.t)
    : M (bool * OBJECT_MATERIAL.t) :=
  st ← get;
  if (length (m_objectMaterials st) =? 0)%nat then mret (false, material)
  else mret (true, FindMaterial_loop tag (m_objectMaterials st) material).

Definition SetTransformations (scaleXYZ : glm.vec3)
    (XrotationDegrees YrotationDegrees ZrotationDegrees : R)
    (positionXYZ : glm.vec3) : M unit :=
  let scale := glm.scale scaleXYZ in
  let rotationX := glm.rotate (glm.radians XrotationDegrees) (glm.mkvec3 1 0 0) in
  let rotationY := glm.rotate (glm.radians YrotationDegrees) (glm.mkvec3 0 1 0) in
  let rotationZ := glm.rotate (glm.radians ZrotationDegrees) (glm.mkvec3 0 0 1) in
  let translation := glm.translate positionXYZ in
  let modelView :=
    glm.mul (glm.mul (glm.mul (glm.mul translation rotationZ) rotationY) rotationX) scale in
  st ← get;
  if has_shader st
  then shader_call (ShaderManager.setMat4Value g_ModelName modelView)
  else mret tt.

Definition SetShaderColor (redColorValue greenColorValue blueColorValue alphaValue : R)
    : M unit :=
  let currentColor := glm.mkvec4 redColorValue greenColorValue blueColorValue alphaValue in
  st ← get;
  if has_shader st
  then shader_call (ShaderManager.setIntValue g_UseTextureName (Z.b2z false));;
       shader_call (ShaderManager.setVec4Value g_ColorValueName currentColor)
  else mret tt.

Definition SetShaderTexture (textureTag : string) : M unit :=
  st ← get;
  if has_shader st
  then shader_call (ShaderManager.setIntValue g_UseTextureName (Z.b2z true));;
       textureID ← FindTextureSlot textureTag;
       shader_call (ShaderManager.setSampler2DValue g_TextureValueName textureID)
  else mret tt.

Definition SetTextureUVScale (u v : R) : M unit :=
  st ← get;
  if has_shader st
  then shader_call (ShaderManager.setVec2Value "UVscale" (glm.mkvec2 u v))
  else mret tt.

Definition SetShaderMaterial (materialTag : string) : M unit :=
  st ← get;
  if (0 <? length (m_objectMaterials st))%nat then
    r ← FindMaterial materialTag indeterminate;
    let '(bReturn, material) := r in
    if (bReturn : bool) then
      shader_call (ShaderManager.setVec3Value "material.diffuseColor"
                     (OBJECT_MATERIAL.diffuseColor material));;
      shader_call (ShaderManager.setVec3Value "material.specularColor"
                     (OBJECT_MATERIAL.specularColor material));;
      shader_call (ShaderManager.setFloatValue "material.shininess"
                     (OBJECT_MATERIAL.shininess material))
    else mret tt
  else mret tt.

Local Open Scope R_scope.

Definition push_material (m : OBJECT_MATERIAL.t) : M unit :=
  fun st => Done (tt, mkSceneManager (m_pShaderManager st) (m_textureIDs st)
                        (m_loadedTextures st) (m_objectMaterials st ++ [m]) (gl st)
                        (drawn st)).

Definition DefineObjectMaterials : M unit :=
  let pacifierMaterial :=
    OBJECT_MATERIAL.mk (glm.mkvec3 1.0 0.85 0.2) (glm.mkvec3 0.8 0.7 0.3) 32.0
                       "pacifier_material" in
  push_material pacifierMaterial;;
  let floorMaterial :=
    OBJECT_MATERIAL.mk (glm.mkvec3 0.7 0.7 0.7) (glm.mkvec3 0.3 0.3 0.3) 2.0
                       "floor_material" in
  push_material floorMaterial;;
  let glassMaterial :=
    OBJECT_MATERIAL.mk (glm.mkvec3 0.2 0.6 0.2) (glm.mkvec3 1.0 1.0 1.0) 128.0
                       "glass" in
  push_material glassMaterial;;
  let metalLidMaterial :=
    OBJECT_MATERIAL.mk (glm.mkvec3 0.1 0.3 0.1) (glm.mkvec3 0.5 0.5 0.5) 64.0
                       "metal_lid_material" in
  push_material metalLidMaterial;;
  let plasticBottleMaterial :=
    OBJECT_MATERIAL.mk (glm.mkvec3 0.95 0.85 0.9) (glm.mkvec3 0.4 0.4 0.4) 5.0
                       "plastic_bottle_material" in
  push_material plasticBottleMaterial;;
  let brownGlassMaterial :=
    OBJECT_MATERIAL.mk (glm.mkvec3 0.5 0.3 0.1) (glm.mkvec3 0.3 0.3 0.3) 128.0
                       "brown_glass_material" in
  push_material brownGlassMaterial.

(** [RenderJam(Xpos, Ypos, Zpos)]: the jar of jam, nine draws. *)
Definition RenderJam (Xpos Ypos Zpos : R) : M unit :=
  (* Jam body (Box) *)
  let scaleXYZ := glm.mkvec3 6.0 3.0 6.0 in
  let XrotationDegrees := 0.0 in
  let YrotationDegrees := -15.0 in
  let ZrotationDegrees := 0.0 in
  let positionXYZ := glm.mkvec3 (0.0 + Xpos) (2.5 + Ypos) (0.0 + Zpos) in
  SetTransformations scaleXYZ XrotationDegrees YrotationDegrees ZrotationDegrees positionXYZ;;
  SetTextureUVScale 1 1;;
  SetShaderTexture "Jam_2";;
  mesh_call (ShapeMeshes.DrawBoxMeshSide ShapeMeshes.right);;
  SetTextureUVScale 1 1;;
  SetShaderTexture "Jam";;
  mesh_call (ShapeMeshes.DrawBoxMeshSide ShapeMeshes.bottom);;
  SetTextureUVScale 1 1;;
  SetShaderTexture "Nutrition_facts";;
  mesh_call (ShapeMeshes.DrawBoxMeshSide ShapeMeshes.left);;
  SetShaderColor 0.28 0.18 0.10 1.0;;
  SetShaderMaterial "brown_glass_material";;
  mesh_call (ShapeMeshes.DrawBoxMeshSide ShapeMeshes.front);;
  (* Jam base (Box) *)
  let scaleXYZ := glm.mkvec3 6.0 1.0 6.0 in
  let XrotationDegrees := 0.0 in
  let YrotationDegrees := -15.0 in
  let ZrotationDegrees := 0.0 in
  let positionXYZ := glm.mkvec3 (0.0 + Xpos) (0.50 + Ypos) (0.0 + Zpos) in
  SetTransformations scaleXYZ XrotationDegrees YrotationDegrees ZrotationDegrees positionXYZ;;
  SetShaderColor 0.28 0.18 0.10 1.0;;
  SetShaderMaterial "brown_glass_material";;
  mesh_call ShapeMeshes.DrawBoxMesh;;
  (* Jam upper body (Box) *)
  let scaleXYZ := glm.mkvec3 6.0 1.5 6.0 in
  let XrotationDegrees := 0.0 in
  let YrotationDegrees := -15.0 in
  let ZrotationDegrees := 0.0 in
  let positionXYZ := glm.mkvec3 (0.0 + Xpos) (4.75 + Ypos) (0.0 + Zpos) in
  SetTransformations scaleXYZ XrotationDegrees YrotationDegrees ZrotationDegrees positionXYZ;;
  SetShaderColor 0.28 0.18 0.10 1.0;;
  SetShaderMaterial "brown_glass_material";;
  mesh_call ShapeMeshes.DrawBoxMesh;;
  (* Jam Neck (Cylinder) *)
  let scaleXYZ := glm.mkvec3 2.5 1.0 2.5 in
  let XrotationDegrees := 0.0 in
  let YrotationDegrees := 0.0 in
  let ZrotationDegrees := 0.0 in
  let positionXYZ := glm.mkvec3 (0.0 + Xpos) (5.5 + Ypos) (0.0 + Zpos) in
  SetTransformations scaleXYZ XrotationDegrees YrotationDegrees ZrotationDegrees positionXYZ;;
  SetShaderColor 0.28 0.18 0.10 1.0;;
  SetShaderMaterial "brown_glass_material";;
  mesh_call (ShapeMeshes.DrawCylinderMesh false false true);;
  (* Jam Lid (Torus + Cylinder) *)
  let scaleXYZ := glm.mkvec3 2.5 2.5 5.0 in
  let XrotationDegrees := 90.0 in
  let YrotationDegrees := 0.0 in
  let ZrotationDegrees := 0.0 in
  let positionXYZ := glm.mkvec3 (0.0 + Xpos) (6.5 + Ypos) (0.0 + Zpos) in
  SetTransformations scaleXYZ XrotationDegrees YrotationDegrees ZrotationDegrees positionXYZ;;
  SetShaderColor 0.13 0.33 0.19 1.0;;
  SetShaderMaterial "metal_lid_material";;
  mesh_call ShapeMeshes.DrawExtraTorusMesh1;;
  let scaleXYZ := glm.mkvec3 2.5 1.0 2.5 in
  let XrotationDegrees := 0.0 in
  let YrotationDegrees := 0.0 in
  let ZrotationDegrees := 0.0 in
  let positionXYZ := glm.mkvec3 (0.0 + Xpos) (6.7 + Ypos) (0.0 + Zpos) in
  SetTransformations scaleXYZ XrotationDegrees YrotationDegrees ZrotationDegrees positionXYZ;;
  SetShaderColor 0.13 0.33 0.19 1.0;;
  SetShaderMaterial "metal_lid_material";;
  mesh_call (ShapeMeshes.DrawCylinderMesh false true false).

(** The origin [RenderScene] passes to [RenderJam]. *)
Definition jam_origin : glm.vec3 := glm.mkvec3 9.0 0.001 (-4.0).

End SceneManager_methods.

(** ** C++ floating point *)

(** [float] and [double] are the IEEE 754 formats binary32 and binary64.
    Their values are [spec_float]s: signed zeros and infinities, NaN, and
    the finite numbers [(-1)^s * m * 2^e].  Each operation is the one of the
    Standard Library's specification of IEEE arithmetic at the precision and
    the exponent range of its format, rounding to nearest, ties to even.
    Comparisons ([SFltb], [SFleb], [SFeqb]) do not depend on the format;
    every comparison with NaN is false. *)
Module binary32.

Definition prec : Z := 24.
Definition emax : Z := 128.

Definition of_Z (n : Z) : spec_float := binary_normalize prec emax n 0 false.
Definition mul : spec_float -> spec_float -> spec_float := SFmul prec emax.
Definition div : spec_float -> spec_float -> spec_float := SFdiv prec emax.

(** The value of a decimal literal with suffix [f], written as the quotient
    of two whole numbers below 2^24: the quotient rounded once. *)
Definition literal (num den : Z) : spec_float := div (of_Z num) (of_Z den).

(** The conversion of a [double] to [float]. *)
Definition of_double (x : spec_float) : spec_float :=
  match x with
  | S754_finite s m e => binary_round prec emax s m e
  | _ => x
  end.

End binary32.

Module binary64.

Definition prec : Z := 53.
Definition emax : Z := 1024.

Definition of_Z (n : Z) : spec_float := binary_normalize prec emax n 0 false.
Definition sub : spec_float -> spec_float -> spec_float := SFsub prec emax.

(** The promotion of a [float] to [double], which is exact. *)
Definition of_float (x : spec_float) : spec_float :=
  match x with
  | S754_finite s m e => binary_round prec emax s m e
  | _ => x
  end.

End binary64.

(** The number a finite floating-point value stands for; zero for the
    infinities and NaN, which stand for none. *)
Definition float_value (x : spec_float) : Q :=
  match x with
  | S754_finite s m e => inject_Z (cond_Zopp s (Zpos m)) * 2 ^ e
  | _ => 0
  end.

(** ** ViewManager.cpp *)

Module ViewManager.

Definition WINDOW_WIDTH : Z := 1000.
Definition WINDOW_HEIGHT : Z := 800.

(** The globals of the anonymous namespace the two callbacks use, all of
    them [float]s but the flag, and the calls
    [g_pCamera->ProcessMouseMovement(xOffset, yOffset)] made so far, oldest
    first (the camera class is external; its parameters are [float]s). *)
Record globals := mkglobals {
  gLastX : spec_float;
  gLastY : spec_float;
  gFirstMouse : bool;
  cameraSpeed : spec_float;
  ProcessMouseMovement_calls : list (spec_float * spec_float)
}.

(** The initialisers of the globals: [WINDOW_WIDTH / 2.0f],
    [WINDOW_HEIGHT / 2.0f], [true], [1.0f]. *)
Definition initial : globals :=
  mkglobals (binary32.div (binary32.of_Z WINDOW_WIDTH) (binary32.literal 2 1))
            (binary32.div (binary32.of_Z WINDOW_HEIGHT) (binary32.literal 2 1))
            true (binary32.literal 1 1) [].

(** [Mouse_Position_Callback(window, xMousePos, yMousePos)], the samples
    being [double]s.  The assignments to [gLastX] and [gLastY] narrow the
    sample to [float]; in [xMousePos - gLastX] the global is promoted and
    the difference, taken in [double], is narrowed by the initialisation of
    the [float] [xOffset]. *)
Definition Mouse_Position_Callback (xMousePos yMousePos : spec_float) (g : globals)
    : globals :=
  let g :=
    if gFirstMouse g
    then mkglobals (binary32.of_double xMousePos) (binary32.of_double yMousePos) false
                   (cameraSpeed g) (ProcessMouseMovement_calls g)
    else g in
  let xOffset :=
    binary32.of_double (binary64.sub xMousePos (binary64.of_float (gLastX g))) in
  let yOffset :=
    binary32.of_double (binary64.sub (binary64.of_float (gLastY g)) yMousePos) in
  mkglobals (binary32.of_double xMousePos) (binary32.of_double yMousePos)
            (gFirstMouse g) (cameraSpeed g)
            (ProcessMouseMovement_calls g ++ [(xOffset, yOffset)]).

Definition set_cameraSpeed (s : spec_float) (g : globals) : globals :=
  mkglobals (gLastX g) (gLastY g) (gFirstMouse g) s (ProcessMouseMovement_calls g).

(** [Mouse_Scroll_Wheel_Callback(window, x, yScrollDistance)]: the distance
    is a [double], compared with 0; the products and the comparisons with
    [0.1f] and [10.0f] are [float] operations. *)
Definition Mouse_Scroll_Wheel_Callback (x yScrollDistance : spec_float) (g : globals)
    : globals :=
  let g :=
    if SFltb (binary64.of_Z 0) yScrollDistance
    then set_cameraSpeed (binary32.mul (cameraSpeed g) (binary32.literal 11 10)) g
    else if SFltb yScrollDistance (binary64.of_Z 0)
    then set_cameraSpeed (binary32.mul (cameraSpeed g) (binary32.literal 9 10)) g
    else g in
  let g := if SFltb (cameraSpeed g) (binary32.literal 1 10)
           then set_cameraSpeed (binary32.literal 1 10) g else g in
  let g := if SFltb (binary32.literal 10 1) (cameraSpeed g)
           then set_cameraSpeed (binary32.literal 10 1) g else g in
  g.

(** A session: the events the window host delivers, in order. *)
Inductive event :=
| CursorPos (xMousePos yMousePos : spec_float)
| Scroll (x yScrollDistance : spec_float).

Definition dispatch (g : globals) (e : event) : globals :=
  match e with
  | CursorPos x y => Mouse_Position_Callback x y g
  | Scroll x y => Mouse_Scroll_Wheel_Callback x y g
  end.

Definition session (events : list event) (g : globals) : globals :=
  fold_left dispatch events g.

End ViewManager.

(** ** SceneManager.cpp: releasing the textures *)

(** [DestroyGLTextures()]: for each loaded slot,
    [glGenTextures(1, &m_textureIDs[i].ID)], which writes a newly generated
    name over the ID of the slot. *)
Fixpoint DestroyGLTextures_loop (fresh_texture_name : GL.state -> Z)
    (remaining : nat) (i : Z) : M unit :=
  match remaining with
  | O => mret tt
  | S remaining' =>
      e ← texture_at i;
      name ← glGenTextures fresh_texture_name;
      set_texture_at i (TEXTURE_INFO.mk name (TEXTURE_INFO.tag e));;
      DestroyGLTextures_loop fresh_texture_name remaining' (i + 1)
  end.

Definition DestroyGLTextures (fresh_texture_name : GL.state -> Z) : M unit :=
  st ← get;
  DestroyGLTextures_loop fresh_texture_name (Z.to_nat (m_loadedTextures st)) 0.

(** ** SceneManager.cpp: the scene *)

(** The mesh library (external): the load calls on [m_basicMeshes]. *)
Module BasicMeshes.

Inductive load :=
| LoadPlaneMesh
| LoadTorusMesh
| LoadSphereMesh
| LoadCylinderMesh
| LoadTaperedCylinderMesh
| LoadExtraTorusMesh1 (thickness : R)
| LoadBoxMesh.

End BasicMeshes.

(** The GL context has several texture units, one of them selected by
    [glActiveTexture]; [glBindTexture] and [glTexImage2D] act on the selected
    one, so [GL.bound_2D] of the scene manager's GL state is the
    [GL_TEXTURE_2D] binding of the selected unit.  A [Context] adds to the
    scene manager the index of the selected unit, the bindings of the units
    left behind, and the loads [m_basicMeshes] was asked for. *)
Record Context := mkContext {
  scene : SceneManager;
  active_texture : Z;
  other_units : gmap Z Z;
  loaded_meshes : list BasicMeshes.load
}.

(** A method that also selects texture units or loads meshes. *)
Definition C (A : Type) : Type := Context -> outcome (A * Context).

#[global] Instance C_ret : MRet C := fun A a c => Done (a, c).
#[global] Instance C_bind : MBind C :=
  fun A B k m c => match m c with
                   | Done (a, c') => k a c'
                   | Crash f => Crash f
                   end.

Definition get_context : C Context := fun c => Done (c, c).

(** A method of the scene manager, run in the context. *)
Definition on_scene {A} (m : M A) : C A :=
  fun c => match m (scene c) with
           | Done (a, st') =>
               Done (a, mkContext st' (active_texture c) (other_units c) (loaded_meshes c))
           | Crash f => Crash f
           end.

(** A call [m_basicMeshes->Load...()]. *)
Definition mesh_load (l : BasicMeshes.load) : C unit :=
  fun c => Done (tt, mkContext (scene c) (active_texture c) (other_units c)
                       (loaded_meshes c ++ [l])).

(** The [GL_TEXTURE_2D] binding of a texture unit; a unit never bound has
    texture 0. *)
Definition unit_binding (c : Context) (index : Z) : Z :=
  if index =? active_texture c then GL.bound_2D (gl (scene c))
  else default 0 (other_units c !! index).

Section Scene_methods.

Variable stbi_load : string -> option GL.stbi_image.
Variable fresh_texture_name : GL.state -> Z.
Variable indeterminate : OBJECT_MATERIAL.t.

(** The number of texture units of the implementation
    ([GL_MAX_COMBINED_TEXTURE_IMAGE_UNITS]). *)
Variable max_texture_units : Z.

(** [glActiveTexture(GL_TEXTURE0 + index)]: the unit becomes the selected
    one and its binding the current one; for a unit the implementation does
    not have the call is an error ([GL_INVALID_ENUM]) and changes nothing. *)
Definition glActiveTexture (index : Z) : C unit :=
  fun c =>
    if (0 <=? index) && (index <? max_texture_units) then
      let st := scene c in
      let left_behind :=
        <[active_texture c := GL.bound_2D (gl st)]> (other_units c) in
      Done (tt, mkContext
                  (mkSceneManager (m_pShaderManager st) (m_textureIDs st)
                     (m_loadedTextures st) (m_objectMaterials st)
                     (GL.glBindTexture (default 0 (left_behind !! index)) (gl st))
                     (drawn st))
                  index left_behind (loaded_meshes c))
    else Done (tt, c).

(** The loop of [BindGLTextures]: [remaining] is [m_loadedTextures - i]. *)
Fixpoint BindGLTextures_loop (remaining : nat) (i : Z) : C unit :=
  match remaining with
  | O => mret tt
  | S remaining' =>
      glActiveTexture i;;
      e ← on_scene (texture_at i);
      on_scene (with_gl (GL.glBindTexture (TEXTURE_INFO.ID e)));;
      BindGLTextures_loop remaining' (i + 1)
  end.

Definition BindGLTextures : C unit :=
  c ← get_context;
  BindGLTextures_loop (Z.to_nat (m_loadedTextures (scene c))) 0.

(** [LoadSceneTextures()]: thirteen files, then the binding of the units. *)
Definition LoadSceneTextures : C unit :=
  let bReturn := false in
  bReturn ← on_scene (CreateGLTexture stbi_load fresh_texture_name
                        "textures/wood-floor.jpg" "Floor");
  bReturn ← on_scene (CreateGLTexture stbi_load fresh_texture_name
                        "textures/Mustard_Yellow_Rubber.jpg" "Yellow_rubber");
  bReturn ← on_scene (CreateGLTexture stbi_load fresh_texture_name
                        "textures/Martinellis_Label.jpg" "Bottle_label");
  bReturn ← on_scene (CreateGLTexture stbi_load fresh_texture_name
                        "textures/Aluminium_Foil.jpg" "Metal_wrap");
  bReturn ← on_scene (CreateGLTexture stbi_load fresh_texture_name
                        "textures/Cup_Blue_Pastel.jpg" "Blue_pastel");
  bReturn ← on_scene (CreateGLTexture stbi_load fresh_texture_name
                        "textures/Metal_Ribbon.jpg" "Metal_Ribbon");
  bReturn ← on_scene (CreateGLTexture stbi_load fresh_texture_name
                        "textures/Door.png" "Door");
  bReturn ← on_scene (CreateGLTexture stbi_load fresh_texture_name
                        "textures/Wood_trim_1.jpg" "Trim1");
  bReturn ← on_scene (CreateGLTexture stbi_load fresh_texture_name
                        "textures/Wood_trim_2.jpg" "Trim2");
  bReturn ← on_scene (CreateGLTexture stbi_load fresh_texture_name
                        "textures/Wall_texture.jpg" "Wall");
  bReturn ← on_scene (CreateGLTexture stbi_load fresh_texture_name
                        "textures/Jam_lable.png" "Jam");
  bReturn ← on_scene (CreateGLTexture stbi_load fresh_texture_name
                        "textures/Jam_lable_2.png" "Jam_2");
  bReturn ← on_scene (CreateGLTexture stbi_load fresh_texture_name
                        "textures/Nutrition_Label.png" "Nutrition_facts");
  BindGLTextures.

Local Open Scope R_scope.

(** [SetupSceneLights()]: the calls go through [m_pShaderManager] without a
    test for [NULL]. *)
Definition SetupSceneLights : M unit :=
  shader_call (ShaderManager.setBoolValue g_UseLightingName true);;
  shader_call (ShaderManager.setVec3Value "pointLights[0].position"
                 (glm.mkvec3 0.0 70.0 0.0));;
  shader_call (ShaderManager.setVec3Value "pointLights[0].ambient"
                 (glm.mkvec3 0.35 0.35 0.35));;
  shader_call (ShaderManager.setVec3Value "pointLights[0].diffuse"
                 (glm.mkvec3 0.65 0.65 0.65));;
  shader_call (ShaderManager.setVec3Value "pointLights[0].specular"
                 (glm.mkvec3 0.35 0.35 0.35));;
  shader_call (ShaderManager.setFloatValue "pointLights[0].constant" 1.0);;
  shader_call (ShaderManager.setFloatValue "pointLights[0].linear" 0.075);;
  shader_call (ShaderManager.setFloatValue "pointLights[0].quadratic" 0.02);;
  shader_call (ShaderManager.setBoolValue "pointLights[0].bActive" true);;
  shader_call (ShaderManager.setVec3Value "pointLights[1].position"
                 (glm.mkvec3 0.0 2.0 30.0));;
  shader_call (ShaderManager.setVec3Value "pointLights[1].ambient"
                 (glm.mkvec3 0.2 0.2 0.2));;
  shader_call (ShaderManager.setVec3Value "pointLights[1].diffuse"
                 (glm.mkvec3 0.5 0.5 0.5));;
  shader_call (ShaderManager.setVec3Value "pointLights[1].specular"
                 (glm.mkvec3 0.25 0.25 0.25));;
  shader_call (ShaderManager.setFloatValue "pointLights[1].constant" 1.0);;
  shader_call (ShaderManager.setFloatValue "pointLights[1].linear" 0.1);;
  shader_call (ShaderManager.setFloatValue "pointLights[1].quadratic" 0.03);;
  shader_call (ShaderManager.setBoolValue "pointLights[1].bActive" true).

Definition PrepareScene : C unit :=
  LoadSceneTextures;;
  on_scene (DefineObjectMaterials);;
  on_scene SetupSceneLights;;
  mesh_load BasicMeshes.LoadPlaneMesh;;
  mesh_load BasicMeshes.LoadTorusMesh;;
  mesh_load BasicMeshes.LoadSphereMesh;;
  mesh_load BasicMeshes.LoadCylinderMesh;;
  mesh_load BasicMeshes.LoadTaperedCylinderMesh;;
  mesh_load (BasicMeshes.LoadExtraTorusMesh1 0.1);;
  mesh_load BasicMeshes.LoadBoxMesh.

(** [RenderBackground()]: the floor, the walls, the door and the trims, eight draws. *)
Definition RenderBackground : M unit :=
  let XrotationDegrees := 0.0 in
  let YrotationDegrees := 0.0 in
  let ZrotationDegrees := 0.0 in
  let scaleXYZ := glm.mkvec3 50.0 1.0 60.0 in
  let XrotationDegrees := 0.0 in
  let YrotationDegrees := 0.0 in
  let ZrotationDegrees := 0.0 in
  let positionXYZ := glm.mkvec3 0.0 0.0 (-10.0) in
  SetTransformations scaleXYZ XrotationDegrees YrotationDegrees ZrotationDegrees positionXYZ;;
  SetShaderColor 1 1 1 1;;
  SetTextureUVScale 0.3 0.3;;
  SetShaderTexture "Floor";;
  SetShaderMaterial indeterminate "floor_material";;
  mesh_call ShapeMeshes.DrawPlaneMesh;;
  let scaleXYZ := glm.mkvec3 50.0 1.0 60.0 in
  let XrotationDegrees := 90.0 in
  let YrotationDegrees := 0.0 in
  let ZrotationDegrees := 0.0 in
  let positionXYZ := glm.mkvec3 0.0 64.0 (-50.0) in
  SetTransformations scaleXYZ XrotationDegrees YrotationDegrees ZrotationDegrees positionXYZ;;
  SetTextureUVScale 1 1;;
  SetShaderTexture "Door";;
  mesh_call ShapeMeshes.DrawPlaneMesh;;
  let scaleXYZ := glm.mkvec3 50.0 1.0 3.0 in
  let XrotationDegrees := 90.0 in
  let YrotationDegrees := 0.0 in
  let ZrotationDegrees := 0.0 in
  let positionXYZ := glm.mkvec3 0.0 0.0 (-50.0) in
  SetTransformations scaleXYZ XrotationDegrees YrotationDegrees ZrotationDegrees positionXYZ;;
  SetTextureUVScale 1 0.1;;
  SetShaderTexture "Trim2";;
  mesh_call ShapeMeshes.DrawPlaneMesh;;
  let scaleXYZ := glm.mkvec3 50.0 1.0 0.50 in
  let XrotationDegrees := 90.0 in
  let YrotationDegrees := 0.0 in
  let ZrotationDegrees := 0.0 in
  let positionXYZ := glm.mkvec3 0.0 3.5 (-50.0) in
  SetTransformations scaleXYZ XrotationDegrees YrotationDegrees ZrotationDegrees positionXYZ;;
  SetShaderColor 0.0 0.0 0.0 1.0;;
  mesh_call ShapeMeshes.DrawPlaneMesh;;
  let scaleXYZ := glm.mkvec3 50.0 1.0 60.0 in
  let XrotationDegrees := 90.0 in
  let YrotationDegrees := 90.0 in
  let ZrotationDegrees := 0.0 in
  let positionXYZ := glm.mkvec3 (-50.0) 64.0 0.0 in
  SetTransformations scaleXYZ XrotationDegrees YrotationDegrees ZrotationDegrees positionXYZ;;
  SetTextureUVScale 1 1;;
  SetShaderTexture "Wall";;
  mesh_call ShapeMeshes.DrawPlaneMesh;;
  let scaleXYZ := glm.mkvec3 50.0 1.0 4.0 in
  let XrotationDegrees := 90.0 in
  let YrotationDegrees := 90.0 in
  let ZrotationDegrees := 0.0 in
  let positionXYZ := glm.mkvec3 (-50.0) 0.0 0.0 in
  SetTransformations scaleXYZ XrotationDegrees YrotationDegrees ZrotationDegrees positionXYZ;;
  SetTextureUVScale 1 0.1;;
  SetShaderTexture "Trim1";;
  mesh_call ShapeMeshes.DrawPlaneMesh;;
  let scaleXYZ := glm.mkvec3 50.0 1.0 60.0 in
  let XrotationDegrees := 90.0 in
  let YrotationDegrees := 90.0 in
  let ZrotationDegrees := 0.0 in
  let positionXYZ := glm.mkvec3 50.0 64.0 0.0 in
  SetTransformations scaleXYZ XrotationDegrees YrotationDegrees ZrotationDegrees positionXYZ;;
  SetTextureUVScale 1 1;;
  SetShaderTexture "Wall";;
  mesh_call ShapeMeshes.DrawPlaneMesh;;
  let scaleXYZ := glm.mkvec3 50.0 1.0 4.0 in
  let XrotationDegrees := 90.0 in
  let YrotationDegrees := 90.0 in
  let ZrotationDegrees := 0.0 in
  let positionXYZ := glm.mkvec3 50.0 0.0 0.0 in
  SetTransformations scaleXYZ XrotationDegrees YrotationDegrees ZrotationDegrees positionXYZ;;
  SetTextureUVScale 1 0.1;;
  SetShaderTexture "Trim1";;
  mesh_call ShapeMeshes.DrawPlaneMesh.

(** [RenderPacifier(Xpos, Ypos, Zpos)]: the pacifier, five draws. *)
Definition RenderPacifier (Xpos Ypos Zpos : R) : M unit :=
  let XrotationDegrees := 0.0 in
  let YrotationDegrees := 0.0 in
  let ZrotationDegrees := 0.0 in
  let scaleXYZ := glm.mkvec3 1.25 1.2 1.0 in
  let XrotationDegrees := 225.0 in
  let YrotationDegrees := 45.0 in
  let ZrotationDegrees := 0.0 in
  let positionXYZ := glm.mkvec3 (0.0 + Xpos) (1.1 + Ypos) (0.0 + Zpos) in
  SetTransformations scaleXYZ XrotationDegrees YrotationDegrees ZrotationDegrees positionXYZ;;
  SetTextureUVScale 1 0.2;;
  SetShaderTexture "Yellow_rubber";;
  SetShaderMaterial indeterminate "pacifier_material";;
  mesh_call ShapeMeshes.DrawHalfTorusMesh;;
  let scaleXYZ := glm.mkvec3 0.25 1.7 1.7 in
  let XrotationDegrees := 0.0 in
  let YrotationDegrees := -30.0 in
  let ZrotationDegrees := 55.0 in
  let positionXYZ := glm.mkvec3 (0.0 + Xpos) (1.15 + Ypos) (0.0 + Zpos) in
  SetTransformations scaleXYZ XrotationDegrees YrotationDegrees ZrotationDegrees positionXYZ;;
  SetTextureUVScale 0.2 0.2;;
  SetShaderTexture "Yellow_rubber";;
  SetShaderMaterial indeterminate "pacifier_material";;
  mesh_call ShapeMeshes.DrawSphereMesh;;
  let scaleXYZ := glm.mkvec3 0.85 0.85 0.85 in
  let XrotationDegrees := 30.0 in
  let YrotationDegrees := 0.0 in
  let ZrotationDegrees := 315.0 in
  let positionXYZ := glm.mkvec3 (0.0 + Xpos) (1.15 + Ypos) (0.0 + Zpos) in
  SetTransformations scaleXYZ XrotationDegrees YrotationDegrees ZrotationDegrees positionXYZ;;
  SetTextureUVScale 0.2 0.2;;
  SetShaderTexture "Yellow_rubber";;
  SetShaderMaterial indeterminate "pacifier_material";;
  mesh_call ShapeMeshes.DrawHalfSphereMesh;;
  let scaleXYZ := glm.mkvec3 0.4 1.25 0.4 in
  let XrotationDegrees := 30.0 in
  let YrotationDegrees := 0.0 in
  let ZrotationDegrees := 325.0 in
  let positionXYZ := glm.mkvec3 (0.35 + Xpos) (1.65 + Ypos) (0.35 + Zpos) in
  SetTransformations scaleXYZ XrotationDegrees YrotationDegrees ZrotationDegrees positionXYZ;;
  SetTextureUVScale 0.2 0.2;;
  SetShaderTexture "Yellow_rubber";;
  SetShaderMaterial indeterminate "pacifier_material";;
  mesh_call (ShapeMeshes.DrawCylinderMesh false false true);;
  let scaleXYZ := glm.mkvec3 0.45 0.45 0.45 in
  let XrotationDegrees := 0.0 in
  let YrotationDegrees := 0.0 in
  let ZrotationDegrees := 0.0 in
  let positionXYZ := glm.mkvec3 (0.9 + Xpos) (2.45 + Ypos) (0.9 + Zpos) in
  SetTransformations scaleXYZ XrotationDegrees YrotationDegrees ZrotationDegrees positionXYZ;;
  SetTextureUVScale 0.2 0.2;;
  SetShaderTexture "Yellow_rubber";;
  SetShaderMaterial indeterminate "pacifier_material";;
  mesh_call ShapeMeshes.DrawSphereMesh.

(** [RenderBabyLotion(Xpos, Ypos, Zpos)]: the bottle of baby lotion, four draws. *)
Definition RenderBabyLotion (Xpos Ypos Zpos : R) : M unit :=
  let XrotationDegrees := 0.0 in
  let YrotationDegrees := 0.0 in
  let ZrotationDegrees := 0.0 in
  let scaleXYZ := glm.mkvec3 0.45 1.0 0.45 in
  let XrotationDegrees := 0.0 in
  let YrotationDegrees := 0.0 in
  let ZrotationDegrees := 0.0 in
  let positionXYZ := glm.mkvec3 (0.0 + Xpos) (6.0 + Ypos) (0.0 + Zpos) in
  SetTransformations scaleXYZ XrotationDegrees YrotationDegrees ZrotationDegrees positionXYZ;;
  SetShaderColor 0.92 0.87 0.90 1.0;;
  SetShaderMaterial indeterminate "plastic_bottle_material";;
  mesh_call (ShapeMeshes.DrawCylinderMesh true false true);;
  let scaleXYZ := glm.mkvec3 2.5 2.0 1.40 in
  let XrotationDegrees := 0.0 in
  let YrotationDegrees := 0.0 in
  let ZrotationDegrees := 180.0 in
  let positionXYZ := glm.mkvec3 (0.0 + Xpos) (2.001 + Ypos) (0.0 + Zpos) in
  SetTransformations scaleXYZ XrotationDegrees YrotationDegrees ZrotationDegrees positionXYZ;;
  SetShaderColor 0.94 0.67 0.83 1.0;;
  SetShaderMaterial indeterminate "plastic_bottle_material";;
  mesh_call (ShapeMeshes.DrawTaperedCylinderMesh true false true);;
  let scaleXYZ := glm.mkvec3 2.5 3.0 1.40 in
  let XrotationDegrees := 0.0 in
  let YrotationDegrees := 0.0 in
  let ZrotationDegrees := 0.0 in
  let positionXYZ := glm.mkvec3 (0.0 + Xpos) (2.0 + Ypos) (0.0 + Zpos) in
  SetTransformations scaleXYZ XrotationDegrees YrotationDegrees ZrotationDegrees positionXYZ;;
  SetShaderColor 0.94 0.67 0.83 1.0;;
  SetShaderMaterial indeterminate "plastic_bottle_material";;
  mesh_call (ShapeMeshes.DrawTaperedCylinderMesh false false true);;
  let scaleXYZ := glm.mkvec3 1.25 1.0 0.70 in
  let XrotationDegrees := 0.0 in
  let YrotationDegrees := 0.0 in
  let ZrotationDegrees := 0.0 in
  let positionXYZ := glm.mkvec3 (0.0 + Xpos) (5.0 + Ypos) (0.0 + Zpos) in
  SetTransformations scaleXYZ XrotationDegrees YrotationDegrees ZrotationDegrees positionXYZ;;
  SetShaderColor 0.94 0.67 0.83 0.30;;
  SetShaderMaterial indeterminate "plastic_bottle_material";;
  mesh_call (ShapeMeshes.DrawTaperedCylinderMesh true false true).

(** [RenderCup(Xpos, Ypos, Zpos)]: the cup, two draws. *)
Definition RenderCup (Xpos Ypos Zpos : R) : M unit :=
  let XrotationDegrees := 0.0 in
  let YrotationDegrees := 0.0 in
  let ZrotationDegrees := 0.0 in
  let scaleXYZ := glm.mkvec3 4.5 8.0 4.5 in
  let XrotationDegrees := 0.0 in
  let YrotationDegrees := 30.0 in
  let ZrotationDegrees := 0.0 in
  let positionXYZ := glm.mkvec3 (0.0 + Xpos) (0.0 + Ypos) (0.0 + Zpos) in
  SetTransformations scaleXYZ XrotationDegrees YrotationDegrees ZrotationDegrees positionXYZ;;
  SetTextureUVScale 1 0.2;;
  SetShaderTexture "Blue_pastel";;
  mesh_call (ShapeMeshes.DrawCylinderMesh false true true);;
  let scaleXYZ := glm.mkvec3 2.75 4.0 2.5 in
  let XrotationDegrees := 320.0 in
  let YrotationDegrees := 0.0 in
  let ZrotationDegrees := 270.0 in
  let positionXYZ := glm.mkvec3 (3.39 + Xpos) (4.0 + Ypos) ((-2.94) + Zpos) in
  SetTransformations scaleXYZ XrotationDegrees YrotationDegrees ZrotationDegrees positionXYZ;;
  SetShaderColor 0.13 0.25 0.39 1.0;;
  mesh_call ShapeMeshes.DrawHalfTorusMesh.

(** [RenderBottle(Xpos, Ypos, Zpos)]: the bottle, eight draws. *)
Definition RenderBottle (Xpos Ypos Zpos : R) : M unit :=
  let XrotationDegrees := 0.0 in
  let YrotationDegrees := 0.0 in
  let ZrotationDegrees := 0.0 in
  let scaleXYZ := glm.mkvec3 3.75 8.5 3.75 in
  let XrotationDegrees := 0.0 in
  let YrotationDegrees := 100.0 in
  let ZrotationDegrees := 0.0 in
  let positionXYZ := glm.mkvec3 (0.0 + Xpos) (1.5 + Ypos) (0.0 + Zpos) in
  SetTransformations scaleXYZ XrotationDegrees YrotationDegrees ZrotationDegrees positionXYZ;;
  SetTextureUVScale (-1) 1;;
  SetShaderTexture "Bottle_label";;
  mesh_call (ShapeMeshes.DrawCylinderMesh false false true);;
  let scaleXYZ := glm.mkvec3 1.79 2.0 1.79 in
  let XrotationDegrees := 0.0 in
  let YrotationDegrees := 0.0 in
  let ZrotationDegrees := 0.0 in
  let positionXYZ := glm.mkvec3 (0.0 + Xpos) (15.75 + Ypos) (0.0 + Zpos) in
  SetTransformations scaleXYZ XrotationDegrees YrotationDegrees ZrotationDegrees positionXYZ;;
  SetTextureUVScale 1 1;;
  SetShaderTexture "Metal_Ribbon";;
  mesh_call (ShapeMeshes.DrawTaperedCylinderMesh false false true);;
  let scaleXYZ := glm.mkvec3 0.96 5.5 0.96 in
  let XrotationDegrees := 0.0 in
  let YrotationDegrees := 0.0 in
  let ZrotationDegrees := 0.0 in
  let positionXYZ := glm.mkvec3 (0.0 + Xpos) (17.6 + Ypos) (0.0 + Zpos) in
  SetTransformations scaleXYZ XrotationDegrees YrotationDegrees ZrotationDegrees positionXYZ;;
  SetTextureUVScale 1 1;;
  SetShaderTexture "Metal_wrap";;
  mesh_call (ShapeMeshes.DrawCylinderMesh true false true);;
  let scaleXYZ := glm.mkvec3 1.0 1.0 5.0 in
  let XrotationDegrees := 90.0 in
  let YrotationDegrees := 0.0 in
  let ZrotationDegrees := 0.0 in
  let positionXYZ := glm.mkvec3 (0.0 + Xpos) (22.0 + Ypos) (0.0 + Zpos) in
  SetTransformations scaleXYZ XrotationDegrees YrotationDegrees ZrotationDegrees positionXYZ;;
  SetTextureUVScale 0.5 0.5;;
  SetShaderTexture "Metal_wrap";;
  mesh_call ShapeMeshes.DrawExtraTorusMesh1;;
  let scaleXYZ := glm.mkvec3 3.39 3.39 15.0 in
  let XrotationDegrees := 90.0 in
  let YrotationDegrees := 0.0 in
  let ZrotationDegrees := 0.0 in
  let positionXYZ := glm.mkvec3 (0.0 + Xpos) (1.5 + Ypos) (0.0 + Zpos) in
  SetTransformations scaleXYZ XrotationDegrees YrotationDegrees ZrotationDegrees positionXYZ;;
  SetShaderColor 0.16 0.26 0.10 0.90;;
  SetShaderMaterial indeterminate "glass";;
  mesh_call ShapeMeshes.DrawExtraTorusMesh1;;
  let scaleXYZ := glm.mkvec3 3.39 1.0 3.39 in
  let XrotationDegrees := 0.0 in
  let YrotationDegrees := 0.0 in
  let ZrotationDegrees := 0.0 in
  let positionXYZ := glm.mkvec3 (0.0 + Xpos) (1.5 + Ypos) (0.0 + Zpos) in
  SetTransformations scaleXYZ XrotationDegrees YrotationDegrees ZrotationDegrees positionXYZ;;
  SetShaderColor 0.16 0.26 0.10 0.90;;
  SetShaderMaterial indeterminate "glass";;
  mesh_call (ShapeMeshes.DrawCylinderMesh false true false);;
  let scaleXYZ := glm.mkvec3 3.39 3.39 20.0 in
  let XrotationDegrees := 90.0 in
  let YrotationDegrees := 0.0 in
  let ZrotationDegrees := 0.0 in
  let positionXYZ := glm.mkvec3 (0.0 + Xpos) (10.0 + Ypos) (0.0 + Zpos) in
  SetTransformations scaleXYZ XrotationDegrees YrotationDegrees ZrotationDegrees positionXYZ;;
  SetShaderColor 0.16 0.26 0.10 0.90;;
  SetShaderMaterial indeterminate "glass";;
  mesh_call ShapeMeshes.DrawExtraTorusMesh1;;
  let scaleXYZ := glm.mkvec3 3.545 4.0 3.545 in
  let XrotationDegrees := 0.0 in
  let YrotationDegrees := 0.0 in
  let ZrotationDegrees := 0.0 in
  let positionXYZ := glm.mkvec3 (0.0 + Xpos) (11.8 + Ypos) (0.0 + Zpos) in
  SetTransformations scaleXYZ XrotationDegrees YrotationDegrees ZrotationDegrees positionXYZ;;
  SetShaderColor 0.16 0.26 0.10 0.90;;
  SetShaderMaterial indeterminate "glass";;
  mesh_call (ShapeMeshes.DrawTaperedCylinderMesh false false true).

(** [RenderScene()]: the six objects in turn, each at its origin. *)
Definition RenderScene : M unit :=
  RenderBackground;;
  RenderPacifier 2.8 0.075 2.0;;
  RenderCup (-9.0) 0.005 (-7.0);;
  RenderBottle 1.0 0.0 (-8.0);;
  RenderJam indeterminate 9.0 0.001 (-4.0);;
  RenderBabyLotion 0.0 0.0 0.0.

End Scene_methods.

(** ** ViewManager.cpp: the frame *)

(** GLFW (external): the keys the view manager asks about, and a window
    with the keys held down and its close flag. *)
Module GLFW.

Inductive key :=
| KEY_ESCAPE | KEY_W | KEY_S | KEY_A | KEY_D | KEY_Q | KEY_E | KEY_P | KEY_O
| KEY_1 | KEY_2 | KEY_3 | KEY_4.

Record window := mkwindow { pressed : key -> bool; should_close : bool }.

End GLFW.

(** The camera (external): the members the view manager reads and writes,
    and the other members of the object. *)
Module Camera.

Inductive Camera_Movement := FORWARD | BACKWARD | LEFT | RIGHT | UP | DOWN.

Record t (members : Type) := mk {
  Position : glm.vec3;
  Front : glm.vec3;
  Up : glm.vec3;
  Zoom : R;
  other_members : members
}.
Arguments mk {members}.
Arguments Position {members}.
Arguments Front {members}.
Arguments Up {members}.
Arguments Zoom {members}.
Arguments other_members {members}.

End Camera.

Module View.
Local Open Scope R_scope.

Definition g_ViewName : string := "view".
Definition g_ProjectionName : string := "projection".

(** The view manager and the globals of its file: those of the callbacks,
    the frame times, the projection flag, the camera, the window
    ([None] for [NULL]) and the shader manager ([None] for [NULL]). *)
Record state (members : Type) := mkstate {
  callbacks : ViewManager.globals;
  gDeltaTime : R;
  gLastFrame : R;
  bOrthographicProjection : bool;
  g_pCamera : Camera.t members;
  m_pWindow : option GLFW.window;
  m_pShaderManager : option ShaderManager.t
}.
Arguments mkstate {members}.
Arguments callbacks {members}.
Arguments gDeltaTime {members}.
Arguments gLastFrame {members}.
Arguments bOrthographicProjection {members}.
Arguments g_pCamera {members}.
Arguments m_pWindow {members}.
Arguments m_pShaderManager {members}.

Definition V (members : Type) (A : Type) : Type :=
  state members -> outcome (A * state members).

#[global] Instance V_ret (members : Type) : MRet (V members) :=
  fun A a v => Done (a, v).
#[global] Instance V_bind (members : Type) : MBind (V members) :=
  fun A B k m v => match m v with
                   | Done (a, v') => k a v'
                   | Crash f => Crash f
                   end.

Section Frame.

Variable members : Type.

(** The methods of the camera and the two projections of GLM the view
    manager calls. *)
Variable ProcessKeyboard : Camera.Camera_Movement -> R -> Camera.t members -> Camera.t members.
Variable GetViewMatrix : Camera.t members -> glm.mat4.
Variable ortho : R -> R -> R -> R -> R -> R -> glm.mat4.
Variable perspective : R -> R -> R -> R -> glm.mat4.

Definition get : V members (state members) := fun v => Done (v, v).

(** [glfwGetKey(m_pWindow, key) == GLFW_PRESS]; GLFW reads the key states
    through the window pointer. *)
Definition glfwGetKey (key : GLFW.key) : V members bool :=
  fun v => match m_pWindow v with
           | Some w => Done (GLFW.pressed w key, v)
           | None => Crash NullPointer
           end.

Definition glfwSetWindowShouldClose (value : bool) : V members unit :=
  fun v => match m_pWindow v with
           | Some w =>
               Done (tt, mkstate (callbacks v) (gDeltaTime v) (gLastFrame v)
                           (bOrthographicProjection v) (g_pCamera v)
                           (Some (GLFW.mkwindow (GLFW.pressed w) value))
                           (m_pShaderManager v))
           | None => Crash NullPointer
           end.

(** A statement on the camera. *)
Definition camera_call (f : Camera.t members -> Camera.t members) : V members unit :=
  fun v => Done (tt, mkstate (callbacks v) (gDeltaTime v) (gLastFrame v)
                       (bOrthographicProjection v) (f (g_pCamera v)) (m_pWindow v)
                       (m_pShaderManager v)).

Definition set_Position (p : glm.vec3) (c : Camera.t members) : Camera.t members :=
  Camera.mk p (Camera.Front c) (Camera.Up c) (Camera.Zoom c) (Camera.other_members c).
Definition set_Up (u : glm.vec3) (c : Camera.t members) : Camera.t members :=
  Camera.mk (Camera.Position c) (Camera.Front c) u (Camera.Zoom c) (Camera.other_members c).
Definition set_Front (f : glm.vec3) (c : Camera.t members) : Camera.t members :=
  Camera.mk (Camera.Position c) f (Camera.Up c) (Camera.Zoom c) (Camera.other_members c).

Definition set_bOrthographicProjection (b : bool) : V members unit :=
  fun v => Done (tt, mkstate (callbacks v) (gDeltaTime v) (gLastFrame v) b (g_pCamera v)
                       (m_pWindow v) (m_pShaderManager v)).

Definition set_frame_times (delta last : R) : V members unit :=
  fun v => Done (tt, mkstate (callbacks v) delta last (bOrthographicProjection v)
                       (g_pCamera v) (m_pWindow v) (m_pShaderManager v)).

Definition shader_call (f : ShaderManager.t -> ShaderManager.t) : V members unit :=
  fun v => match m_pShaderManager v with
           | Some sh =>
               Done (tt, mkstate (callbacks v) (gDeltaTime v) (gLastFrame v)
                           (bOrthographicProjection v) (g_pCamera v) (m_pWindow v)
                           (Some (f sh)))
           | None => Crash NullPointer
           end.

(** [g_pCamera->ProcessKeyboard(direction, gDeltaTime * cameraSpeed)]: the
    time step times the number the speed multiplier of the scroll callback
    stands for. *)
Definition move (direction : Camera.Camera_Movement) : V members unit :=
  v ← get;
  camera_call (ProcessKeyboard direction
                 (gDeltaTime v * Q2R (float_value (ViewManager.cameraSpeed (callbacks v))))).

Definition ProcessKeyboardEvents : V members unit :=
  key ← glfwGetKey GLFW.KEY_ESCAPE;
  (if (key : bool) then glfwSetWindowShouldClose true else mret tt);;
  key ← glfwGetKey GLFW.KEY_W;
  (if (key : bool) then move Camera.FORWARD else mret tt);;
  key ← glfwGetKey GLFW.KEY_S;
  (if (key : bool) then move Camera.BACKWARD else mret tt);;
  key ← glfwGetKey GLFW.KEY_A;
  (if (key : bool) then move Camera.LEFT else mret tt);;
  key ← glfwGetKey GLFW.KEY_D;
  (if (key : bool) then move Camera.RIGHT else mret tt);;
  key ← glfwGetKey GLFW.KEY_Q;
  (if (key : bool) then move Camera.UP else mret tt);;
  key ← glfwGetKey GLFW.KEY_E;
  (if (key : bool) then move Camera.DOWN else mret tt);;
  key ← glfwGetKey GLFW.KEY_P;
  (if (key : bool) then set_bOrthographicProjection false else mret tt);;
  key ← glfwGetKey GLFW.KEY_O;
  (if (key : bool) then set_bOrthographicProjection true else mret tt);;
  key ← glfwGetKey GLFW.KEY_1;
  (if (key : bool) then
     camera_call (set_Position (glm.mkvec3 0.0 5.0 25.0));;
     camera_call (set_Up (glm.mkvec3 0.0 1.0 0.0));;
     camera_call (set_Front (glm.normalize (glm.mkvec3 0.0 0.0 (-1.0))))
   else mret tt);;
  key ← glfwGetKey GLFW.KEY_2;
  (if (key : bool) then
     camera_call (set_Position (glm.mkvec3 25.0 5.0 0.0));;
     camera_call (set_Up (glm.mkvec3 0.0 1.0 0.0));;
     camera_call (set_Front (glm.normalize (glm.mkvec3 (-1.0) 0.0 0.0)))
   else mret tt);;
  key ← glfwGetKey GLFW.KEY_3;
  (if (key : bool) then
     camera_call (set_Position (glm.mkvec3 0.0 30.0 0.01));;
     camera_call (set_Up (glm.mkvec3 0.0 0.0 (-1.0)));;
     camera_call (set_Front (glm.mkvec3 0.0 (-1.0) 0.0))
   else mret tt);;
  key ← glfwGetKey GLFW.KEY_4;
  (if (key : bool) then
     camera_call (set_Position (glm.mkvec3 (-20.0) 8.0 20.0));;
     camera_call (set_Up (glm.mkvec3 0.0 1.0 0.0));;
     camera_call (set_Front (glm.normalize (glm.mkvec3 1.0 (-0.3) (-1.0))))
   else mret tt).

(** [PrepareSceneView()], in a frame in which [glfwGetTime()] returns
    [currentFrame]. *)
Definition PrepareSceneView (currentFrame : R) : V members unit :=
  v ← get;
  set_frame_times (currentFrame - gLastFrame v) currentFrame;;
  ProcessKeyboardEvents;;
  v ← get;
  let view := GetViewMatrix (g_pCamera v) in
  let projection :=
    if bOrthographicProjection v then
      let orthoSize := 20.0 in
      ortho (- orthoSize) orthoSize
            (- orthoSize * (IZR ViewManager.WINDOW_HEIGHT / IZR ViewManager.WINDOW_WIDTH))
            (orthoSize * (IZR ViewManager.WINDOW_HEIGHT / IZR ViewManager.WINDOW_WIDTH))
            0.1 100.0
    else
      perspective (glm.radians (Camera.Zoom (g_pCamera v)))
                  (IZR ViewManager.WINDOW_WIDTH / IZR ViewManager.WINDOW_HEIGHT)
                  0.1 100.0 in
  match m_pShaderManager v with
  | Some _ =>
      shader_call (ShaderManager.setMat4Value g_ViewName view);;
      shader_call (ShaderManager.setMat4Value g_ProjectionName projection);;
      shader_call (ShaderManager.setVec3Value "viewPosition" (Camera.Position (g_pCamera v)))
  | None => mret tt
  end.

End Frame.

End View.

(** * Properties *)

(** ** Vocabulary of the statements *)

(** The registry is within its array: the count of loaded textures is
    between 0 and the number of slots. *)
Definition registry_ok (st : SceneManager) : Prop :=
  0 <= m_loadedTextures st <= Z.of_nat (length (m_textureIDs st)).

(** The registered entries: the first [m_loadedTextures] slots. *)
Definition registered (st : SceneManager) : list TEXTURE_INFO.t :=
  take (Z.to_nat (m_loadedTextures st)) (m_textureIDs st).

Definition never_registered (tag : string) (st : SceneManager) : Prop :=
  Forall (fun e => TEXTURE_INFO.tag e <> tag) (registered st).

Definition no_material_tagged (tag : string) (st : SceneManager) : Prop :=
  Forall (fun m => OBJECT_MATERIAL.tag m <> tag) (m_objectMaterials st).

(** A scene manager before any texture or material is registered and any
    draw is issued, on the given shader manager or on none.  (The
    constructor assigns [m_pShaderManager] and [m_basicMeshes] only; the
    count is taken to start at 0 and the slots to be blank.) *)
Definition new_scene (shader : option ShaderManager.t) : SceneManager :=
  mkSceneManager shader (replicate (Z.to_nat MAX_TEXTURES) (TEXTURE_INFO.mk 0 ""))
                 0 [] (GL.mkstate [] 0 []) [].

(** Successive calls of [CreateGLTexture], one per (file name, tag), with
    the results in order. *)
Fixpoint CreateGLTexture_each (stbi_load : string -> option GL.stbi_image)
    (fresh_texture_name : GL.state -> Z) (files : list (string * string))
    : M (list bool) :=
  match files with
  | [] => mret []
  | (filename, tag) :: rest =>
      b ← CreateGLTexture stbi_load fresh_texture_name filename tag;
      bs ← CreateGLTexture_each stbi_load fresh_texture_name rest;
      mret (b :: bs)
  end.

(** Sixteen image files and their tags. *)
Definition sixteen_files : list (string * string) :=
  map (fun t => (("textures/" ++ t ++ ".jpg")%string, t))
      ["t0"; "t1"; "t2"; "t3"; "t4"; "t5"; "t6"; "t7";
       "t8"; "t9"; "t10"; "t11"; "t12"; "t13"; "t14"; "t15"].

(** A decoder that reads every file as a 64x64 RGB image, and a driver that
    numbers textures 1, 2, 3, ... *)
Definition every_file_rgb : string -> option GL.stbi_image :=
  fun _ => Some (GL.mkimage 64 64 3).
Definition counting_names : GL.state -> Z :=
  fun g => Z.of_nat (length (GL.generated g)) + 1.

(** The matrix [SetTransformations] hands to the shader, as the spec writes
    it: Translation . RotationZ . RotationY . RotationX . Scale, the angles
    in degrees. *)
Definition composed (scaleXYZ : glm.vec3) (rx ry rz : R) (positionXYZ : glm.vec3)
    : glm.mat4 :=
  glm.mul (glm.mul (glm.mul (glm.mul (glm.translate positionXYZ)
                                     (glm.rotate (glm.radians rz) (glm.mkvec3 0 0 1)))
                            (glm.rotate (glm.radians ry) (glm.mkvec3 0 1 0)))
                   (glm.rotate (glm.radians rx) (glm.mkvec3 1 0 0)))
          (glm.scale scaleXYZ).

(** The model matrix staged in a shader manager. *)
Definition staged_model (shader : option ShaderManager.t) : option glm.mat4 :=
  match shader with
  | Some sh => match sh !! g_ModelName with
               | Some (ShaderManager.UMat4 m) => Some m
               | _ => None
               end
  | None => None
  end.

(** Clamping to the interval [0.1f, 10.0f], as the spec words it. *)
Definition clamp (s : spec_float) : spec_float :=
  if SFltb s (binary32.literal 1 10) then binary32.literal 1 10
  else if SFltb (binary32.literal 10 1) s then binary32.literal 10 1
  else s.

(** A positive [float] with a full mantissa of 24 bits (a normal number)
    that compares from [0.1f] to [10.0f]. *)
Definition normal_speed (s : spec_float) : Prop :=
  exists m e,
    s = S754_finite false m e /\ 2 ^ 23 <= Zpos m < 2 ^ 24 /\
    SFleb (binary32.literal 1 10) s = true /\ SFleb s (binary32.literal 10 1) = true.

(** One tick of the wheel, up and down, as the window host reports it. *)
Definition scroll_up : ViewManager.event :=
  ViewManager.Scroll (binary64.of_Z 0) (binary64.of_Z 1).
Definition scroll_down : ViewManager.event :=
  ViewManager.Scroll (binary64.of_Z 0) (binary64.of_Z (-1)).

(** A sample as the [float] globals hold it. *)
Definition stored (sample : spec_float * spec_float) : spec_float * spec_float :=
  (binary32.of_double sample.1, binary32.of_double sample.2).

(** The offsets of a sample against a stored position: the differences,
    the y axis inverted, are taken in [double] against the stored [float]s
    and narrowed to [float]. *)
Definition offsets_to (previous : spec_float * spec_float) (x y : spec_float)
    : spec_float * spec_float :=
  (binary32.of_double (binary64.sub x (binary64.of_float previous.1)),
   binary32.of_double (binary64.sub (binary64.of_float previous.2) y)).

(** The offsets of a run of samples: each against the one before it as
    stored. *)
Fixpoint offsets_against (previous : spec_float * spec_float)
    (samples : list (spec_float * spec_float)) : list (spec_float * spec_float) :=
  match samples with
  | [] => []
  | (x, y) :: rest => offsets_to previous x y :: offsets_against (stored (x, y)) rest
  end.


(** A [double] that is a number and that a [float] holds exactly. *)
Definition representable (x : spec_float) : Prop :=
  match x with
  | S754_finite _ _ _ | S754_zero _ => binary64.of_float (binary32.of_double x) = x
  | _ => False
  end.

Definition cursor_events (samples : list (spec_float * spec_float))
    : list ViewManager.event :=
  map (fun p => ViewManager.CursorPos p.1 p.2) samples.

(** The index of the first entry carrying the tag, counted from [index], or
    -1: what a first-match search of the registered entries answers. *)
Fixpoint first_slot (tag : string) (entries : list TEXTURE_INFO.t) (index : Z) : Z :=
  match entries with
  | [] => -1
  | e :: rest =>
      if String.eqb (TEXTURE_INFO.tag e) tag then index
      else first_slot tag rest (index + 1)
  end.

(** The same for the name of that entry, as an [int]. *)
Fixpoint first_ID (tag : string) (entries : list TEXTURE_INFO.t) : Z :=
  match entries with
  | [] => -1
  | e :: rest =>
      if String.eqb (TEXTURE_INFO.tag e) tag then int_of_GLuint (TEXTURE_INFO.ID e)
      else first_ID tag rest
  end.

(** The image can be registered: 3 or 4 channels. *)
Definition supported (image : GL.stbi_image) : Prop :=
  GL.colorChannels image = 3 \/ GL.colorChannels image = 4.

Definition format_of (image : GL.stbi_image) : GL.format :=
  if GL.colorChannels image =? 3 then GL.GL_RGB8 else GL.GL_RGBA8.

(** A slot is free after the loaded ones. *)
Definition has_free_slot (st : SceneManager) : Prop :=
  0 <= m_loadedTextures st < Z.of_nat (length (m_textureIDs st)).

(** What a successful [CreateGLTexture] leaves behind. *)
Definition registered_state (st : SceneManager) (image : GL.stbi_image) (tag : string)
    (name : Z) : SceneManager :=
  mkSceneManager (m_pShaderManager st)
    (<[Z.to_nat (m_loadedTextures st) := TEXTURE_INFO.mk name tag]> (m_textureIDs st))
    (m_loadedTextures st + 1) (m_objectMaterials st)
    (GL.mkstate (name :: GL.generated (gl st)) 0
       ((name, format_of image, GL.width image, GL.height image) :: GL.uploads (gl st)))
    (drawn st).

(** The cursor events and the scroll events of a session. *)
Definition is_cursor (e : ViewManager.event) : bool :=
  match e with ViewManager.CursorPos _ _ => true | ViewManager.Scroll _ _ => false end.

Definition cursor_part (events : list ViewManager.event) : list ViewManager.event :=
  List.filter is_cursor events.

Definition scroll_part (events : list ViewManager.event) : list ViewManager.event :=
  List.filter (fun e => negb (is_cursor e)) events.

(** What the cursor callback reads and writes. *)
Definition pointer_state (g : ViewManager.globals)
    : spec_float * spec_float * bool * list (spec_float * spec_float) :=
  (ViewManager.gLastX g, ViewManager.gLastY g, ViewManager.gFirstMouse g,
   ViewManager.ProcessMouseMovement_calls g).

(** The files [LoadSceneTextures] loads and the tags it gives them, in
    order. *)
Definition scene_textures : list (string * string) :=
  [("textures/wood-floor.jpg", "Floor");
   ("textures/Mustard_Yellow_Rubber.jpg", "Yellow_rubber");
   ("textures/Martinellis_Label.jpg", "Bottle_label");
   ("textures/Aluminium_Foil.jpg", "Metal_wrap");
   ("textures/Cup_Blue_Pastel.jpg", "Blue_pastel");
   ("textures/Metal_Ribbon.jpg", "Metal_Ribbon");
   ("textures/Door.png", "Door");
   ("textures/Wood_trim_1.jpg", "Trim1");
   ("textures/Wood_trim_2.jpg", "Trim2");
   ("textures/Wall_texture.jpg", "Wall");
   ("textures/Jam_lable.png", "Jam");
   ("textures/Jam_lable_2.png", "Jam_2");
   ("textures/Nutrition_Label.png", "Nutrition_facts")].

(** Every file of the list decodes to an image of 3 or 4 channels. *)
Definition all_decodable (stbi_load : string -> option GL.stbi_image)
    (files : list (string * string)) : Prop :=
  Forall (fun file => exists image, stbi_load file.1 = Some image /\ supported image) files.

(** A context in which unit 0 is selected, no unit was bound yet and no mesh
    is loaded. *)
Definition fresh_context (st : SceneManager) : Context := mkContext st 0 ∅ [].

(** Two states of the scene manager that differ at most in the texture
    bound to the selected unit. *)
Definition same_but_binding (st st' : SceneManager) : Prop :=
  m_pShaderManager st' = m_pShaderManager st /\
  m_textureIDs st' = m_textureIDs st /\
  m_loadedTextures st' = m_loadedTextures st /\
  m_objectMaterials st' = m_objectMaterials st /\
  drawn st' = drawn st /\
  GL.generated (gl st') = GL.generated (gl st) /\
  GL.uploads (gl st') = GL.uploads (gl st).

(** Two states that differ at most in the texture registry and the GL
    state. *)
Definition same_but_textures (st st' : SceneManager) : Prop :=
  m_pShaderManager st' = m_pShaderManager st /\
  m_objectMaterials st' = m_objectMaterials st /\
  drawn st' = drawn st /\
  length (m_textureIDs st') = length (m_textureIDs st).
(** The statements of a renderer: a setter of the draw state or a draw. *)
Inductive step :=
| Transform (scaleXYZ : glm.vec3) (rx ry rz : R) (positionXYZ : glm.vec3)
| Color (r g b a : R)
| UVScale (u v : R)
| Texture (tag : string)
| Material (tag : string)
| Draw (d : ShapeMeshes.draw).

Definition run_step (indeterminate : OBJECT_MATERIAL.t) (s : step) : M unit :=
  match s with
  | Transform scaleXYZ rx ry rz positionXYZ => SetTransformations scaleXYZ rx ry rz positionXYZ
  | Color r g b a => SetShaderColor r g b a
  | UVScale u v => SetTextureUVScale u v
  | Texture tag => SetShaderTexture tag
  | Material tag => SetShaderMaterial indeterminate tag
  | Draw d => mesh_call d
  end.

Fixpoint run_steps (indeterminate : OBJECT_MATERIAL.t) (l : list step) : M unit :=
  match l with
  | [] => mret tt
  | s :: rest => run_step indeterminate s;; run_steps indeterminate rest
  end.

(** What a statement leaves in the shader manager, given the registered
    textures and the materials. *)
Definition stage (indeterminate : OBJECT_MATERIAL.t) (entries : list TEXTURE_INFO.t)
    (mats : list OBJECT_MATERIAL.t) (s : step) (sh : ShaderManager.t) : ShaderManager.t :=
  match s with
  | Transform scaleXYZ rx ry rz positionXYZ =>
      ShaderManager.setMat4Value g_ModelName (composed scaleXYZ rx ry rz positionXYZ) sh
  | Color r g b a =>
      ShaderManager.setVec4Value g_ColorValueName (glm.mkvec4 r g b a)
        (ShaderManager.setIntValue g_UseTextureName 0 sh)
  | UVScale u v => ShaderManager.setVec2Value "UVscale" (glm.mkvec2 u v) sh
  | Texture tag =>
      ShaderManager.setSampler2DValue g_TextureValueName (first_slot tag entries 0)
        (ShaderManager.setIntValue g_UseTextureName 1 sh)
  | Material tag =>
      match mats with
      | [] => sh
      | _ :: _ =>
          let material := FindMaterial_loop tag mats indeterminate in
          ShaderManager.setFloatValue "material.shininess"
            (OBJECT_MATERIAL.shininess material)
            (ShaderManager.setVec3Value "material.specularColor"
               (OBJECT_MATERIAL.specularColor material)
               (ShaderManager.setVec3Value "material.diffuseColor"
                  (OBJECT_MATERIAL.diffuseColor material) sh))
      end
  | Draw _ => sh
  end.

(** The draws a sequence of statements issues from a shader state, each
    with the uniform values it is issued under, and the shader state the
    sequence ends in. *)
Fixpoint issue (indeterminate : OBJECT_MATERIAL.t) (entries : list TEXTURE_INFO.t)
    (mats : list OBJECT_MATERIAL.t) (l : list step) (sh : ShaderManager.t)
    : list (ShapeMeshes.draw * option ShaderManager.t) :=
  match l with
  | [] => []
  | Draw d :: rest => (d, Some sh) :: issue indeterminate entries mats rest sh
  | s :: rest =>
      issue indeterminate entries mats rest (stage indeterminate entries mats s sh)
  end.

Fixpoint stage_all (indeterminate : OBJECT_MATERIAL.t) (entries : list TEXTURE_INFO.t)
    (mats : list OBJECT_MATERIAL.t) (l : list step) (sh : ShaderManager.t)
    : ShaderManager.t :=
  match l with
  | [] => sh
  | s :: rest =>
      stage_all indeterminate entries mats rest (stage indeterminate entries mats s sh)
  end.

(** The meshes drawn, in order. *)
Fixpoint draws_of (l : list step) : list ShapeMeshes.draw :=
  match l with
  | [] => []
  | Draw d :: rest => d :: draws_of rest
  | _ :: rest => draws_of rest
  end.

(** The model matrix each draw is issued under. *)
Fixpoint poses (l : list step) (current : option glm.mat4)
    : list (option glm.mat4) :=
  match l with
  | [] => []
  | Transform scaleXYZ rx ry rz positionXYZ :: rest =>
      poses rest (Some (composed scaleXYZ rx ry rz positionXYZ))
  | Draw d :: rest => current :: poses rest current
  | _ :: rest => poses rest current
  end.

Definition is_material (s : step) : bool :=
  match s with Material _ => true | _ => false end.

(** The meshes [RenderScene] draws, in order: the background, the pacifier,
    the cup, the bottle, the jar of jam and the bottle of lotion. *)
Definition scene_draws : list ShapeMeshes.draw :=
  [ShapeMeshes.DrawPlaneMesh;
   ShapeMeshes.DrawPlaneMesh;
   ShapeMeshes.DrawPlaneMesh;
   ShapeMeshes.DrawPlaneMesh;
   ShapeMeshes.DrawPlaneMesh;
   ShapeMeshes.DrawPlaneMesh;
   ShapeMeshes.DrawPlaneMesh;
   ShapeMeshes.DrawPlaneMesh;
   ShapeMeshes.DrawHalfTorusMesh;
   ShapeMeshes.DrawSphereMesh;
   ShapeMeshes.DrawHalfSphereMesh;
   ShapeMeshes.DrawCylinderMesh false false true;
   ShapeMeshes.DrawSphereMesh;
   ShapeMeshes.DrawCylinderMesh false true true;
   ShapeMeshes.DrawHalfTorusMesh;
   ShapeMeshes.DrawCylinderMesh false false true;
   ShapeMeshes.DrawTaperedCylinderMesh false false true;
   ShapeMeshes.DrawCylinderMesh true false true;
   ShapeMeshes.DrawExtraTorusMesh1;
   ShapeMeshes.DrawExtraTorusMesh1;
   ShapeMeshes.DrawCylinderMesh false true false;
   ShapeMeshes.DrawExtraTorusMesh1;
   ShapeMeshes.DrawTaperedCylinderMesh false false true;
   ShapeMeshes.DrawBoxMeshSide ShapeMeshes.right;
   ShapeMeshes.DrawBoxMeshSide ShapeMeshes.bottom;
   ShapeMeshes.DrawBoxMeshSide ShapeMeshes.left;
   ShapeMeshes.DrawBoxMeshSide ShapeMeshes.front;
   ShapeMeshes.DrawBoxMesh;
   ShapeMeshes.DrawBoxMesh;
   ShapeMeshes.DrawCylinderMesh false false true;
   ShapeMeshes.DrawExtraTorusMesh1;
   ShapeMeshes.DrawCylinderMesh false true false;
   ShapeMeshes.DrawCylinderMesh true false true;
   ShapeMeshes.DrawTaperedCylinderMesh true false true;
   ShapeMeshes.DrawTaperedCylinderMesh false false true;
   ShapeMeshes.DrawTaperedCylinderMesh true false true].

(** Two draws of a renderer run at an origin and at the origin (0, 0, 0):
    the same mesh, the model matrix of the first the translation by the
    origin after that of the second, every other uniform the same. *)
Definition moved_by (origin : glm.vec3)
    (a b : ShapeMeshes.draw * option ShaderManager.t) : Prop :=
  a.1 = b.1 /\
  exists sha shb ma mb,
    a.2 = Some sha /\ b.2 = Some shb /\
    sha !! g_ModelName = Some (ShaderManager.UMat4 ma) /\
    shb !! g_ModelName = Some (ShaderManager.UMat4 mb) /\
    ma = glm.mul (glm.translate origin) mb /\
    delete g_ModelName sha = delete g_ModelName shb.

(** The same statement, but for a position further by the origin. *)
Definition shift_step (origin : glm.vec3) (a b : step) : Prop :=
  match a, b with
  | Transform s1 rx1 ry1 rz1 p1, Transform s0 rx0 ry0 rz0 p0 =>
      s1 = s0 /\ rx1 = rx0 /\ ry1 = ry0 /\ rz1 = rz0 /\
      p1 = glm.mkvec3 (glm.x3 p0 + glm.x3 origin) (glm.y3 p0 + glm.y3 origin)
                      (glm.z3 p0 + glm.z3 origin)
  | Transform _ _ _ _ _, _ => False
  | _, Transform _ _ _ _ _ => False
  | _, _ => a = b
  end%R.

(** The uniforms a statement writes. *)
Definition writes (mats : list OBJECT_MATERIAL.t) (s : step) : list string :=
  match s with
  | Transform _ _ _ _ _ => [g_ModelName]
  | Color _ _ _ _ => [g_UseTextureName; g_ColorValueName]
  | UVScale _ _ => ["UVscale"]
  | Texture _ => [g_UseTextureName; g_TextureValueName]
  | Material _ =>
      match mats with
      | [] => []
      | _ :: _ => ["material.diffuseColor"; "material.specularColor"; "material.shininess"]
      end
  | Draw _ => []
  end.

Definition written (mats : list OBJECT_MATERIAL.t) (l : list step) : list string :=
  concat (writes mats <$> l).

Definition among (names : list string) (name : string) : bool :=
  existsb (String.eqb name) names.

(** Every uniform of [pending] is written before the first draw of the
    sequence. *)
Fixpoint settled (mats : list OBJECT_MATERIAL.t) (l : list step) (pending : list string)
    : bool :=
  match l with
  | [] => match pending with [] => true | _ :: _ => false end
  | Draw _ :: rest => match pending with [] => true | _ :: _ => false end
  | s :: rest =>
      settled mats rest (List.filter (fun name => negb (among (writes mats s) name)) pending)
  end.

(** The texture unit staged in a shader manager for the sampler. *)
Definition staged_sampler (shader : option ShaderManager.t) : option Z :=
  match shader with
  | Some sh => match sh !! g_TextureValueName with
               | Some (ShaderManager.USampler2D slot) => Some slot
               | _ => None
               end
  | None => None
  end.

(** The texture unit each draw is issued under. *)
Fixpoint samplers (entries : list TEXTURE_INFO.t) (l : list step) (current : option Z)
    : list (option Z) :=
  match l with
  | [] => []
  | Texture tag :: rest => samplers entries rest (Some (first_slot tag entries 0))
  | Draw d :: rest => current :: samplers entries rest current
  | _ :: rest => samplers entries rest current
  end.

(** Every material tag the sequence asks for is among the names. *)
Definition materials_known (names : list string) (l : list step) : bool :=
  forallb (fun s => match s with Material tag => among names tag | _ => true end) l.

(** The meshes [PrepareScene] loads, in order. *)
Definition scene_meshes : list BasicMeshes.load :=
  [BasicMeshes.LoadPlaneMesh; BasicMeshes.LoadTorusMesh; BasicMeshes.LoadSphereMesh;
   BasicMeshes.LoadCylinderMesh; BasicMeshes.LoadTaperedCylinderMesh;
   BasicMeshes.LoadExtraTorusMesh1 0.1; BasicMeshes.LoadBoxMesh].


(** The movement keys and their directions, in the order
    [ProcessKeyboardEvents] asks about them. *)
Definition movement_keys : list (GLFW.key * Camera.Camera_Movement) :=
  [(GLFW.KEY_W, Camera.FORWARD); (GLFW.KEY_S, Camera.BACKWARD);
   (GLFW.KEY_A, Camera.LEFT); (GLFW.KEY_D, Camera.RIGHT);
   (GLFW.KEY_Q, Camera.UP); (GLFW.KEY_E, Camera.DOWN)].

(** The camera after the movements of the keys held down, each by the same
    distance. *)
Definition moved {members : Type}
    (ProcessKeyboard : Camera.Camera_Movement -> R -> Camera.t members -> Camera.t members)
    (w : GLFW.window) (velocity : R) (c : Camera.t members) : Camera.t members :=
  fold_left (fun cam km => if GLFW.pressed w km.1 then ProcessKeyboard km.2 velocity cam
                           else cam)
            movement_keys c.

Definition with_pose {members : Type} (position up front : glm.vec3)
    (c : Camera.t members) : Camera.t members :=
  Camera.mk position front up (Camera.Zoom c) (Camera.other_members c).

(** The preset view of the highest of the keys 1 to 4 held down, if any. *)
Definition preset_view {members : Type} (w : GLFW.window) (c : Camera.t members)
    : Camera.t members :=
  (if GLFW.pressed w GLFW.KEY_4 then
     with_pose (glm.mkvec3 (-20) 8 20) (glm.mkvec3 0 1 0)
               (glm.normalize (glm.mkvec3 1 (-0.3) (-1))) c
   else if GLFW.pressed w GLFW.KEY_3 then
     with_pose (glm.mkvec3 0 30 0.01) (glm.mkvec3 0 0 (-1)) (glm.mkvec3 0 (-1) 0) c
   else if GLFW.pressed w GLFW.KEY_2 then
     with_pose (glm.mkvec3 25 5 0) (glm.mkvec3 0 1 0) (glm.mkvec3 (-1) 0 0) c
   else if GLFW.pressed w GLFW.KEY_1 then
     with_pose (glm.mkvec3 0 5 25) (glm.mkvec3 0 1 0) (glm.mkvec3 0 0 (-1)) c
   else c)%R.

(** The material tags the object renderers ask for, and those of the whole
    scene. *)
Definition object_materials : list string :=
  ["pacifier_material"; "plastic_bottle_material"; "brown_glass_material";
   "metal_lid_material"; "glass"].

Definition scene_materials : list string := "floor_material" :: object_materials.

(** No [SetShaderMaterial] for one of the tags reads its uninitialised
    local: the material registry is empty, so that the call sets nothing, or
    it defines each of the tags. *)
Definition materials_provided (mats : list OBJECT_MATERIAL.t) (tags : list string) : Prop :=
  mats = [] \/ Forall (fun tag => among (OBJECT_MATERIAL.tag <$> mats) tag = true) tags.

(** The material registry [DefineObjectMaterials] builds from none. *)
Definition defined_materials : list OBJECT_MATERIAL.t :=
  match DefineObjectMaterials (new_scene None) with
  | Done (_, st) => m_objectMaterials st
  | Crash _ => []
  end.

(** ** The material registry *)

Lemma FindMaterial_loop_no_match tag mats material :
  Forall (fun m => OBJECT_MATERIAL.tag m <> tag) mats ->
  FindMaterial_loop tag mats material = material.
Proof.
  induction 1 as [|m mats Hm _ IH]; simpl; [reflexivity|].
  destruct (String.eqb_spec (OBJECT_MATERIAL.tag m) tag); [contradiction|exact IH].
Qed.

(** C1. [FindMaterial] leaves the object as it is and returns [true] exactly
    when the material registry is non-empty, whether or not an entry carries
    the tag; when none does, the out-parameter comes back as it went in. *)
Theorem FindMaterial_true_iff_nonempty (tag : string) (material : OBJECT_MATERIAL.t)
    (st : SceneManager) :
  (exists b material',
      FindMaterial tag material st = Done ((b, material'), st) /\
      (b = true <-> m_objectMaterials st <> [])) /\
  (no_material_tagged tag st ->
   FindMaterial tag material st
   = Done ((negb (bool_decide (m_objectMaterials st = [])), material), st)).
Proof.
  unfold FindMaterial, no_material_tagged, mbind, M_bind, bind, get, mret, M_ret, ret.
  destruct (m_objectMaterials st) as [|m mats] eqn:E; simpl.
  - split; [|reflexivity].
    exists false, material. split; [reflexivity|]. split; [discriminate|congruence].
  - split.
    + eexists true, _. split; [reflexivity|]. split; [discriminate|reflexivity].
    + intros H. pose proof (FindMaterial_loop_no_match tag (m :: mats) material H) as L.
      simpl in L. rewrite L. reflexivity.
Qed.

Lemma FindMaterial_true_iff_nonempty_witness :
  let m := OBJECT_MATERIAL.mk (glm.mkvec3 0 0 0) (glm.mkvec3 0 0 0) 0 "glass" in
  let st := mkSceneManager None [] 0 [m] (GL.mkstate [] 0 []) [] in
  no_material_tagged "wood" st /\
  FindMaterial "wood" m st = Done ((true, m), st).
Proof.
  intros m st. split.
  - repeat constructor. discriminate.
  - apply (proj2 (FindMaterial_true_iff_nonempty "wood" m st)).
    repeat constructor. discriminate.
Defined.

(** ** The shader state channel without a shader manager *)

Ltac run_method :=
  unfold mbind, M_bind, bind, get, mret, M_ret, ret, shader_call,
    mesh_call, with_gl, set_loadedTextures, has_shader; simpl.

(** C2. With [m_pShaderManager == NULL], [SetTransformations],
    [SetShaderColor], [SetShaderTexture] and [SetTextureUVScale] return
    without touching anything, for all arguments and registries.
    [SetShaderMaterial] does so only while the material registry is empty:
    as soon as it holds an entry, it calls [setVec3Value] through the null
    pointer. *)
Theorem setters_with_null_shader (indeterminate : OBJECT_MATERIAL.t)
    (ids : list TEXTURE_INFO.t) (cnt : Z) (mats : list OBJECT_MATERIAL.t)
    (g : GL.state) (d : list (ShapeMeshes.draw * option ShaderManager.t)) :
  let st := mkSceneManager None ids cnt mats g d in
  (forall s rx ry rz p, SetTransformations s rx ry rz p st = Done (tt, st)) /\
  (forall r g b a, SetShaderColor r g b a st = Done (tt, st)) /\
  (forall tag, SetShaderTexture tag st = Done (tt, st)) /\
  (forall u v, SetTextureUVScale u v st = Done (tt, st)) /\
  (forall tag, SetShaderMaterial indeterminate tag st
               = match mats with
                 | [] => Done (tt, st)
                 | _ :: _ => Crash NullPointer
                 end).
Proof.
  intros st. repeat split; intros; try reflexivity.
  unfold SetShaderMaterial, FindMaterial. subst st. run_method.
  destruct mats; reflexivity.
Qed.

(** ** The texture registry *)

(** C4. When the image cannot be decoded, or is decoded with a channel count
    other than 3 and 4, [CreateGLTexture] returns [false] and the registry,
    its entries and its count, is as before. *)
Theorem CreateGLTexture_failure_keeps_registry
    (stbi_load : string -> option GL.stbi_image) (fresh_texture_name : GL.state -> Z)
    (filename tag : string) (st : SceneManager) :
  (stbi_load filename = None \/
   exists image, stbi_load filename = Some image /\
                 GL.colorChannels image <> 3 /\ GL.colorChannels image <> 4) ->
  exists st',
    CreateGLTexture stbi_load fresh_texture_name filename tag st = Done (false, st') /\
    m_textureIDs st' = m_textureIDs st /\
    m_loadedTextures st' = m_loadedTextures st.
Proof.
  unfold CreateGLTexture. intros [E | (image & E & H3 & H4)]; rewrite E.
  - exists st. repeat split.
  - unfold glGenTextures. run_method.
    destruct (Z.eqb_spec (GL.colorChannels image) 3) as [?|_]; [lia|].
    destruct (Z.eqb_spec (GL.colorChannels image) 4) as [?|_]; [lia|].
    eexists. repeat split.
Qed.

Lemma CreateGLTexture_failure_keeps_registry_witness :
  let stbi_load := fun _ : string => Some (GL.mkimage 8 8 1) in
  let st := new_scene None in
  (stbi_load "textures/grey.png" = None \/
   exists image, stbi_load "textures/grey.png" = Some image /\
                 GL.colorChannels image <> 3 /\ GL.colorChannels image <> 4) /\
  exists st',
    CreateGLTexture stbi_load counting_names "textures/grey.png" "Grey" st
    = Done (false, st') /\
    m_textureIDs st' = m_textureIDs st /\
    m_loadedTextures st' = m_loadedTextures st.
Proof.
  intros stbi_load st.
  assert (H : stbi_load "textures/grey.png" = None \/
              exists image, stbi_load "textures/grey.png" = Some image /\
                            GL.colorChannels image <> 3 /\ GL.colorChannels image <> 4).
  { right. exists (GL.mkimage 8 8 1). repeat split; simpl; lia. }
  split; [exact H|].
  exact (CreateGLTexture_failure_keeps_registry stbi_load counting_names
           "textures/grey.png" "Grey" st H).
Defined.

(** A decodable image with 3 or 4 channels, on a registry with a free slot
    after the loaded ones, is registered in that slot; the entries before
    and after it stay, and the count goes up by one. *)
Lemma CreateGLTexture_registers
    (stbi_load : string -> option GL.stbi_image) (fresh_texture_name : GL.state -> Z)
    (filename tag : string) (image : GL.stbi_image)
    (shader : option ShaderManager.t) (loaded : list TEXTURE_INFO.t)
    (free : TEXTURE_INFO.t) (more : list TEXTURE_INFO.t)
    (mats : list OBJECT_MATERIAL.t) (g : GL.state)
    (d : list (ShapeMeshes.draw * option ShaderManager.t)) :
  stbi_load filename = Some image ->
  GL.colorChannels image = 3 \/ GL.colorChannels image = 4 ->
  exists g',
    CreateGLTexture stbi_load fresh_texture_name filename tag
      (mkSceneManager shader (loaded ++ free :: more) (Z.of_nat (length loaded)) mats g d)
    = Done (true,
            mkSceneManager shader
              (loaded ++ TEXTURE_INFO.mk (fresh_texture_name g) tag :: more)
              (Z.of_nat (length loaded) + 1) mats g' d).
Proof.
  intros E Hc. unfold CreateGLTexture, register_texture, glGenTextures, set_texture_at.
  rewrite E. run_method.
  assert (Hin : (0 <=? Z.of_nat (length loaded))
                && (Z.of_nat (length loaded) <? Z.of_nat (length (loaded ++ free :: more)))
                = true).
  { apply andb_true_intro. split; [apply Z.leb_le | apply Z.ltb_lt].
    - lia.
    - rewrite length_app. simpl. lia. }
  assert (Hins : <[Z.to_nat (Z.of_nat (length loaded)) := TEXTURE_INFO.mk (fresh_texture_name g) tag]>
                   (loaded ++ free :: more)
                 = loaded ++ TEXTURE_INFO.mk (fresh_texture_name g) tag :: more).
  { rewrite Nat2Z.id, insert_app_r_alt by lia. rewrite Nat.sub_diag. reflexivity. }
  destruct Hc as [Hc|Hc]; rewrite Hc; simpl; rewrite Hin, Hins; eexists; reflexivity.
Qed.

(** C3. Nothing in [CreateGLTexture] compares [m_loadedTextures] with the
    size of [m_textureIDs]: when every slot of the array is loaded, one more
    decodable RGB image is not turned down, it is stored one past the end
    of the array.  With the 16 slots of a new scene manager, sixteen loads
    succeed and bring the count to 16, and the seventeenth is such a store
    at [m_textureIDs[16]]. *)
Theorem CreateGLTexture_seventeenth_out_of_bounds :
  (forall fresh_texture_name w h filename tag shader ids mats g d,
      CreateGLTexture (fun _ => Some (GL.mkimage w h 3)) fresh_texture_name filename tag
        (mkSceneManager shader ids (Z.of_nat (length ids)) mats g d)
      = Crash (OutOfBounds (Z.of_nat (length ids)))) /\
  (exists st16,
      CreateGLTexture_each every_file_rgb counting_names sixteen_files (new_scene None)
      = Done (replicate 16 true, st16) /\
      m_loadedTextures st16 = 16 /\
      length (m_textureIDs st16) = 16%nat /\
      CreateGLTexture every_file_rgb counting_names "textures/t16.jpg" "t16" st16
      = Crash (OutOfBounds 16)).
Proof.
  split.
  - intros. unfold CreateGLTexture, register_texture, glGenTextures, set_texture_at.
    run_method. rewrite Z.ltb_irrefl, andb_false_r. reflexivity.
  - eexists. split; [vm_compute; reflexivity|]. repeat split.
Qed.

Lemma texture_at_in_bounds (i : nat) (e : TEXTURE_INFO.t) (st : SceneManager) :
  m_textureIDs st !! i = Some e ->
  texture_at (Z.of_nat i) st = Done (e, st).
Proof.
  intros He. unfold texture_at.
  destruct (Z.leb_spec 0 (Z.of_nat i)); [|lia].
  rewrite Nat2Z.id, He. reflexivity.
Qed.

(** Both searches visit the same entries and stop at the same one: either
    none of the [n] entries from [i] on carries the tag and both answer -1,
    or both stop at the first one that does. *)
Lemma Find_loops_agree (tag : string) (st : SceneManager) (n i : nat) :
  (i + n <= length (m_textureIDs st))%nat ->
  exists slot id,
    FindTextureSlot_loop tag n (Z.of_nat i) st = Done (slot, st) /\
    FindTextureID_loop tag n (Z.of_nat i) st = Done (id, st) /\
    ((slot = -1 /\ id = -1 /\
      Forall (fun e => TEXTURE_INFO.tag e <> tag) (take n (drop i (m_textureIDs st))))
     \/
     (exists (k : nat) e,
         slot = Z.of_nat k /\ (i <= k < i + n)%nat /\
         m_textureIDs st !! k = Some e /\ TEXTURE_INFO.tag e = tag /\
         id = int_of_GLuint (TEXTURE_INFO.ID e) /\
         Forall (fun e => TEXTURE_INFO.tag e <> tag)
                (take (k - i) (drop i (m_textureIDs st))))).
Proof.
  revert i. induction n as [|n IH]; intros i Hin.
  - exists (-1), (-1). repeat split. left. repeat split. rewrite take_0. constructor.
  - destruct (lookup_lt_is_Some_2 (m_textureIDs st) i) as [e He]; [lia|].
    simpl. unfold mbind, M_bind, bind.
    rewrite (texture_at_in_bounds i e st) by assumption.
    destruct (String.eqb_spec (TEXTURE_INFO.tag e) tag) as [Heq|Hne].
    + exists (Z.of_nat i), (int_of_GLuint (TEXTURE_INFO.ID e)).
      repeat split. right. exists i, e. repeat split; try assumption; try lia.
      rewrite Nat.sub_diag, take_0. constructor.
    + destruct (IH (S i)) as (slot & id & Hs & Hi & Hcases); [lia|].
      replace (Z.of_nat i + 1) with (Z.of_nat (S i)) by lia.
      exists slot, id. repeat split; try assumption.
      rewrite (drop_S _ _ _ He).
      destruct Hcases as [(-> & -> & Hall) | (k & e' & -> & Hk & He' & Htag & -> & Hall)].
      * left. repeat split. simpl. constructor; assumption.
      * right. exists k, e'. repeat split; try assumption; try lia.
        replace (k - i)%nat with (S (k - S i)) by lia. simpl. constructor; assumption.
Qed.

Lemma FindTextureSlot_never_registered (tag : string) (st : SceneManager) :
  registry_ok st -> never_registered tag st ->
  FindTextureSlot tag st = Done (-1, st).
Proof.
  intros Hcnt Hnever. unfold registry_ok in Hcnt. unfold FindTextureSlot. run_method.
  destruct (Find_loops_agree tag st (Z.to_nat (m_loadedTextures st)) 0)
    as (slot & id & Hs & _ & Hcases); [lia|].
  change (Z.of_nat 0) with 0 in Hs. rewrite Hs.
  destruct Hcases as [(-> & _) | (k & e & _ & Hk & He & Htag & _)]; [reflexivity|].
  exfalso. unfold never_registered, registered in Hnever.
  rewrite Forall_forall in Hnever. apply (Hnever e); [|exact Htag].
  apply list_elem_of_lookup. exists k.
  rewrite lookup_take_lt by lia. exact He.
Qed.

(** C7. For a tag that no registered texture carries, [FindTextureSlot]
    answers -1, and [SetShaderTexture], on a scene manager with a shader
    manager, returns normally after setting [bUseTexture] to 1 ([true]) and
    the sampler [objectTexture] to -1; nothing else changes. *)
Theorem SetShaderTexture_unregistered_tag (tag : string) (sh : ShaderManager.t)
    (ids : list TEXTURE_INFO.t) (cnt : Z) (mats : list OBJECT_MATERIAL.t)
    (g : GL.state) (d : list (ShapeMeshes.draw * option ShaderManager.t)) :
  let st := mkSceneManager (Some sh) ids cnt mats g d in
  let sh' := ShaderManager.setSampler2DValue g_TextureValueName (-1)
               (ShaderManager.setIntValue g_UseTextureName 1 sh) in
  registry_ok st -> never_registered tag st ->
  FindTextureSlot tag st = Done (-1, st) /\
  SetShaderTexture tag st = Done (tt, mkSceneManager (Some sh') ids cnt mats g d) /\
  sh' !! g_UseTextureName = Some (ShaderManager.UInt 1) /\
  sh' !! g_TextureValueName = Some (ShaderManager.USampler2D (-1)).
Proof.
  intros st sh' Hok Hnever. split; [|split; [|split]].
  - apply FindTextureSlot_never_registered; assumption.
  - unfold SetShaderTexture. subst st. run_method.
    rewrite (FindTextureSlot_never_registered tag
               (mkSceneManager (Some (ShaderManager.setIntValue g_UseTextureName 1 sh))
                               ids cnt mats g d)) by assumption.
    reflexivity.
  - subst sh'. unfold ShaderManager.setSampler2DValue, ShaderManager.setIntValue.
    rewrite lookup_insert_ne by discriminate. apply lookup_insert_eq.
  - subst sh'. unfold ShaderManager.setSampler2DValue. apply lookup_insert_eq.
Qed.

Lemma SetShaderTexture_unregistered_tag_witness :
  let ids := TEXTURE_INFO.mk 1 "Door" :: TEXTURE_INFO.mk 2 "Wall"
             :: replicate 14 (TEXTURE_INFO.mk 0 "") in
  let st := mkSceneManager (Some ∅) ids 2 [] (GL.mkstate [] 0 []) [] in
  let sh' := ShaderManager.setSampler2DValue g_TextureValueName (-1)
               (ShaderManager.setIntValue g_UseTextureName 1 ∅) in
  registry_ok st /\ never_registered "Floor" st /\
  FindTextureSlot "Door" st = Done (0, st) /\
  FindTextureSlot "Wall" st = Done (1, st) /\
  FindTextureSlot "Floor" st = Done (-1, st) /\
  SetShaderTexture "Floor" st
  = Done (tt, mkSceneManager (Some sh') ids 2 [] (GL.mkstate [] 0 []) []) /\
  sh' !! g_UseTextureName = Some (ShaderManager.UInt 1) /\
  sh' !! g_TextureValueName = Some (ShaderManager.USampler2D (-1)).
Proof.
  intros ids st sh'.
  assert (Hok : registry_ok st) by (unfold registry_ok; simpl; lia).
  assert (Hnever : never_registered "Floor" st)
    by (repeat constructor; discriminate).
  split; [exact Hok|]. split; [exact Hnever|].
  split; [reflexivity|]. split; [reflexivity|].
  exact (SetShaderTexture_unregistered_tag "Floor" ∅ ids 2 [] (GL.mkstate [] 0 []) []
           Hok Hnever).
Defined.

Lemma int_of_GLuint_small (u : Z) : 0 <= u <= INT_MAX -> int_of_GLuint u = u.
Proof.
  unfold int_of_GLuint, INT_MAX, GLuint_modulus. intros H.
  rewrite Z.mod_small by lia. lia.
Qed.

(** C10, as the code has it.  On a registry within its array, both searches
    return, [FindTextureSlot] with the index of the first registered entry
    carrying the tag, or -1 when there is none; [FindTextureID] answers -1
    whenever [FindTextureSlot] does, and otherwise the ID of the entry at
    that index converted from [GLuint] to [int].  When the registered IDs
    are at most [INT_MAX], that value is the ID field itself, and
    [FindTextureID] answers -1 exactly when [FindTextureSlot] does. *)
Theorem FindTextureID_agrees_with_FindTextureSlot (tag : string) (st : SceneManager) :
  registry_ok st ->
  exists slot id,
    FindTextureSlot tag st = Done (slot, st) /\
    FindTextureID tag st = Done (id, st) /\
    (slot = -1 -> id = -1 /\ never_registered tag st) /\
    (slot <> -1 ->
     exists e,
       0 <= slot < m_loadedTextures st /\
       m_textureIDs st !! Z.to_nat slot = Some e /\
       TEXTURE_INFO.tag e = tag /\
       Forall (fun e' => TEXTURE_INFO.tag e' <> tag) (take (Z.to_nat slot) (m_textureIDs st)) /\
       id = int_of_GLuint (TEXTURE_INFO.ID e) /\
       (0 <= TEXTURE_INFO.ID e <= INT_MAX -> id = TEXTURE_INFO.ID e)) /\
    (Forall (fun e => 0 <= TEXTURE_INFO.ID e <= INT_MAX) (registered st) ->
     (id = -1 <-> slot = -1)).
Proof.
  intros Hcnt. unfold registry_ok in Hcnt. unfold FindTextureSlot, FindTextureID. run_method.
  destruct (Find_loops_agree tag st (Z.to_nat (m_loadedTextures st)) 0)
    as (slot & id & Hs & Hi & Hcases); [lia|].
  change (Z.of_nat 0) with 0 in Hs, Hi. rewrite Hs, Hi.
  exists slot, id. split; [reflexivity|]. split; [reflexivity|].
  destruct Hcases as [(-> & -> & Hall) | (k & e & -> & Hk & He & Htag & -> & Hall)].
  - split; [|split].
    + intros _. split; [reflexivity|]. exact Hall.
    + intros H. contradiction.
    + intros _. tauto.
  - rewrite Nat.sub_0_r in Hall. simpl in Hall.
    split; [|split].
    + intros H. lia.
    + intros _. exists e. rewrite Nat2Z.id.
      repeat split; try assumption; try lia.
      apply int_of_GLuint_small.
    + intros Hids. assert (Hin : 0 <= TEXTURE_INFO.ID e <= INT_MAX).
      { rewrite Forall_forall in Hids. apply Hids.
        apply list_elem_of_lookup. exists k.
        unfold registered. rewrite lookup_take_lt by lia. exact He. }
      rewrite int_of_GLuint_small by exact Hin. unfold INT_MAX in Hin. lia.
Qed.

Lemma FindTextureID_agrees_with_FindTextureSlot_witness :
  let st := mkSceneManager None
              (<[1%nat := TEXTURE_INFO.mk 7 "Wall"]>
                 (<[0%nat := TEXTURE_INFO.mk 5 "Floor"]> (m_textureIDs (new_scene None))))
              2 [] (GL.mkstate [] 0 []) [] in
  registry_ok st /\
  exists slot id,
    FindTextureSlot "Wall" st = Done (slot, st) /\
    FindTextureID "Wall" st = Done (id, st) /\
    (slot = -1 -> id = -1 /\ never_registered "Wall" st) /\
    (slot <> -1 ->
     exists e,
       0 <= slot < m_loadedTextures st /\
       m_textureIDs st !! Z.to_nat slot = Some e /\
       TEXTURE_INFO.tag e = "Wall"%string /\
       Forall (fun e' => TEXTURE_INFO.tag e' <> "Wall"%string)
              (take (Z.to_nat slot) (m_textureIDs st)) /\
       id = int_of_GLuint (TEXTURE_INFO.ID e) /\
       (0 <= TEXTURE_INFO.ID e <= INT_MAX -> id = TEXTURE_INFO.ID e)) /\
    (Forall (fun e => 0 <= TEXTURE_INFO.ID e <= INT_MAX) (registered st) ->
     (id = -1 <-> slot = -1)).
Proof.
  intros st.
  assert (Hok : registry_ok st) by (unfold registry_ok; simpl; lia).
  split; [exact Hok|].
  exact (FindTextureID_agrees_with_FindTextureSlot "Wall" st Hok).
Defined.

(** C10, as stated, fails on a texture whose name is [0xFFFFFFFF]: once
    [CreateGLTexture] has registered it, in slot 0 of a new scene manager,
    [FindTextureSlot] finds its tag there, while [FindTextureID] returns the
    name as the [int] -1, the value it also returns for a tag it does not
    find. *)
Lemma FindTextureID_minus_one_for_registered_tag :
  let e := TEXTURE_INFO.mk 4294967295 "Floor" in
  exists st,
    CreateGLTexture every_file_rgb (fun _ => 4294967295) "textures/wood-floor.jpg" "Floor"
      (new_scene None)
    = Done (true, st) /\
    registry_ok st /\ is_GLuint (TEXTURE_INFO.ID e) /\
    FindTextureSlot "Floor" st = Done (0, st) /\
    m_textureIDs st !! Z.to_nat 0 = Some e /\
    FindTextureID "Floor" st = Done (-1, st) /\
    ~ (forall id slot,
          FindTextureID "Floor" st = Done (id, st) ->
          FindTextureSlot "Floor" st = Done (slot, st) ->
          (id = -1 <-> slot = -1) /\
          (slot <> -1 ->
           exists e', m_textureIDs st !! Z.to_nat slot = Some e' /\ id = TEXTURE_INFO.ID e')).
Proof.
  intros e. eexists. split; [vm_compute; reflexivity|].
  match goal with |- registry_ok ?s /\ _ => set (st := s) end.
  assert (Hs : FindTextureSlot "Floor" st = Done (0, st)) by reflexivity.
  assert (Hi : FindTextureID "Floor" st = Done (-1, st)) by reflexivity.
  split; [unfold registry_ok; simpl; lia|].
  split; [unfold is_GLuint, GLuint_modulus; simpl; lia|].
  split; [exact Hs|]. split; [reflexivity|]. split; [exact Hi|].
  intros H. destruct (H (-1) 0 Hi Hs) as [[H1 _] _].
  specialize (H1 eq_refl). discriminate.
Qed.

(** ** The transform composer *)

Section Transforms.
Local Open Scope R_scope.
Import glm.

Ltac vec_eq :=
  cbv [mul mul_vec vadd vscale point xyz identity scale translate rotate
       scale_point translate_point rotateX_point rotateY_point rotateZ_point
       x3 y3 z3 x4 y4 z4 w4 col0 col1 col2 col3];
  f_equal; ring.

Lemma mul_vec_mul (a b : mat4) (v : vec4) :
  mul_vec (mul a b) v = mul_vec a (mul_vec b v).
Proof. destruct a as [[] [] [] []], b as [[] [] [] []], v. vec_eq. Qed.

Lemma normalize_x : normalize (mkvec3 1 0 0) = mkvec3 1 0 0.
Proof.
  unfold normalize, inversesqrt, dot. cbn [x3 y3 z3].
  replace (1 * 1 + 0 * 0 + 0 * 0) with 1 by ring. rewrite sqrt_1. f_equal; field.
Qed.

Lemma normalize_y : normalize (mkvec3 0 1 0) = mkvec3 0 1 0.
Proof.
  unfold normalize, inversesqrt, dot. cbn [x3 y3 z3].
  replace (0 * 0 + 1 * 1 + 0 * 0) with 1 by ring. rewrite sqrt_1. f_equal; field.
Qed.

Lemma normalize_z : normalize (mkvec3 0 0 1) = mkvec3 0 0 1.
Proof.
  unfold normalize, inversesqrt, dot. cbn [x3 y3 z3].
  replace (0 * 0 + 0 * 0 + 1 * 1) with 1 by ring. rewrite sqrt_1. f_equal; field.
Qed.

Lemma radians_180 : radians 180 = PI.
Proof. unfold radians. field. Qed.

Lemma scale_acts (s p : vec3) : mul_vec (scale s) (point p) = point (scale_point s p).
Proof. destruct s, p. vec_eq. Qed.

Lemma translate_acts (t p : vec3) :
  mul_vec (translate t) (point p) = point (translate_point t p).
Proof. destruct t, p. vec_eq. Qed.

Lemma rotate_x_acts (a : R) (p : vec3) :
  mul_vec (rotate a (mkvec3 1 0 0)) (point p) = point (rotateX_point a p).
Proof.
  destruct p. unfold rotate. rewrite normalize_x. vec_eq.
Qed.

Lemma rotate_y_acts (a : R) (p : vec3) :
  mul_vec (rotate a (mkvec3 0 1 0)) (point p) = point (rotateY_point a p).
Proof.
  destruct p. unfold rotate. rewrite normalize_y. vec_eq.
Qed.

Lemma rotate_z_acts (a : R) (p : vec3) :
  mul_vec (rotate a (mkvec3 0 0 1)) (point p) = point (rotateZ_point a p).
Proof.
  destruct p. unfold rotate. rewrite normalize_z. vec_eq.
Qed.

(** The product [SetTransformations] forms, on a point: scale, then the
    rotations about X, Y and Z, then the translation. *)
Lemma composed_acts (scaleXYZ positionXYZ : vec3) (rx ry rz : R) (p : vec3) :
  mul_vec (composed scaleXYZ rx ry rz positionXYZ) (point p)
  = point (translate_point positionXYZ
            (rotateZ_point (radians rz)
              (rotateY_point (radians ry)
                (rotateX_point (radians rx) (scale_point scaleXYZ p))))).
Proof.
  unfold composed. rewrite !mul_vec_mul.
  rewrite scale_acts, rotate_x_acts, rotate_y_acts, rotate_z_acts, translate_acts.
  reflexivity.
Qed.

(** Its fourth column is the position. *)
Lemma composed_col3 (scaleXYZ positionXYZ : vec3) (rx ry rz : R) :
  col3 (composed scaleXYZ rx ry rz positionXYZ) = point positionXYZ.
Proof.
  pose proof (composed_acts scaleXYZ positionXYZ rx ry rz (mkvec3 0 0 0)) as H.
  replace (col3 (composed scaleXYZ rx ry rz positionXYZ))
    with (mul_vec (composed scaleXYZ rx ry rz positionXYZ) (point (mkvec3 0 0 0))).
  - rewrite H. destruct scaleXYZ, positionXYZ.
    unfold translate_point, rotateZ_point, rotateY_point, rotateX_point, scale_point, point.
    cbn [x3 y3 z3]. f_equal; ring.
  - destruct (composed scaleXYZ rx ry rz positionXYZ) as [[] [] [] []]. vec_eq.
Qed.

End Transforms.

(** C5. On a scene manager with a shader manager, [SetTransformations]
    sets the uniform [model] to
    Translation . RotationZ . RotationY . RotationX . Scale, with the three
    angles taken in degrees and converted to radians, and changes nothing
    else; on every point that matrix scales first, then rotates about X,
    then about Y, then about Z, then translates. *)
Theorem SetTransformations_stages_composed (sh : ShaderManager.t)
    (ids : list TEXTURE_INFO.t) (cnt : Z) (mats : list OBJECT_MATERIAL.t)
    (g : GL.state) (d : list (ShapeMeshes.draw * option ShaderManager.t))
    (scaleXYZ : glm.vec3) (XrotationDegrees YrotationDegrees ZrotationDegrees : R)
    (positionXYZ : glm.vec3) :
  let Scale := glm.scale scaleXYZ in
  let RotationX := glm.rotate (XrotationDegrees * (PI / 180)) (glm.mkvec3 1 0 0) in
  let RotationY := glm.rotate (YrotationDegrees * (PI / 180)) (glm.mkvec3 0 1 0) in
  let RotationZ := glm.rotate (ZrotationDegrees * (PI / 180)) (glm.mkvec3 0 0 1) in
  let Translation := glm.translate positionXYZ in
  let model :=
    glm.mul (glm.mul (glm.mul (glm.mul Translation RotationZ) RotationY) RotationX) Scale in
  let sh' := ShaderManager.setMat4Value g_ModelName model sh in
  SetTransformations scaleXYZ XrotationDegrees YrotationDegrees ZrotationDegrees positionXYZ
    (mkSceneManager (Some sh) ids cnt mats g d)
  = Done (tt, mkSceneManager (Some sh') ids cnt mats g d) /\
  staged_model (Some sh') = Some model /\
  model = composed scaleXYZ XrotationDegrees YrotationDegrees ZrotationDegrees positionXYZ /\
  forall p : glm.vec3,
    glm.mul_vec model (glm.point p)
    = glm.point
        (glm.translate_point positionXYZ
          (glm.rotateZ_point (ZrotationDegrees * (PI / 180))
            (glm.rotateY_point (YrotationDegrees * (PI / 180))
              (glm.rotateX_point (XrotationDegrees * (PI / 180))
                (glm.scale_point scaleXYZ p))))).
Proof.
  intros Scale RotationX RotationY RotationZ Translation model sh'.
  split; [reflexivity|]. split; [|split; [reflexivity|]].
  - unfold staged_model. subst sh'. unfold ShaderManager.setMat4Value.
    rewrite lookup_insert_eq. reflexivity.
  - intros p.
    exact (composed_acts scaleXYZ positionXYZ XrotationDegrees YrotationDegrees
             ZrotationDegrees p).
Qed.

(** ** The jam jar *)

Lemma bind_run {A B} (c : M A) (k : A -> M B) (st st' : SceneManager) (a : A) :
  c st = Done (a, st') -> (c ≫= k) st = k a st'.
Proof. intros H. unfold mbind, M_bind, bind. rewrite H. reflexivity. Qed.

Lemma FindTextureSlot_returns (tag : string) (st : SceneManager) :
  registry_ok st -> exists slot, FindTextureSlot tag st = Done (slot, st).
Proof.
  intros Hcnt. unfold registry_ok in Hcnt. unfold FindTextureSlot. run_method.
  destruct (Find_loops_agree tag st (Z.to_nat (m_loadedTextures st)) 0)
    as (slot & _ & Hs & _); [lia|].
  exists slot. exact Hs.
Qed.

Lemma SetShaderTexture_runs (tag : string) (sh : ShaderManager.t)
    (ids : list TEXTURE_INFO.t) (cnt : Z) (mats : list OBJECT_MATERIAL.t)
    (g : GL.state) (d : list (ShapeMeshes.draw * option ShaderManager.t)) :
  registry_ok (mkSceneManager (Some sh) ids cnt mats g d) ->
  exists sh',
    SetShaderTexture tag (mkSceneManager (Some sh) ids cnt mats g d)
    = Done (tt, mkSceneManager (Some sh') ids cnt mats g d) /\
    sh' !! g_ModelName = sh !! g_ModelName.
Proof.
  intros Hok.
  destruct (FindTextureSlot_returns tag
              (mkSceneManager (Some (ShaderManager.setIntValue g_UseTextureName 1 sh))
                              ids cnt mats g d) Hok) as [slot Hs].
  eexists. split.
  - unfold SetShaderTexture. run_method. rewrite Hs. reflexivity.
  - unfold ShaderManager.setSampler2DValue, ShaderManager.setIntValue.
    rewrite !lookup_insert_ne by discriminate. reflexivity.
Qed.

Lemma SetShaderMaterial_runs (indeterminate : OBJECT_MATERIAL.t) (tag : string)
    (sh : ShaderManager.t) (ids : list TEXTURE_INFO.t) (cnt : Z)
    (mats : list OBJECT_MATERIAL.t) (g : GL.state)
    (d : list (ShapeMeshes.draw * option ShaderManager.t)) :
  exists sh',
    SetShaderMaterial indeterminate tag (mkSceneManager (Some sh) ids cnt mats g d)
    = Done (tt, mkSceneManager (Some sh') ids cnt mats g d) /\
    sh' !! g_ModelName = sh !! g_ModelName.
Proof.
  unfold SetShaderMaterial, FindMaterial. run_method.
  destruct mats as [|m mats]; simpl.
  - exists sh. split; reflexivity.
  - eexists. split; [reflexivity|].
    unfold ShaderManager.setVec3Value, ShaderManager.setFloatValue.
    rewrite !lookup_insert_ne by discriminate. reflexivity.
Qed.

Lemma SetShaderColor_runs (r g' b a : R)
    (sh : ShaderManager.t) (ids : list TEXTURE_INFO.t) (cnt : Z)
    (mats : list OBJECT_MATERIAL.t) (g : GL.state)
    (d : list (ShapeMeshes.draw * option ShaderManager.t)) :
  exists sh',
    SetShaderColor r g' b a (mkSceneManager (Some sh) ids cnt mats g d)
    = Done (tt, mkSceneManager (Some sh') ids cnt mats g d) /\
    sh' !! g_ModelName = sh !! g_ModelName.
Proof.
  eexists. split; [reflexivity|].
  unfold ShaderManager.setVec4Value, ShaderManager.setIntValue.
  rewrite !lookup_insert_ne by discriminate. reflexivity.
Qed.

Lemma SetTextureUVScale_runs (u v : R)
    (sh : ShaderManager.t) (ids : list TEXTURE_INFO.t) (cnt : Z)
    (mats : list OBJECT_MATERIAL.t) (g : GL.state)
    (d : list (ShapeMeshes.draw * option ShaderManager.t)) :
  exists sh',
    SetTextureUVScale u v (mkSceneManager (Some sh) ids cnt mats g d)
    = Done (tt, mkSceneManager (Some sh') ids cnt mats g d) /\
    sh' !! g_ModelName = sh !! g_ModelName.
Proof.
  eexists. split; [reflexivity|].
  unfold ShaderManager.setVec2Value.
  rewrite !lookup_insert_ne by discriminate. reflexivity.
Qed.

Lemma SetTransformations_runs (s : glm.vec3) (rx ry rz : R) (p : glm.vec3)
    (sh : ShaderManager.t) (ids : list TEXTURE_INFO.t) (cnt : Z)
    (mats : list OBJECT_MATERIAL.t) (g : GL.state)
    (d : list (ShapeMeshes.draw * option ShaderManager.t)) :
  exists sh',
    SetTransformations s rx ry rz p (mkSceneManager (Some sh) ids cnt mats g d)
    = Done (tt, mkSceneManager (Some sh') ids cnt mats g d) /\
    sh' !! g_ModelName = Some (ShaderManager.UMat4 (composed s rx ry rz p)).
Proof.
  eexists. split; [reflexivity|].
  unfold ShaderManager.setMat4Value. rewrite lookup_insert_eq. reflexivity.
Qed.

Lemma mesh_call_runs (dr : ShapeMeshes.draw)
    (sh : option ShaderManager.t) (ids : list TEXTURE_INFO.t) (cnt : Z)
    (mats : list OBJECT_MATERIAL.t) (g : GL.state)
    (d : list (ShapeMeshes.draw * option ShaderManager.t)) :
  mesh_call dr (mkSceneManager sh ids cnt mats g d)
  = Done (tt, mkSceneManager sh ids cnt mats g (d ++ [(dr, sh)])).
Proof. reflexivity. Qed.

Ltac jam_step :=
  match goal with
  | |- context [(SetTransformations ?s ?rx ?ry ?rz ?p ≫= ?k)
                  (mkSceneManager (Some ?sh) ?ids ?cnt ?mats ?g ?d)] =>
      let sh' := fresh "sh" in let E := fresh "E" in let L := fresh "Model" in
      destruct (SetTransformations_runs s rx ry rz p sh ids cnt mats g d) as (sh' & E & L);
      rewrite (bind_run _ k _ _ tt E); clear E
  | |- context [(SetShaderColor ?r ?g' ?b ?a ≫= ?k)
                  (mkSceneManager (Some ?sh) ?ids ?cnt ?mats ?g ?d)] =>
      let sh' := fresh "sh" in let E := fresh "E" in let L := fresh "Keep" in
      destruct (SetShaderColor_runs r g' b a sh ids cnt mats g d) as (sh' & E & L);
      rewrite (bind_run _ k _ _ tt E); clear E
  | |- context [(SetTextureUVScale ?u ?v ≫= ?k)
                  (mkSceneManager (Some ?sh) ?ids ?cnt ?mats ?g ?d)] =>
      let sh' := fresh "sh" in let E := fresh "E" in let L := fresh "Keep" in
      destruct (SetTextureUVScale_runs u v sh ids cnt mats g d) as (sh' & E & L);
      rewrite (bind_run _ k _ _ tt E); clear E
  | H : registry_ok _
    |- context [(SetShaderTexture ?t ≫= ?k)
                  (mkSceneManager (Some ?sh) ?ids ?cnt ?mats ?g ?d)] =>
      let sh' := fresh "sh" in let E := fresh "E" in let L := fresh "Keep" in
      destruct (SetShaderTexture_runs t sh ids cnt mats g d H) as (sh' & E & L);
      rewrite (bind_run _ k _ _ tt E); clear E
  | |- context [(SetShaderMaterial ?i ?t ≫= ?k)
                  (mkSceneManager (Some ?sh) ?ids ?cnt ?mats ?g ?d)] =>
      let sh' := fresh "sh" in let E := fresh "E" in let L := fresh "Keep" in
      destruct (SetShaderMaterial_runs i t sh ids cnt mats g d) as (sh' & E & L);
      rewrite (bind_run _ k _ _ tt E); clear E
  | |- context [(mesh_call ?dr ≫= ?k) (mkSceneManager ?sh ?ids ?cnt ?mats ?g ?d)] =>
      rewrite (bind_run _ k _ _ tt (mesh_call_runs dr sh ids cnt mats g d))
  end.

Lemma mul_vec_origin (m : glm.mat4) :
  glm.mul_vec m (glm.point (glm.mkvec3 0 0 0)) = glm.col3 m.
Proof.
  destruct m as [[] [] [] []].
  cbv [glm.mul_vec glm.vadd glm.vscale glm.point glm.x3 glm.y3 glm.z3
       glm.x4 glm.y4 glm.z4 glm.w4 glm.col0 glm.col1 glm.col2 glm.col3].
  f_equal; ring.
Qed.

(** C9. [RenderScene] calls [RenderJam(9.0, 0.001, -4.0)].  On a scene
    manager with a shader manager and a registry within its array, that
    call returns after nine draws; the fifth, the first whole box, is the
    base, and it is drawn under a model matrix whose translation column is
    the authored position (0, 0.5, 0) plus the origin, component by
    component, that is (9, 0.501, -4): the centre of the box mesh, its
    local origin, lands there. *)
Theorem RenderJam_base_box_centre (indeterminate : OBJECT_MATERIAL.t)
    (sh : ShaderManager.t) (ids : list TEXTURE_INFO.t) (cnt : Z)
    (mats : list OBJECT_MATERIAL.t) (g : GL.state)
    (d : list (ShapeMeshes.draw * option ShaderManager.t)) :
  let st := mkSceneManager (Some sh) ids cnt mats g d in
  registry_ok st ->
  exists st' issued model,
    RenderJam indeterminate 9.0 0.001 (-4.0) st = Done (tt, st') /\
    drawn st' = d ++ issued /\
    issued.*1 = [ShapeMeshes.DrawBoxMeshSide ShapeMeshes.right;
                 ShapeMeshes.DrawBoxMeshSide ShapeMeshes.bottom;
                 ShapeMeshes.DrawBoxMeshSide ShapeMeshes.left;
                 ShapeMeshes.DrawBoxMeshSide ShapeMeshes.front;
                 ShapeMeshes.DrawBoxMesh;
                 ShapeMeshes.DrawBoxMesh;
                 ShapeMeshes.DrawCylinderMesh false false true;
                 ShapeMeshes.DrawExtraTorusMesh1;
                 ShapeMeshes.DrawCylinderMesh false true false] /\
    (issued !! 4%nat) ≫= (fun dr => staged_model dr.2) = Some model /\
    glm.col3 model = glm.point (glm.translate_point jam_origin (glm.mkvec3 0 0.5 0)) /\
    glm.translate_point jam_origin (glm.mkvec3 0 0.5 0) = glm.mkvec3 9 0.501 (-4) /\
    glm.mul_vec model (glm.point (glm.mkvec3 0 0 0)) = glm.point (glm.mkvec3 9 0.501 (-4)).
Proof.
  intros st Hok. subst st. unfold RenderJam. cbv zeta.
  repeat jam_step. rewrite mesh_call_runs.
  assert (Hsum : glm.translate_point jam_origin (glm.mkvec3 0 0.5 0)
                 = glm.mkvec3 9 0.501 (-4)).
  { unfold glm.translate_point, jam_origin. cbn [glm.x3 glm.y3 glm.z3]. f_equal; lra. }
  assert (Hcol : glm.col3 (composed (glm.mkvec3 6.0 1.0 6.0) 0.0 (-15.0) 0.0
                             (glm.mkvec3 (0.0 + 9.0) (0.50 + 0.001) (0.0 + -4.0)))
                 = glm.point (glm.mkvec3 9 0.501 (-4))).
  { rewrite composed_col3. unfold glm.point. cbn [glm.x3 glm.y3 glm.z3]. f_equal; lra. }
  eexists _, _, _. split; [reflexivity|].
  split; [cbn [drawn]; rewrite <- !app_assoc; reflexivity|].
  split; [reflexivity|].
  split.
  { cbn. unfold staged_model.
    repeat match goal with
           | H : ?a !! g_ModelName = _ |- context [?a !! g_ModelName] => rewrite H
           end.
    reflexivity. }
  split; [rewrite Hsum; exact Hcol|].
  split; [exact Hsum|].
  rewrite mul_vec_origin. exact Hcol.
Qed.

Lemma RenderJam_base_box_centre_witness :
  let indeterminate := OBJECT_MATERIAL.mk (glm.mkvec3 0 0 0) (glm.mkvec3 0 0 0) 0 "" in
  let st := new_scene (Some ∅) in
  registry_ok st /\
  exists st' issued model,
    RenderJam indeterminate 9.0 0.001 (-4.0) st = Done (tt, st') /\
    drawn st' = [] ++ issued /\
    issued.*1 = [ShapeMeshes.DrawBoxMeshSide ShapeMeshes.right;
                 ShapeMeshes.DrawBoxMeshSide ShapeMeshes.bottom;
                 ShapeMeshes.DrawBoxMeshSide ShapeMeshes.left;
                 ShapeMeshes.DrawBoxMeshSide ShapeMeshes.front;
                 ShapeMeshes.DrawBoxMesh;
                 ShapeMeshes.DrawBoxMesh;
                 ShapeMeshes.DrawCylinderMesh false false true;
                 ShapeMeshes.DrawExtraTorusMesh1;
                 ShapeMeshes.DrawCylinderMesh false true false] /\
    (issued !! 4%nat) ≫= (fun dr => staged_model dr.2) = Some model /\
    glm.col3 model = glm.point (glm.translate_point jam_origin (glm.mkvec3 0 0.5 0)) /\
    glm.translate_point jam_origin (glm.mkvec3 0 0.5 0) = glm.mkvec3 9 0.501 (-4) /\
    glm.mul_vec model (glm.point (glm.mkvec3 0 0 0)) = glm.point (glm.mkvec3 9 0.501 (-4)).
Proof.
  intros indeterminate st.
  assert (Hok : registry_ok st) by (unfold registry_ok; simpl; lia).
  split; [exact Hok|].
  exact (RenderJam_base_box_centre indeterminate ∅ (m_textureIDs st) 0 [] (gl st) [] Hok).
Defined.

(** ** Binary floating point *)

Lemma digits2_pos_bounds (p : positive) :
  2 ^ (Zpos (digits2_pos p) - 1) <= Zpos p < 2 ^ Zpos (digits2_pos p).
Proof.
  induction p as [p IH|p IH|]; cbn [digits2_pos]; [| |simpl; lia].
  - rewrite Pos2Z.inj_succ, (Pos2Z.inj_xI p).
    replace (Z.succ (Zpos (digits2_pos p)) - 1) with (Z.succ (Zpos (digits2_pos p) - 1)) by lia.
    rewrite (Z.pow_succ_r 2 (Zpos (digits2_pos p))) by lia.
    rewrite (Z.pow_succ_r 2 (Zpos (digits2_pos p) - 1)) by lia. lia.
  - rewrite Pos2Z.inj_succ, (Pos2Z.inj_xO p).
    replace (Z.succ (Zpos (digits2_pos p)) - 1) with (Z.succ (Zpos (digits2_pos p) - 1)) by lia.
    rewrite (Z.pow_succ_r 2 (Zpos (digits2_pos p))) by lia.
    rewrite (Z.pow_succ_r 2 (Zpos (digits2_pos p) - 1)) by lia. lia.
Qed.

Lemma digits2_pos_unique (p : positive) (k : Z) :
  2 ^ (k - 1) <= Zpos p < 2 ^ k -> Zpos (digits2_pos p) = k.
Proof.
  intros [Hlo Hhi]. pose proof (digits2_pos_bounds p) as [Dlo Dhi].
  set (d := Zpos (digits2_pos p)) in *.
  assert (Hd : 0 < d) by (unfold d; lia).
  destruct (Z.lt_trichotomy d k) as [H|[H|H]]; [exfalso|exact H|exfalso].
  - assert (2 ^ d <= 2 ^ (k - 1)) by (apply Z.pow_le_mono_r; lia). lia.
  - assert (0 <= k).
    { destruct (Z.le_gt_cases 0 k) as [Hk|Hk]; [exact Hk|].
      rewrite (Z.pow_neg_r 2 k) in Hhi by lia. lia. }
    assert (2 ^ k <= 2 ^ (d - 1)) by (apply Z.pow_le_mono_r; lia). lia.
Qed.

Lemma shr_1_halves (mrs : shr_record) :
  0 <= shr_m mrs -> shr_m (shr_1 mrs) = shr_m mrs / 2 /\ 0 <= shr_m (shr_1 mrs).
Proof.
  destruct mrs as [m r s]. cbn [shr_m]. intros Hm. rewrite <- Z.div2_div.
  destruct m as [|[p|p|]|p]; cbn; try lia.
Qed.

Lemma iter_shr_1_divides (n : positive) (mrs : shr_record) :
  0 <= shr_m mrs ->
  shr_m (SpecFloat.iter_pos shr_1 n mrs) = shr_m mrs / 2 ^ Zpos n /\
  0 <= shr_m (SpecFloat.iter_pos shr_1 n mrs).
Proof.
  revert mrs. induction n as [n IH|n IH|]; intros mrs Hm; cbn [SpecFloat.iter_pos].
  - destruct (shr_1_halves mrs Hm) as [E1 H1].
    destruct (IH _ H1) as [E2 H2]. destruct (IH _ H2) as [E3 H3].
    split; [|exact H3]. rewrite E3, E2, E1.
    rewrite !Z.div_div by lia. f_equal.
    rewrite (Pos2Z.inj_xI n).
    replace (2 * Zpos n + 1) with (Zpos n + Zpos n + 1) by lia.
    rewrite !Z.pow_add_r by lia. change (2 ^ 1) with 2. ring.
  - destruct (IH _ Hm) as [E2 H2]. destruct (IH _ H2) as [E3 H3].
    split; [|exact H3]. rewrite E3, E2.
    rewrite !Z.div_div by lia. f_equal.
    rewrite (Pos2Z.inj_xO n).
    replace (2 * Zpos n) with (Zpos n + Zpos n) by lia.
    rewrite !Z.pow_add_r by lia. reflexivity.
  - change (2 ^ 1) with 2. apply shr_1_halves. exact Hm.
Qed.

Lemma shr_divides (mrs : shr_record) (e n : Z) :
  0 <= shr_m mrs -> 0 <= n ->
  shr_m (shr mrs e n).1 = shr_m mrs / 2 ^ n /\ (shr mrs e n).2 = e + n.
Proof.
  intros Hm Hn. destruct n as [|n|n]; [| |lia]; cbn [shr fst snd].
  - rewrite Z.div_1_r. split; [reflexivity | lia].
  - split; [|reflexivity]. apply iter_shr_1_divides. exact Hm.
Qed.

Lemma round_nearest_even_range (m : Z) (l : location) :
  m <= round_nearest_even m l <= m + 1.
Proof.
  destruct l as [|[| |]]; cbn [round_nearest_even]; try lia.
  destruct (Z.even m); lia.
Qed.

(** Rounding a mantissa of at least 24 bits to binary32, away from the
    subnormal and the overflow range: the result is a normal number, its
    mantissa the given one without its last [n] bits, or one more. *)
Lemma binary_round_aux_normal (sx : bool) (P : positive) (ex : Z) :
  let d := Zpos (digits2_pos P) in
  24 <= d -> -149 <= d + ex - 24 -> d + ex - 23 <= 104 ->
  exists m n,
    binary_round_aux 24 128 sx (Zpos P) ex loc_Exact = S754_finite sx m (ex + n) /\
    2 ^ 23 <= Zpos m < 2 ^ 24 /\ d - 24 <= n <= d - 23 /\
    Zpos P / 2 ^ n <= Zpos m <= Zpos P / 2 ^ n + 1.
Proof.
  intros d Hd Hlo Hhi. unfold binary_round_aux, shr_fexp.
  change (Zdigits2 (Zpos P)) with d.
  assert (Hf : forall e, -149 <= e - 24 -> fexp 24 128 e = e - 24)
    by (intros e He; unfold fexp, emin; lia).
  rewrite Hf by lia.
  destruct (shr_divides (shr_record_of_loc (Zpos P) loc_Exact) ex (d + ex - 24 - ex))
    as [Em Ee]; [cbn; lia | lia |].
  destruct (shr (shr_record_of_loc (Zpos P) loc_Exact) ex (d + ex - 24 - ex))
    as [mrs' e'].
  cbn [fst snd shr_record_of_loc shr_m] in Em, Ee.
  replace (d + ex - 24 - ex) with (d - 24) in Em by lia.
  pose proof (digits2_pos_bounds P) as [Plo Phi]. fold d in Plo, Phi.
  assert (Hp : 0 < 2 ^ (d - 24)) by (apply Z.pow_pos_nonneg; lia).
  assert (Hm1 : 2 ^ 23 <= shr_m mrs' < 2 ^ 24).
  { rewrite Em. split.
    - apply Z.div_le_lower_bound; [exact Hp|].
      rewrite <- Z.pow_add_r by lia. replace (d - 24 + 23) with (d - 1) by lia. exact Plo.
    - apply Z.div_lt_upper_bound; [exact Hp|].
      rewrite <- Z.pow_add_r by lia. replace (d - 24 + 24) with d by lia. exact Phi. }
  pose proof (round_nearest_even_range (shr_m mrs') (loc_of_shr_record mrs')) as Hr.
  set (m2 := round_nearest_even (shr_m mrs') (loc_of_shr_record mrs')) in *.
  assert (Hm2 : 2 ^ 23 <= m2 <= 2 ^ 24) by lia.
  destruct m2 as [|p2|p2]; [lia| |lia].
  cbn [Zdigits2].
  destruct (Z.eq_dec (Zpos p2) (2 ^ 24)) as [Htop|Htop].
  - assert (Hp2 : p2 = 16777216%positive) by lia. subst p2.
    change (Zpos (digits2_pos 16777216)) with 25.
    rewrite Hf by lia.
    replace (25 + e' - 24 - e') with 1 by lia.
    cbn [shr shr_record_of_loc SpecFloat.iter_pos shr_1 shr_m].
    assert (He : (e' + 1 <=? 128 - 24) = true) by (apply Z.leb_le; lia).
    rewrite He. exists 8388608%positive, (d - 23).
    split; [f_equal; lia|]. split; [cbn; lia|]. split; [lia|].
    replace (d - 23) with (d - 24 + 1) by lia.
    rewrite Z.pow_add_r, <- Z.div_div by lia. rewrite <- Em.
    assert (E1 : shr_m mrs' = 16777215).
    { clear - Hm1 Hr. change (2 ^ 24) with 16777216 in Hm1. lia. }
    rewrite E1. change (16777215 / 2 ^ 1) with 8388607. lia.
  - assert (Hd2 : Zpos (digits2_pos p2) = 24) by (apply digits2_pos_unique; lia).
    rewrite Hd2, Hf by lia.
    replace (24 + e' - 24 - e') with 0 by lia.
    cbn [shr shr_record_of_loc shr_m].
    assert (He : (e' <=? 128 - 24) = true) by (apply Z.leb_le; lia).
    rewrite He. exists p2, (d - 24).
    split; [f_equal; lia|]. split; [lia|]. split; [lia|]. rewrite <- Em. lia.
Qed.

(** The product of two normal binary32 numbers, away from the subnormal and
    the overflow range, is a normal number: the product of the mantissas
    without its last 23, 24 or 25 bits, or one more. *)
Lemma binary32_mul_normal (sx sy : bool) (mx my : positive) (ex ey : Z) :
  2 ^ 23 <= Zpos mx < 2 ^ 24 -> 2 ^ 23 <= Zpos my < 2 ^ 24 ->
  -172 <= ex + ey <= 79 ->
  exists m n,
    binary32.mul (S754_finite sx mx ex) (S754_finite sy my ey)
    = S754_finite (xorb sx sy) m (ex + ey + n) /\
    2 ^ 23 <= Zpos m < 2 ^ 24 /\ 23 <= n <= 25 /\
    Zpos mx * Zpos my / 2 ^ n <= Zpos m <= Zpos mx * Zpos my / 2 ^ n + 1.
Proof.
  intros Hx Hy He. unfold binary32.mul, binary32.prec, binary32.emax. cbn [SFmul].
  assert (Hd : 47 <= Zpos (digits2_pos (mx * my)) <= 48).
  { assert (Hp : 2 ^ 46 <= Zpos (mx * my) < 2 ^ 48).
    { rewrite Pos2Z.inj_mul. change (2 ^ 46) with (2 ^ 23 * 2 ^ 23).
      change (2 ^ 48) with (2 ^ 24 * 2 ^ 24). nia. }
    destruct (Z_lt_le_dec (Zpos (mx * my)) (2 ^ 47)) as [H|H].
    - rewrite (digits2_pos_unique (mx * my) 47); [lia|]. simpl (47 - 1). lia.
    - rewrite (digits2_pos_unique (mx * my) 48); [lia|]. simpl (48 - 1). lia. }
  destruct (binary_round_aux_normal (xorb sx sy) (mx * my) (ex + ey))
    as (m & n & E & Hm & Hn & Hq); [lia..|].
  exists m, n. split; [exact E|]. split; [exact Hm|]. split; [lia|].
  rewrite <- Pos2Z.inj_mul. exact Hq.
Qed.

Lemma SFcompare_antisym (x y : spec_float) :
  SFcompare y x = option_map CompOpp (SFcompare x y).
Proof.
  destruct x as [sx|sx| |sx mx ex], y as [sy|sy| |sy my ey];
    try reflexivity; try (destruct sx; reflexivity); try (destruct sy; reflexivity);
    try (destruct sx, sy; reflexivity).
  cbn [SFcompare option_map].
  destruct sx, sy; try reflexivity; rewrite (Z.compare_antisym ex ey);
    destruct (ex ?= ey); cbn [CompOpp]; try reflexivity;
    rewrite (Pos.compare_cont_antisym mx my Eq); reflexivity.
Qed.

(** The order of two positive finite numbers whose mantissas have the same
    number of bits is that of their exponents, then of their mantissas. *)
Lemma SFcompare_positive (m1 m2 : positive) (e1 e2 : Z) :
  SFcompare (S754_finite false m1 e1) (S754_finite false m2 e2)
  = Some (match e1 ?= e2 with Eq => (m1 ?= m2)%positive | c => c end).
Proof. cbn [SFcompare]. destruct (e1 ?= e2); reflexivity. Qed.

(** ** The view manager *)

Section Callbacks.
Import ViewManager.

(** The literals of the callbacks, as binary32 numbers. *)
Lemma literals :
  binary32.literal 1 1 = S754_finite false 8388608 (-23) /\
  binary32.literal 11 10 = S754_finite false 9227469 (-23) /\
  binary32.literal 9 10 = S754_finite false 15099494 (-24) /\
  binary32.literal 1 10 = S754_finite false 13421773 (-27) /\
  binary32.literal 10 1 = S754_finite false 10485760 (-20).
Proof. repeat split; vm_compute; reflexivity. Qed.

Lemma SFcompare_numbers (x y : spec_float) :
  x <> S754_nan -> y <> S754_nan -> exists c, SFcompare x y = Some c.
Proof.
  intros Hx Hy. destruct x as [sx|sx| |sx mx ex], y as [sy|sy| |sy my ey];
    try contradiction; cbn [SFcompare]; eexists; reflexivity.
Qed.

Lemma SFltb_false_leb (x y : spec_float) :
  x <> S754_nan -> y <> S754_nan -> SFltb x y = false -> SFleb y x = true.
Proof.
  intros Hx Hy. unfold SFltb, SFleb. rewrite (SFcompare_antisym x y).
  destruct (SFcompare_numbers x y Hx Hy) as [c ->].
  destruct c; cbn [option_map CompOpp]; congruence.
Qed.

Lemma SFleb_ltb_false (x y : spec_float) : SFleb x y = true -> SFltb y x = false.
Proof.
  unfold SFltb, SFleb. rewrite (SFcompare_antisym x y).
  destruct (SFcompare x y) as [[| |]|]; cbn [option_map CompOpp]; congruence.
Qed.

Lemma SFltb_asym (x y : spec_float) : SFltb x y = true -> SFltb y x = false.
Proof.
  unfold SFltb. rewrite (SFcompare_antisym x y).
  destruct (SFcompare x y) as [[| |]|]; cbn [option_map CompOpp]; congruence.
Qed.

Lemma SFeqb_ltb_false (x y : spec_float) :
  SFeqb x y = true -> SFltb x y = false /\ SFltb y x = false.
Proof.
  unfold SFltb, SFeqb. rewrite (SFcompare_antisym x y).
  destruct (SFcompare x y) as [[| |]|]; cbn [option_map CompOpp]; try discriminate.
  split; reflexivity.
Qed.

(** The order of positive finite numbers, in terms of exponents and
    mantissas. *)
Lemma SFleb_positive (m1 m2 : positive) (e1 e2 : Z) :
  SFleb (S754_finite false m1 e1) (S754_finite false m2 e2) = true <->
  e1 < e2 \/ (e1 = e2 /\ Zpos m1 <= Zpos m2).
Proof.
  unfold SFleb. rewrite SFcompare_positive.
  destruct (Z.compare_spec e1 e2) as [->|H|H].
  - destruct (Pos.compare_spec m1 m2) as [->|H|H]; split; intros;
      try reflexivity; try lia; try discriminate.
  - split; [lia | reflexivity].
  - split; [discriminate | lia].
Qed.

Lemma SFltb_positive (m1 m2 : positive) (e1 e2 : Z) :
  SFltb (S754_finite false m1 e1) (S754_finite false m2 e2) = true <->
  e1 < e2 \/ (e1 = e2 /\ Zpos m1 < Zpos m2).
Proof.
  unfold SFltb. rewrite SFcompare_positive.
  destruct (Z.compare_spec e1 e2) as [->|H|H].
  - destruct (Pos.compare_spec m1 m2) as [->|H|H]; split; intros;
      try reflexivity; try lia; try discriminate.
  - split; [lia | reflexivity].
  - split; [discriminate | lia].
Qed.

(** A normal number between the bounds, by exponent and mantissa. *)
Lemma normal_speed_range (s : spec_float) :
  normal_speed s <->
  exists m e,
    s = S754_finite false m e /\ 2 ^ 23 <= Zpos m < 2 ^ 24 /\
    (-27 < e \/ (e = -27 /\ 13421773 <= Zpos m)) /\
    (e < -20 \/ (e = -20 /\ Zpos m <= 10485760)).
Proof.
  destruct literals as (_ & _ & _ & Lo & Hi). unfold normal_speed. rewrite Lo, Hi.
  split; intros (m & e & -> & Hm & H1 & H2); exists m, e;
    (split; [reflexivity|]); (split; [exact Hm|]).
  - apply SFleb_positive in H1, H2. lia.
  - split; apply SFleb_positive; lia.
Qed.

Lemma normal_speed_value (s : spec_float) :
  normal_speed s -> (0.1 <= float_value s <= 10.0)%Q.
Proof.
  intros H. apply normal_speed_range in H as (m & e & -> & Hm & Hlo & Hhi).
  assert (He : e = -27 \/ e = -26 \/ e = -25 \/ e = -24 \/ e = -23 \/ e = -22 \/ e = -21
               \/ e = -20) by lia.
  change (2 ^ 23) with 8388608 in Hm. change (2 ^ 24) with 16777216 in Hm.
  cbn [float_value cond_Zopp].
  destruct He as [->|[->|[->|[->|[->|[->|[->| ->]]]]]]];
    match goal with
    | |- context [(2 ^ ?z)%Q] =>
        let v := eval vm_compute in (2 ^ z)%Q in change (2 ^ z)%Q with v
    end;
    unfold Qle, Qmult, inject_Z; cbn [Qnum Qden]; lia.
Qed.

Lemma clamp_normal (s : spec_float) :
  (exists m e, s = S754_finite false m e /\ 2 ^ 23 <= Zpos m < 2 ^ 24) ->
  normal_speed (clamp s).
Proof.
  intros (m & e & -> & Hm). destruct literals as (_ & _ & _ & Lo & Hi).
  unfold clamp. rewrite Lo, Hi.
  destruct (SFltb (S754_finite false m e) (S754_finite false 13421773 (-27))) eqn:E1;
    [|destruct (SFltb (S754_finite false 10485760 (-20)) (S754_finite false m e)) eqn:E2].
  - apply normal_speed_range. eexists _, _. split; [reflexivity|]. cbn. lia.
  - apply normal_speed_range. eexists _, _. split; [reflexivity|]. cbn. lia.
  - exists m, e. split; [reflexivity|]. split; [exact Hm|]. rewrite Lo, Hi.
    split; apply SFltb_false_leb; try discriminate; assumption.
Qed.

Lemma clamp_within (s : spec_float) :
  SFleb (binary32.literal 1 10) s = true -> SFleb s (binary32.literal 10 1) = true ->
  clamp s = s.
Proof.
  intros H1 H2. unfold clamp.
  rewrite (SFleb_ltb_false _ _ H1), (SFleb_ltb_false _ _ H2). reflexivity.
Qed.

(** A tick keeps a speed that is a normal number between the bounds one. *)
Lemma tick_normal (s k : spec_float) :
  normal_speed s ->
  k = binary32.literal 11 10 \/ k = binary32.literal 9 10 ->
  normal_speed (clamp (binary32.mul s k)).
Proof.
  intros Hs Hk. apply normal_speed_range in Hs as (m & e & -> & Hm & Hlo & Hhi).
  destruct literals as (_ & Up & Down & _ & _).
  apply clamp_normal.
  destruct Hk as [-> | ->]; [rewrite Up | rewrite Down];
    match goal with
    | |- context [binary32.mul (S754_finite false m e) (S754_finite false ?mk ?ek)] =>
        destruct (binary32_mul_normal false false m mk e ek) as (m' & n & E & Hm' & _);
          [exact Hm | cbn; lia | lia |]
    end;
    eexists m', _; (split; [exact E | exact Hm']).
Qed.

(** The speed a scroll event leaves: the product, if any, clamped. *)
Lemma scroll_tick_speed (x y : spec_float) (g : globals) :
  cameraSpeed (Mouse_Scroll_Wheel_Callback x y g)
  = clamp (if SFltb (binary64.of_Z 0) y
           then binary32.mul (cameraSpeed g) (binary32.literal 11 10)
           else if SFltb y (binary64.of_Z 0)
           then binary32.mul (cameraSpeed g) (binary32.literal 9 10)
           else cameraSpeed g).
Proof.
  assert (Hcross : SFltb (binary32.literal 10 1) (binary32.literal 1 10) = false)
    by (vm_compute; reflexivity).
  unfold Mouse_Scroll_Wheel_Callback, clamp.
  destruct (SFltb (binary64.of_Z 0) y); [|destruct (SFltb y (binary64.of_Z 0))];
    cbn [set_cameraSpeed cameraSpeed];
    match goal with
    | |- context [SFltb ?s (binary32.literal 1 10)] =>
        destruct (SFltb s (binary32.literal 1 10)) eqn:E1
    end; cbn [set_cameraSpeed cameraSpeed]; rewrite ?Hcross; cbn [cameraSpeed];
    try reflexivity;
    match goal with
    | |- context [SFltb (binary32.literal 10 1) ?s] =>
        destruct (SFltb (binary32.literal 10 1) s)
    end; reflexivity.
Qed.

Lemma scroll_keeps_normal (x y : spec_float) (g : globals) :
  normal_speed (cameraSpeed g) ->
  normal_speed (cameraSpeed (Mouse_Scroll_Wheel_Callback x y g)).
Proof.
  intros Hs. rewrite scroll_tick_speed.
  destruct (SFltb (binary64.of_Z 0) y); [|destruct (SFltb y (binary64.of_Z 0))].
  - apply tick_normal; [exact Hs | left; reflexivity].
  - apply tick_normal; [exact Hs | right; reflexivity].
  - destruct Hs as (m & e & E & Hm & H1 & H2). rewrite clamp_within by assumption.
    exists m, e. repeat split; try assumption; apply Hm.
Qed.

Lemma session_snoc (events : list event) (e : event) (g : globals) :
  session (events ++ [e]) g = dispatch (session events g) e.
Proof. unfold session. rewrite fold_left_app. reflexivity. Qed.

Lemma cursor_keeps_speed (x y : spec_float) (g : globals) :
  cameraSpeed (Mouse_Position_Callback x y g) = cameraSpeed g.
Proof. unfold Mouse_Position_Callback. destruct (gFirstMouse g); reflexivity. Qed.

Lemma session_normal_speed (events : list event) (g : globals) :
  normal_speed (cameraSpeed g) -> normal_speed (cameraSpeed (session events g)).
Proof.
  intros Hg. induction events as [|e events IH] using rev_ind; [exact Hg|].
  rewrite session_snoc. destruct e as [x y|x y]; cbn [dispatch].
  - rewrite cursor_keeps_speed. exact IH.
  - apply scroll_keeps_normal. exact IH.
Qed.

Lemma initial_normal_speed : normal_speed (cameraSpeed initial).
Proof.
  apply normal_speed_range. destruct literals as (One & _). cbn [initial cameraSpeed].
  rewrite One. eexists _, _. split; [reflexivity|]. cbn. lia.
Qed.

Lemma session_speed_bounds (events : list event) :
  (0.1 <= float_value (cameraSpeed (session events initial)) <= 10.0)%Q.
Proof. apply normal_speed_value, session_normal_speed, initial_normal_speed. Qed.

(** A [float] between the bounds is a number between 0.1 and 10. *)
Lemma valid_speed_normal (s : spec_float) :
  valid_binary binary32.prec binary32.emax s = true ->
  SFleb (binary32.literal 1 10) s = true -> SFleb s (binary32.literal 10 1) = true ->
  normal_speed s.
Proof.
  destruct literals as (_ & _ & _ & Lo & Hi). rewrite Lo, Hi. intros Hv H1 H2.
  destruct s as [sg|sg| |sg m e]; try discriminate H1; try (destruct sg; discriminate).
  destruct sg; [discriminate H1|].
  exists m, e. rewrite Lo, Hi. split; [reflexivity|]. split; [|split; assumption].
  apply SFleb_positive in H1, H2.
  cbn [valid_binary] in Hv. unfold bounded, canonical_mantissa, fexp, emin in Hv.
  apply andb_prop in Hv as [Hc _]. apply Z.eqb_eq in Hc.
  assert (Hd : Zpos (digits2_pos m) = 24) by (unfold binary32.prec, binary32.emax in Hc; lia).
  pose proof (digits2_pos_bounds m) as Hb. rewrite Hd in Hb. exact Hb.
Qed.

Lemma clamp_valid (s : spec_float) :
  valid_binary binary32.prec binary32.emax s = true -> s <> S754_nan ->
  normal_speed (clamp s).
Proof.
  intros Hv Hn.
  assert (Hlo : normal_speed (binary32.literal 1 10)).
  { apply normal_speed_range. destruct literals as (_ & _ & _ & -> & _).
    eexists _, _. split; [reflexivity|]. cbn. lia. }
  assert (Hhi : normal_speed (binary32.literal 10 1)).
  { apply normal_speed_range. destruct literals as (_ & _ & _ & _ & ->).
    eexists _, _. split; [reflexivity|]. cbn. lia. }
  assert (Hnlo : binary32.literal 1 10 <> S754_nan)
    by (destruct literals as (_ & _ & _ & -> & _); discriminate).
  assert (Hnhi : binary32.literal 10 1 <> S754_nan)
    by (destruct literals as (_ & _ & _ & _ & ->); discriminate).
  unfold clamp.
  destruct (SFltb s (binary32.literal 1 10)) eqn:E1; [exact Hlo|].
  destruct (SFltb (binary32.literal 10 1) s) eqn:E2; [exact Hhi|].
  apply valid_speed_normal; [exact Hv | |]; apply SFltb_false_leb; assumption.
Qed.

(** C6. The speed multiplier starts at [1.0f]; a tick of the wheel upwards
    multiplies it by [1.1f] and a tick downwards by [0.9f], the product
    rounded to [float], and the result is clamped to [0.1f, 10.0f], bounds
    that stand for a number not below 0.1 and for 10; whatever events a
    session delivers, the speed is a number from 0.1 to 10.0 after each of
    them.  After 200 ticks upwards it is [10.0f], after 200 ticks downwards
    [0.1f]. *)
Theorem cameraSpeed_stays_clamped :
  cameraSpeed initial = binary32.literal 1 1 /\
  (float_value (binary32.literal 1 1) == 1.0 /\
   0.1 <= float_value (binary32.literal 1 10) /\
   float_value (binary32.literal 10 1) == 10.0)%Q /\
  (forall x y g, SFltb (binary64.of_Z 0) y = true ->
     cameraSpeed (Mouse_Scroll_Wheel_Callback x y g)
     = clamp (binary32.mul (cameraSpeed g) (binary32.literal 11 10))) /\
  (forall x y g, SFltb y (binary64.of_Z 0) = true ->
     cameraSpeed (Mouse_Scroll_Wheel_Callback x y g)
     = clamp (binary32.mul (cameraSpeed g) (binary32.literal 9 10))) /\
  (forall s,
     (valid_binary binary32.prec binary32.emax s = true -> s <> S754_nan ->
      (0.1 <= float_value (clamp s) <= 10.0)%Q) /\
     (SFleb (binary32.literal 1 10) s = true -> SFleb s (binary32.literal 10 1) = true ->
      clamp s = s)) /\
  (forall events,
     (0.1 <= float_value (cameraSpeed (session events initial)) <= 10.0)%Q) /\
  (forall n,
     (float_value (cameraSpeed (session (repeat scroll_up n) initial)) <= 10.0)%Q) /\
  (forall n,
     (0.1 <= float_value (cameraSpeed (session (repeat scroll_down n) initial)))%Q) /\
  cameraSpeed (session (repeat scroll_up 200) initial) = binary32.literal 10 1 /\
  cameraSpeed (session (repeat scroll_down 200) initial) = binary32.literal 1 10.
Proof.
  split; [reflexivity|].
  split; [repeat split; vm_compute; congruence|].
  split.
  { intros x y g Hy. rewrite scroll_tick_speed, Hy. reflexivity. }
  split.
  { intros x y g Hy. rewrite scroll_tick_speed, (SFltb_asym _ _ Hy), Hy. reflexivity. }
  split.
  { intros s. split.
    - intros Hv Hn. apply normal_speed_value, clamp_valid; assumption.
    - apply clamp_within. }
  split; [intros events; apply session_speed_bounds|].
  split; [intros n; apply session_speed_bounds|].
  split; [intros n; apply session_speed_bounds|].
  split; vm_compute; reflexivity.
Qed.

Lemma cameraSpeed_stays_clamped_witness :
  let s := binary32.literal 5 2 in
  SFltb (binary64.of_Z 0) (binary64.of_Z 1) = true /\
  SFltb (binary64.of_Z (-1)) (binary64.of_Z 0) = true /\
  valid_binary binary32.prec binary32.emax s = true /\ s <> S754_nan /\
  SFleb (binary32.literal 1 10) s = true /\ SFleb s (binary32.literal 10 1) = true /\
  cameraSpeed (Mouse_Scroll_Wheel_Callback (binary64.of_Z 0) (binary64.of_Z 1) initial)
  = clamp (binary32.mul (cameraSpeed initial) (binary32.literal 11 10)) /\
  cameraSpeed (Mouse_Scroll_Wheel_Callback (binary64.of_Z 0) (binary64.of_Z (-1)) initial)
  = clamp (binary32.mul (cameraSpeed initial) (binary32.literal 9 10)) /\
  (0.1 <= float_value (clamp s) <= 10.0)%Q /\
  clamp s = s.
Proof.
  intros s.
  assert (Hup : SFltb (binary64.of_Z 0) (binary64.of_Z 1) = true) by reflexivity.
  assert (Hdown : SFltb (binary64.of_Z (-1)) (binary64.of_Z 0) = true) by reflexivity.
  assert (Hv : valid_binary binary32.prec binary32.emax s = true) by reflexivity.
  assert (Hn : s <> S754_nan) by discriminate.
  assert (Hlo : SFleb (binary32.literal 1 10) s = true) by reflexivity.
  assert (Hhi : SFleb s (binary32.literal 10 1) = true) by reflexivity.
  destruct cameraSpeed_stays_clamped as (_ & _ & Up & Down & Clamp & _).
  split; [exact Hup|]. split; [exact Hdown|]. split; [exact Hv|]. split; [exact Hn|].
  split; [exact Hlo|]. split; [exact Hhi|].
  split; [exact (Up _ _ initial Hup)|].
  split; [exact (Down _ _ initial Hdown)|].
  split; [exact (proj1 (Clamp s) Hv Hn) | exact (proj2 (Clamp s) Hlo Hhi)].
Defined.

Lemma last_cons_default {A} (l : list A) (a d d' : A) :
  List.last (a :: l) d = List.last (a :: l) d'.
Proof.
  revert a. induction l as [|b l IH]; intros a; [reflexivity|].
  change (List.last (b :: l) d = List.last (b :: l) d'). apply IH.
Qed.

Lemma last_after_first {A} (l : list A) (a d : A) :
  List.last l a = List.last (a :: l) d.
Proof.
  destruct l as [|b l]; [reflexivity|].
  change (List.last (b :: l) a = List.last (b :: l) d). apply last_cons_default.
Qed.

(** After the first sample, a run of samples is answered with the offsets
    against the previous sample as stored, and the last sample is what is
    stored. *)
Lemma later_samples (samples : list (spec_float * spec_float))
    (lastX lastY speed : spec_float) (calls : list (spec_float * spec_float)) :
  let g := session (cursor_events samples) (mkglobals lastX lastY false speed calls) in
  ProcessMouseMovement_calls g = calls ++ offsets_against (lastX, lastY) samples /\
  (gLastX g, gLastY g) = List.last (stored <$> samples) (lastX, lastY) /\
  gFirstMouse g = false /\ cameraSpeed g = speed.
Proof.
  revert lastX lastY calls. induction samples as [|[x y] rest IH]; intros lastX lastY calls.
  - cbn. rewrite app_nil_r. repeat split; reflexivity.
  - cbn zeta.
    change (session (cursor_events ((x, y) :: rest)) (mkglobals lastX lastY false speed calls))
      with (session (cursor_events rest)
              (mkglobals (binary32.of_double x) (binary32.of_double y) false speed
                 (calls ++ [offsets_to (lastX, lastY) x y]))).
    destruct (IH (binary32.of_double x) (binary32.of_double y)
                 (calls ++ [offsets_to (lastX, lastY) x y])) as (Hc & Hl & Hf & Hs).
    rewrite Hc, Hl, Hf, Hs. cbn [offsets_against fmap list_fmap].
    rewrite <- app_assoc. split; [reflexivity|]. split; [|split; reflexivity].
    apply (last_after_first (stored <$> rest) (stored (x, y)) (lastX, lastY)).
Qed.

Lemma binary64_sub_self (x : spec_float) :
  match x with S754_finite _ _ _ | S754_zero _ => True | _ => False end ->
  binary64.sub x x = S754_zero false.
Proof.
  destruct x as [s|s| |s m e]; try contradiction; intros _.
  - destruct s; reflexivity.
  - unfold binary64.sub. cbn [SFsub]. rewrite Z.min_id. unfold shl_align.
    rewrite (Z.sub_diag e). cbv iota beta. cbn [fst].
    rewrite (Z.sub_diag (cond_Zopp s (Zpos m))). reflexivity.
Qed.

Lemma representable_offsets (x y : spec_float) :
  representable x -> representable y ->
  offsets_to (stored (x, y)) x y = (S754_zero false, S754_zero false).
Proof.
  intros Hx Hy. unfold offsets_to, stored. cbn [fst snd].
  assert (Ex : binary64.of_float (binary32.of_double x) = x)
    by (destruct x; try contradiction; exact Hx).
  assert (Ey : binary64.of_float (binary32.of_double y) = y)
    by (destruct y; try contradiction; exact Hy).
  rewrite Ex, Ey, !binary64_sub_self; [reflexivity| |];
    [destruct y | destruct x]; try contradiction; exact I.
Qed.




End Callbacks.

(** * Further properties of the registry code *)

(** ** The searches as first-match functions *)

Lemma Find_loops_first (tag : string) (st : SceneManager) (n i : nat) :
  (i + n <= length (m_textureIDs st))%nat ->
  FindTextureSlot_loop tag n (Z.of_nat i) st
  = Done (first_slot tag (take n (drop i (m_textureIDs st))) (Z.of_nat i), st) /\
  FindTextureID_loop tag n (Z.of_nat i) st
  = Done (first_ID tag (take n (drop i (m_textureIDs st))), st).
Proof.
  revert i. induction n as [|n IH]; intros i Hin.
  - rewrite take_0. split; reflexivity.
  - destruct (lookup_lt_is_Some_2 (m_textureIDs st) i) as [e He]; [lia|].
    rewrite (drop_S _ _ _ He). cbn [take first_slot first_ID FindTextureSlot_loop FindTextureID_loop].
    unfold mbind, M_bind, bind.
    rewrite (texture_at_in_bounds i e st) by assumption.
    destruct (String.eqb (TEXTURE_INFO.tag e) tag); [split; reflexivity|].
    replace (Z.of_nat i + 1) with (Z.of_nat (S i)) by lia.
    apply IH. lia.
Qed.

Lemma FindTextureSlot_is_first_slot (tag : string) (st : SceneManager) :
  registry_ok st ->
  FindTextureSlot tag st = Done (first_slot tag (registered st) 0, st).
Proof.
  intros Hok. unfold registry_ok in Hok. unfold FindTextureSlot, registered. run_method.
  apply (Find_loops_first tag st (Z.to_nat (m_loadedTextures st)) 0). lia.
Qed.

Lemma FindTextureID_is_first_ID (tag : string) (st : SceneManager) :
  registry_ok st ->
  FindTextureID tag st = Done (first_ID tag (registered st), st).
Proof.
  intros Hok. unfold registry_ok in Hok. unfold FindTextureID, registered. run_method.
  apply (Find_loops_first tag st (Z.to_nat (m_loadedTextures st)) 0). lia.
Qed.

Lemma first_slot_range (tag : string) (l : list TEXTURE_INFO.t) (i : Z) :
  first_slot tag l i = -1 \/ i <= first_slot tag l i < i + Z.of_nat (length l).
Proof.
  revert i. induction l as [|e l IH]; intros i; [left; reflexivity|].
  cbn [first_slot length]. destruct (String.eqb (TEXTURE_INFO.tag e) tag); [right; lia|].
  destruct (IH (i + 1)) as [H|H]; [left; exact H | right; lia].
Qed.

Lemma first_slot_no_match (tag : string) (l : list TEXTURE_INFO.t) (i : Z) :
  Forall (fun e => TEXTURE_INFO.tag e <> tag) l -> first_slot tag l i = -1.
Proof.
  intros H. revert i. induction H as [|e l He _ IH]; intros i; [reflexivity|].
  cbn [first_slot]. destruct (String.eqb_spec (TEXTURE_INFO.tag e) tag); [contradiction|apply IH].
Qed.

Lemma first_ID_no_match (tag : string) (l : list TEXTURE_INFO.t) :
  Forall (fun e => TEXTURE_INFO.tag e <> tag) l -> first_ID tag l = -1.
Proof.
  induction 1 as [|e l He _ IH]; [reflexivity|].
  cbn [first_ID]. destruct (String.eqb_spec (TEXTURE_INFO.tag e) tag); [contradiction|exact IH].
Qed.

Lemma first_slot_app_no_match (tag : string) (l k : list TEXTURE_INFO.t) (i : Z) :
  Forall (fun e => TEXTURE_INFO.tag e <> tag) l ->
  first_slot tag (l ++ k) i = first_slot tag k (i + Z.of_nat (length l)).
Proof.
  intros H. revert i. induction H as [|e l He _ IH]; intros i.
  - cbn. f_equal. lia.
  - cbn [app first_slot length].
    destruct (String.eqb_spec (TEXTURE_INFO.tag e) tag); [contradiction|].
    rewrite IH. f_equal. lia.
Qed.

Lemma first_ID_app_no_match (tag : string) (l k : list TEXTURE_INFO.t) :
  Forall (fun e => TEXTURE_INFO.tag e <> tag) l ->
  first_ID tag (l ++ k) = first_ID tag k.
Proof.
  induction 1 as [|e l He _ IH]; [reflexivity|].
  cbn [app first_ID]. destruct (String.eqb_spec (TEXTURE_INFO.tag e) tag); [contradiction|exact IH].
Qed.

(** Once a tag is found, entries added behind do not change the answer. *)
Lemma first_slot_app_found (tag : string) (l k : list TEXTURE_INFO.t) (i : Z) :
  first_slot tag l i <> -1 ->
  first_slot tag (l ++ k) i = first_slot tag l i /\
  first_ID tag (l ++ k) = first_ID tag l.
Proof.
  revert i. induction l as [|e l IH]; intros i H; [contradiction|].
  cbn [app first_slot first_ID] in *.
  destruct (String.eqb (TEXTURE_INFO.tag e) tag); [split; reflexivity|].
  apply IH. exact H.
Qed.

(** A tag is found exactly when a registered entry carries it. *)
Lemma first_slot_minus_one (tag : string) (l : list TEXTURE_INFO.t) (i : Z) :
  0 <= i ->
  (first_slot tag l i = -1 <-> Forall (fun e => TEXTURE_INFO.tag e <> tag) l).
Proof.
  intros Hi. split; [|apply first_slot_no_match].
  revert i Hi. induction l as [|e l IH]; intros i Hi H; [constructor|].
  cbn [first_slot] in H.
  destruct (String.eqb_spec (TEXTURE_INFO.tag e) tag) as [Heq|Hne]; [lia|].
  constructor; [exact Hne|]. apply (IH (i + 1)); [lia|exact H].
Qed.

(** ** Registering a texture *)

Lemma CreateGLTexture_runs
    (stbi_load : string -> option GL.stbi_image) (fresh_texture_name : GL.state -> Z)
    (filename tag : string) (image : GL.stbi_image) (st : SceneManager) :
  stbi_load filename = Some image -> supported image -> has_free_slot st ->
  CreateGLTexture stbi_load fresh_texture_name filename tag st
  = Done (true, registered_state st image tag (fresh_texture_name (gl st))).
Proof.
  intros E Hs Hfree. unfold has_free_slot in Hfree.
  unfold CreateGLTexture, register_texture, glGenTextures, set_texture_at, registered_state,
    format_of.
  rewrite E. run_method.
  assert (Hin : (0 <=? m_loadedTextures st)
                && (m_loadedTextures st <? Z.of_nat (length (m_textureIDs st))) = true).
  { apply andb_true_intro. split; [apply Z.leb_le | apply Z.ltb_lt]; lia. }
  destruct Hs as [Hc|Hc]; rewrite Hc; simpl; rewrite Hin; reflexivity.
Qed.

Lemma CreateGLTexture_fails
    (stbi_load : string -> option GL.stbi_image) (fresh_texture_name : GL.state -> Z)
    (filename tag : string) (st : SceneManager) :
  ~ (exists image, stbi_load filename = Some image /\ supported image) ->
  exists g',
    CreateGLTexture stbi_load fresh_texture_name filename tag st
    = Done (false, mkSceneManager (m_pShaderManager st) (m_textureIDs st)
                     (m_loadedTextures st) (m_objectMaterials st) g' (drawn st)).
Proof.
  intros Hno. unfold CreateGLTexture.
  destruct (stbi_load filename) as [image|] eqn:E.
  - unfold glGenTextures. run_method.
    destruct (Z.eqb_spec (GL.colorChannels image) 3) as [H3|_].
    { exfalso. apply Hno. exists image. split; [reflexivity | left; exact H3]. }
    destruct (Z.eqb_spec (GL.colorChannels image) 4) as [H4|_].
    { exfalso. apply Hno. exists image. split; [reflexivity | right; exact H4]. }
    eexists. reflexivity.
  - exists (gl st). destruct st. reflexivity.
Qed.

Lemma registered_after (st : SceneManager) (image : GL.stbi_image) (tag : string) (name : Z) :
  has_free_slot st ->
  registered (registered_state st image tag name)
  = registered st ++ [TEXTURE_INFO.mk name tag].
Proof.
  intros Hfree. unfold has_free_slot in Hfree. unfold registered, registered_state.
  cbn [m_loadedTextures m_textureIDs].
  replace (Z.to_nat (m_loadedTextures st + 1)) with (S (Z.to_nat (m_loadedTextures st))) by lia.
  rewrite (take_S_r _ _ (TEXTURE_INFO.mk name tag)).
  - rewrite take_insert_ge by lia. reflexivity.
  - apply list_lookup_insert_eq. lia.
Qed.

Lemma registered_state_ok (st : SceneManager) (image : GL.stbi_image) (tag : string)
    (name : Z) :
  has_free_slot st -> registry_ok (registered_state st image tag name).
Proof.
  unfold has_free_slot, registry_ok, registered_state. cbn [m_loadedTextures m_textureIDs].
  rewrite length_insert. lia.
Qed.


Lemma registered_length (st : SceneManager) :
  registry_ok st -> length (registered st) = Z.to_nat (m_loadedTextures st).
Proof.
  unfold registry_ok, registered. intros H. rewrite length_take. lia.
Qed.

Lemma has_free_slot_ok (st : SceneManager) : has_free_slot st -> registry_ok st.
Proof. unfold has_free_slot, registry_ok. lia. Qed.

(** X1. A decodable image with 3 or 4 channels, on a registry with a free
    slot, is registered: [CreateGLTexture] returns [true], the entry (new
    name, tag) is stored in the slot after the loaded ones and the count
    goes up by one; every other slot, the shader manager, the materials and
    the draws are as before; the image was uploaded once under the new name,
    in the format of its channel count, and no texture is left bound. *)
Theorem CreateGLTexture_registers_in_next_slot
    (stbi_load : string -> option GL.stbi_image) (fresh_texture_name : GL.state -> Z)
    (filename tag : string) (image : GL.stbi_image) (st : SceneManager) :
  stbi_load filename = Some image -> supported image -> has_free_slot st ->
  let name := fresh_texture_name (gl st) in
  exists st',
    CreateGLTexture stbi_load fresh_texture_name filename tag st = Done (true, st') /\
    m_loadedTextures st' = m_loadedTextures st + 1 /\
    m_textureIDs st' !! Z.to_nat (m_loadedTextures st) = Some (TEXTURE_INFO.mk name tag) /\
    (forall i, i <> Z.to_nat (m_loadedTextures st) ->
               m_textureIDs st' !! i = m_textureIDs st !! i) /\
    length (m_textureIDs st') = length (m_textureIDs st) /\
    registered st' = registered st ++ [TEXTURE_INFO.mk name tag] /\
    m_pShaderManager st' = m_pShaderManager st /\
    m_objectMaterials st' = m_objectMaterials st /\
    drawn st' = drawn st /\
    GL.generated (gl st') = name :: GL.generated (gl st) /\
    GL.bound_2D (gl st') = 0 /\
    GL.uploads (gl st')
    = (name, (if GL.colorChannels image =? 3 then GL.GL_RGB8 else GL.GL_RGBA8),
       GL.width image, GL.height image) :: GL.uploads (gl st).
Proof.
  intros E Hs Hfree name.
  exists (registered_state st image tag name). split.
  - apply CreateGLTexture_runs; assumption.
  - unfold has_free_slot in Hfree.
    split; [reflexivity|]. split; [apply list_lookup_insert_eq; lia|].
    split; [intros i Hi; apply list_lookup_insert_ne; congruence|].
    split; [apply length_insert|].
    split; [apply registered_after; exact Hfree|].
    repeat split.
Qed.

Lemma CreateGLTexture_registers_in_next_slot_witness :
  let st := new_scene None in
  let image := GL.mkimage 64 64 3 in
  every_file_rgb "textures/wood-floor.jpg" = Some image /\ supported image /\
  has_free_slot st /\
  exists st',
    CreateGLTexture every_file_rgb counting_names "textures/wood-floor.jpg" "Floor" st
    = Done (true, st') /\
    m_loadedTextures st' = 1 /\
    m_textureIDs st' !! 0%nat = Some (TEXTURE_INFO.mk 1 "Floor").
Proof.
  intros st image.
  assert (E : every_file_rgb "textures/wood-floor.jpg" = Some image) by reflexivity.
  assert (Hs : supported image) by (left; reflexivity).
  assert (Hfree : has_free_slot st) by (unfold has_free_slot; simpl; lia).
  split; [exact E|]. split; [exact Hs|]. split; [exact Hfree|].
  destruct (CreateGLTexture_registers_in_next_slot every_file_rgb counting_names
              "textures/wood-floor.jpg" "Floor" image st E Hs Hfree)
    as (st' & Hrun & Hcnt & Hslot & _).
  exists st'. split; [exact Hrun|]. split; [exact Hcnt | exact Hslot].
Defined.

(** X2. On a registry with a free slot [CreateGLTexture] always returns:
    [true] exactly when the file decodes to an image with 3 or 4 channels,
    and then the count is one more; otherwise [false] with the count as it
    was.  Either way the array keeps its size and the count stays within
    it. *)
Theorem CreateGLTexture_true_iff_supported
    (stbi_load : string -> option GL.stbi_image) (fresh_texture_name : GL.state -> Z)
    (filename tag : string) (st : SceneManager) :
  has_free_slot st ->
  exists b st',
    CreateGLTexture stbi_load fresh_texture_name filename tag st = Done (b, st') /\
    (b = true <-> exists image, stbi_load filename = Some image /\ supported image) /\
    m_loadedTextures st' = m_loadedTextures st + Z.b2z b /\
    length (m_textureIDs st') = length (m_textureIDs st) /\
    registry_ok st'.
Proof.
  intros Hfree.
  destruct (stbi_load filename) as [image|] eqn:E.
  - destruct (Z.eq_dec (GL.colorChannels image) 3) as [H3|H3];
      [|destruct (Z.eq_dec (GL.colorChannels image) 4) as [H4|H4]].
    1,2: exists true, (registered_state st image tag (fresh_texture_name (gl st)));
      (split; [apply CreateGLTexture_runs; [exact E | (left; exact H3) || (right; exact H4)
                                           | exact Hfree]|]);
      (split; [split; [intros _; exists image; split;
                        [reflexivity | (left; exact H3) || (right; exact H4)]
                      | reflexivity]|]);
      (split; [reflexivity|]); (split; [apply length_insert|]);
      apply registered_state_ok; exact Hfree.
    destruct (CreateGLTexture_fails stbi_load fresh_texture_name filename tag st) as [g' Hrun].
    { rewrite E. intros (image' & [= <-] & [H|H]); contradiction. }
    eexists false, _. split; [exact Hrun|].
    split; [split; [discriminate|]|].
    { intros (image' & [= <-] & [H|H]); contradiction. }
    split; [cbn; lia|]. split; [reflexivity|]. apply has_free_slot_ok in Hfree. exact Hfree.
  - destruct (CreateGLTexture_fails stbi_load fresh_texture_name filename tag st) as [g' Hrun].
    { rewrite E. intros (image' & [=] & _). }
    eexists false, _. split; [exact Hrun|].
    split; [split; [discriminate|]|].
    { intros (image' & [=] & _). }
    split; [cbn; lia|]. split; [reflexivity|]. apply has_free_slot_ok in Hfree. exact Hfree.
Qed.

Lemma CreateGLTexture_true_iff_supported_witness :
  let st := new_scene None in
  has_free_slot st /\
  exists b st',
    CreateGLTexture (fun _ => Some (GL.mkimage 8 8 1)) counting_names
      "textures/grey.png" "Grey" st = Done (b, st') /\
    (b = true <-> exists image, Some (GL.mkimage 8 8 1) = Some image /\ supported image) /\
    m_loadedTextures st' = m_loadedTextures st + Z.b2z b /\
    length (m_textureIDs st') = length (m_textureIDs st) /\
    registry_ok st'.
Proof.
  intros st.
  assert (Hfree : has_free_slot st) by (unfold has_free_slot; simpl; lia).
  split; [exact Hfree|].
  exact (CreateGLTexture_true_iff_supported (fun _ => Some (GL.mkimage 8 8 1)) counting_names
           "textures/grey.png" "Grey" st Hfree).
Defined.

(** X3. Register, then look up: after a successful [CreateGLTexture] under a
    tag that no registered texture carried, [FindTextureSlot] answers the
    slot it was stored in (the count before the call) and [FindTextureID]
    its name, as an [int]. *)
Theorem CreateGLTexture_then_find
    (stbi_load : string -> option GL.stbi_image) (fresh_texture_name : GL.state -> Z)
    (filename tag : string) (image : GL.stbi_image) (st : SceneManager) :
  stbi_load filename = Some image -> supported image -> has_free_slot st ->
  never_registered tag st ->
  exists st',
    CreateGLTexture stbi_load fresh_texture_name filename tag st = Done (true, st') /\
    FindTextureSlot tag st' = Done (m_loadedTextures st, st') /\
    FindTextureID tag st' = Done (int_of_GLuint (fresh_texture_name (gl st)), st').
Proof.
  intros E Hs Hfree Hnever.
  exists (registered_state st image tag (fresh_texture_name (gl st))).
  split; [apply CreateGLTexture_runs; assumption|].
  pose proof (registered_state_ok st image tag (fresh_texture_name (gl st)) Hfree) as Hok'.
  rewrite FindTextureSlot_is_first_slot, FindTextureID_is_first_ID by exact Hok'.
  rewrite registered_after by exact Hfree.
  rewrite first_slot_app_no_match, first_ID_app_no_match by exact Hnever.
  rewrite registered_length by (apply has_free_slot_ok; exact Hfree).
  cbn [first_slot first_ID TEXTURE_INFO.tag TEXTURE_INFO.ID]. rewrite String.eqb_refl.
  unfold has_free_slot in Hfree. split; f_equal; f_equal; lia.
Qed.

Lemma CreateGLTexture_then_find_witness :
  let st := new_scene None in
  let image := GL.mkimage 64 64 3 in
  every_file_rgb "textures/Door.png" = Some image /\ supported image /\
  has_free_slot st /\ never_registered "Door" st /\
  exists st',
    CreateGLTexture every_file_rgb counting_names "textures/Door.png" "Door" st
    = Done (true, st') /\
    FindTextureSlot "Door" st' = Done (0, st') /\
    FindTextureID "Door" st' = Done (int_of_GLuint 1, st').
Proof.
  intros st image.
  assert (E : every_file_rgb "textures/Door.png" = Some image) by reflexivity.
  assert (Hs : supported image) by (left; reflexivity).
  assert (Hfree : has_free_slot st) by (unfold has_free_slot; simpl; lia).
  assert (Hnever : never_registered "Door" st) by constructor.
  split; [exact E|]. split; [exact Hs|]. split; [exact Hfree|]. split; [exact Hnever|].
  exact (CreateGLTexture_then_find every_file_rgb counting_names "textures/Door.png" "Door"
           image st E Hs Hfree Hnever).
Defined.

Lemma Find_loops_same_registry (tag : string) (st st' : SceneManager) (n : nat) (i : Z) :
  m_textureIDs st' = m_textureIDs st ->
  (forall v, FindTextureSlot_loop tag n i st = Done (v, st) ->
             FindTextureSlot_loop tag n i st' = Done (v, st')) /\
  (forall v, FindTextureID_loop tag n i st = Done (v, st) ->
             FindTextureID_loop tag n i st' = Done (v, st')).
Proof.
  intros Hids. revert i. induction n as [|n IH]; intros i.
  - split; intros v [= <-]; reflexivity.
  - cbn [FindTextureSlot_loop FindTextureID_loop]. unfold mbind, M_bind, bind, texture_at.
    cbv beta. rewrite Hids. destruct (0 <=? i); [|split; intros v; discriminate].
    destruct (m_textureIDs st !! Z.to_nat i) as [e|]; [|split; intros v; discriminate].
    destruct (String.eqb (TEXTURE_INFO.tag e) tag).
    + split; intros v [= <-]; reflexivity.
    + apply IH.
Qed.

Lemma Find_same_registry (tag : string) (st st' : SceneManager) :
  m_textureIDs st' = m_textureIDs st -> m_loadedTextures st' = m_loadedTextures st ->
  (forall v, FindTextureSlot tag st = Done (v, st) -> FindTextureSlot tag st' = Done (v, st')) /\
  (forall v, FindTextureID tag st = Done (v, st) -> FindTextureID tag st' = Done (v, st')).
Proof.
  intros Hids Hcnt. unfold FindTextureSlot, FindTextureID. run_method. rewrite Hcnt.
  apply Find_loops_same_registry. exact Hids.
Qed.

Lemma CreateGLTexture_without_free_slot
    (stbi_load : string -> option GL.stbi_image) (fresh_texture_name : GL.state -> Z)
    (filename tag : string) (image : GL.stbi_image) (st : SceneManager) :
  stbi_load filename = Some image -> supported image -> ~ has_free_slot st ->
  CreateGLTexture stbi_load fresh_texture_name filename tag st
  = Crash (OutOfBounds (m_loadedTextures st)).
Proof.
  intros E Hs Hfull. unfold has_free_slot in Hfull.
  unfold CreateGLTexture, register_texture, glGenTextures, set_texture_at.
  rewrite E. run_method.
  assert (Hout : (0 <=? m_loadedTextures st)
                 && (m_loadedTextures st <? Z.of_nat (length (m_textureIDs st))) = false).
  { apply andb_false_iff. rewrite Z.leb_gt, Z.ltb_ge. lia. }
  destruct Hs as [Hc|Hc]; rewrite Hc; simpl; rewrite Hout; reflexivity.
Qed.

(** X4. Registration never changes what an earlier lookup found: if
    [FindTextureSlot] finds a tag, then after any further [CreateGLTexture]
    that returns, successful or not and under whatever tag, the same tag is
    found in the same slot with the same ID; so a texture registered under a
    tag already in use cannot be reached by that tag.  The call returns
    whenever a slot is free or the file is not an image of 3 or 4 channels;
    such an image on a registry without a free slot is the store past the
    array, after which there is no lookup. *)
Theorem CreateGLTexture_keeps_earlier_lookups
    (stbi_load : string -> option GL.stbi_image) (fresh_texture_name : GL.state -> Z)
    (filename tag earlier : string) (slot id : Z) (st : SceneManager) :
  FindTextureSlot earlier st = Done (slot, st) -> slot <> -1 ->
  FindTextureID earlier st = Done (id, st) ->
  (forall b st',
      CreateGLTexture stbi_load fresh_texture_name filename tag st = Done (b, st') ->
      FindTextureSlot earlier st' = Done (slot, st') /\
      FindTextureID earlier st' = Done (id, st')) /\
  (has_free_slot st \/ ~ (exists image, stbi_load filename = Some image /\ supported image) ->
   exists b st',
     CreateGLTexture stbi_load fresh_texture_name filename tag st = Done (b, st')) /\
  (forall image,
      stbi_load filename = Some image -> supported image -> ~ has_free_slot st ->
      CreateGLTexture stbi_load fresh_texture_name filename tag st
      = Crash (OutOfBounds (m_loadedTextures st))).
Proof.
  intros Hslot Hfound Hid.
  assert (Hfail : ~ (exists image, stbi_load filename = Some image /\ supported image) ->
                  forall b st',
                    CreateGLTexture stbi_load fresh_texture_name filename tag st
                    = Done (b, st') ->
                    FindTextureSlot earlier st' = Done (slot, st') /\
                    FindTextureID earlier st' = Done (id, st')).
  { intros Hno b st' Hrun.
    destruct (CreateGLTexture_fails stbi_load fresh_texture_name filename tag st Hno)
      as [g' Hrun'].
    rewrite Hrun' in Hrun. injection Hrun as <- <-.
    split; [apply (Find_same_registry earlier st) | apply (Find_same_registry earlier st)];
      auto. }
  split; [|split].
  - intros b st' Hrun.
    destruct (stbi_load filename) as [image|] eqn:E;
      [|apply (Hfail ltac:(intros (image' & [=] & _)) b st' Hrun)].
    destruct (decide (supported image)) as [Hs|Hn];
      [|apply (Hfail ltac:(intros (image' & [= <-] & Hs); contradiction) b st' Hrun)].
    destruct (decide (has_free_slot st)) as [Hfree|Hfull].
    + rewrite (CreateGLTexture_runs stbi_load fresh_texture_name filename tag image st)
        in Hrun by assumption.
      injection Hrun as <- <-.
      pose proof (has_free_slot_ok st Hfree) as Hok.
      rewrite FindTextureSlot_is_first_slot in Hslot by exact Hok.
      rewrite FindTextureID_is_first_ID in Hid by exact Hok.
      injection Hslot as Hslot. injection Hid as Hid.
      rewrite FindTextureSlot_is_first_slot, FindTextureID_is_first_ID
        by (apply registered_state_ok; exact Hfree).
      rewrite registered_after by exact Hfree.
      destruct (first_slot_app_found earlier (registered st)
                  [TEXTURE_INFO.mk (fresh_texture_name (gl st)) tag] 0) as [-> ->];
        [rewrite Hslot; exact Hfound | rewrite Hslot, Hid; split; reflexivity].
    + rewrite (CreateGLTexture_without_free_slot stbi_load fresh_texture_name filename tag
                 image st) in Hrun by assumption.
      discriminate.
  - intros [Hfree|Hno].
    + destruct (stbi_load filename) as [image|] eqn:E.
      * destruct (decide (supported image)) as [Hs|Hn].
        -- eexists _, _. apply CreateGLTexture_runs; [exact E | exact Hs | exact Hfree].
        -- destruct (CreateGLTexture_fails stbi_load fresh_texture_name filename tag st)
             as [g' Hrun].
           { rewrite E. intros (image' & [= <-] & Hs). contradiction. }
           eexists _, _. exact Hrun.
      * destruct (CreateGLTexture_fails stbi_load fresh_texture_name filename tag st)
          as [g' Hrun].
        { rewrite E. intros (image' & [=] & _). }
        eexists _, _. exact Hrun.
    + destruct (CreateGLTexture_fails stbi_load fresh_texture_name filename tag st Hno)
        as [g' Hrun].
      eexists _, _. exact Hrun.
  - intros image E Hs Hfull. apply CreateGLTexture_without_free_slot with image; assumption.
Qed.

Lemma CreateGLTexture_keeps_earlier_lookups_witness :
  let blank := TEXTURE_INFO.mk 0 "" in
  let full := mkSceneManager None
                (TEXTURE_INFO.mk 1 "Floor" :: TEXTURE_INFO.mk 2 "Door"
                 :: replicate 14 (TEXTURE_INFO.mk 3 "Wall"))
                16 [] (GL.mkstate [] 0 []) [] in
  let unreadable : string -> option GL.stbi_image := fun _ => None in
  ~ has_free_slot full /\
  FindTextureSlot "Door" full = Done (1, full) /\ 1 <> -1 /\
  FindTextureID "Door" full = Done (2, full) /\
  (exists st',
      CreateGLTexture unreadable counting_names "textures/door.jpg" "Door" full
      = Done (false, st') /\
      FindTextureSlot "Door" st' = Done (1, st') /\
      FindTextureID "Door" st' = Done (2, st')) /\
  CreateGLTexture every_file_rgb counting_names "textures/door.jpg" "Door" full
  = Crash (OutOfBounds 16).
Proof.
  intros blank full unreadable.
  assert (Hfull : ~ has_free_slot full) by (unfold has_free_slot; simpl; lia).
  assert (Hslot : FindTextureSlot "Door" full = Done (1, full)) by reflexivity.
  assert (Hne : 1 <> -1) by lia.
  assert (Hid : FindTextureID "Door" full = Done (2, full)) by reflexivity.
  split; [exact Hfull|]. split; [exact Hslot|]. split; [exact Hne|]. split; [exact Hid|].
  split.
  - destruct (CreateGLTexture_keeps_earlier_lookups unreadable counting_names
                "textures/door.jpg" "Door" "Door" 1 2 full Hslot Hne Hid)
      as (Hkeep & _ & _).
    exists full. split; [reflexivity|]. apply (Hkeep false full). reflexivity.
  - destruct (CreateGLTexture_keeps_earlier_lookups every_file_rgb counting_names
                "textures/door.jpg" "Door" "Door" 1 2 full Hslot Hne Hid)
      as (_ & _ & Hcrash).
    apply (Hcrash (GL.mkimage 64 64 3)); [reflexivity | left; reflexivity | exact Hfull].
Defined.

(** ** Releasing the textures *)

Lemma first_slot_same_tags (tag : string) (l k : list TEXTURE_INFO.t) (i : Z) :
  TEXTURE_INFO.tag <$> l = TEXTURE_INFO.tag <$> k ->
  first_slot tag l i = first_slot tag k i.
Proof.
  revert k i. induction l as [|e l IH]; intros [|e' k] i H; try discriminate; [reflexivity|].
  cbn in H. injection H as He Hl. cbn [first_slot]. rewrite He.
  destruct (String.eqb (TEXTURE_INFO.tag e') tag); [reflexivity|]. apply IH. exact Hl.
Qed.

Lemma DestroyGLTextures_loop_runs (fresh_texture_name : GL.state -> Z) (n : nat) :
  forall (i : nat) (st : SceneManager),
    (i + n <= length (m_textureIDs st))%nat ->
    exists st' new,
      DestroyGLTextures_loop fresh_texture_name n (Z.of_nat i) st = Done (tt, st') /\
      m_loadedTextures st' = m_loadedTextures st /\
      m_pShaderManager st' = m_pShaderManager st /\
      m_objectMaterials st' = m_objectMaterials st /\
      drawn st' = drawn st /\
      length (m_textureIDs st') = length (m_textureIDs st) /\
      TEXTURE_INFO.tag <$> m_textureIDs st' = TEXTURE_INFO.tag <$> m_textureIDs st /\
      take i (m_textureIDs st') = take i (m_textureIDs st) /\
      drop (i + n) (m_textureIDs st') = drop (i + n) (m_textureIDs st) /\
      TEXTURE_INFO.ID <$> take n (drop i (m_textureIDs st')) = reverse new /\
      GL.generated (gl st') = new ++ GL.generated (gl st) /\
      length new = n /\
      GL.bound_2D (gl st') = GL.bound_2D (gl st) /\
      GL.uploads (gl st') = GL.uploads (gl st).
Proof.
  induction n as [|n IH]; intros i st Hin.
  - exists st, []. rewrite Nat.add_0_r. repeat split.
  - destruct (lookup_lt_is_Some_2 (m_textureIDs st) i) as [e He]; [lia|].
    set (name := fresh_texture_name (gl st)).
    set (st2 := mkSceneManager (m_pShaderManager st)
                  (<[i := TEXTURE_INFO.mk name (TEXTURE_INFO.tag e)]> (m_textureIDs st))
                  (m_loadedTextures st) (m_objectMaterials st)
                  (GL.mkstate (name :: GL.generated (gl st)) (GL.bound_2D (gl st))
                              (GL.uploads (gl st)))
                  (drawn st)).
    assert (Hstep : DestroyGLTextures_loop fresh_texture_name (S n) (Z.of_nat i) st
                    = DestroyGLTextures_loop fresh_texture_name n (Z.of_nat (S i)) st2).
    { cbn [DestroyGLTextures_loop]. unfold mbind, M_bind, bind.
      rewrite (texture_at_in_bounds i e st He).
      unfold glGenTextures, set_texture_at. cbn [m_textureIDs gl].
      replace ((0 <=? Z.of_nat i) && (Z.of_nat i <? Z.of_nat (length (m_textureIDs st))))
        with true.
      - rewrite Nat2Z.id. replace (Z.of_nat i + 1) with (Z.of_nat (S i)) by lia. reflexivity.
      - symmetry. apply andb_true_intro. split; [apply Z.leb_le | apply Z.ltb_lt]; lia. }
    destruct (IH (S i) st2) as
      (st' & new & Hrun & Hcnt & Hsh & Hmat & Hdr & Hlen & Htags & Htake & Hdrop & Hids
       & Hgen & Hnew & Hbound & Hup).
    { subst st2. cbn [m_textureIDs]. rewrite length_insert. lia. }
    subst st2. cbn [m_textureIDs m_loadedTextures m_pShaderManager m_objectMaterials drawn gl
                    GL.generated GL.bound_2D GL.uploads] in *.
    rewrite length_insert in Hlen.
    exists st', (new ++ [name]). rewrite Hstep.
    split; [exact Hrun|]. split; [exact Hcnt|]. split; [exact Hsh|]. split; [exact Hmat|].
    split; [exact Hdr|]. split; [exact Hlen|].
    assert (Hi' : m_textureIDs st' !! i = Some (TEXTURE_INFO.mk name (TEXTURE_INFO.tag e))).
    { rewrite <- (lookup_take_lt _ (S i)) by lia. rewrite Htake.
      rewrite lookup_take_lt by lia. apply list_lookup_insert_eq. lia. }
    split.
    { rewrite Htags, list_fmap_insert. apply list_insert_id.
      rewrite list_lookup_fmap, He. reflexivity. }
    split.
    { rewrite <- (take_insert_ge (m_textureIDs st) i i
                   (TEXTURE_INFO.mk name (TEXTURE_INFO.tag e))) by lia.
      apply (f_equal (take i)) in Htake. rewrite !take_take in Htake.
      rewrite Nat.min_l in Htake by lia. exact Htake. }
    split.
    { replace (i + S n)%nat with (S i + n)%nat by lia. rewrite Hdrop.
      apply drop_insert_lt. lia. }
    split.
    { rewrite (drop_S _ _ _ Hi'). cbn [take fmap list_fmap TEXTURE_INFO.ID].
      rewrite reverse_snoc. f_equal. exact Hids. }
    split; [rewrite Hgen, <- app_assoc; reflexivity|].
    split; [rewrite length_app, Hnew; simpl; lia|].
    split; assumption.
Qed.

(** X5. [DestroyGLTextures] deletes nothing.  On a registry within its array
    it returns with the count, the tags and the unloaded slots as they
    were; it generates one more texture name per loaded texture and stores
    these as the IDs of the loaded slots, in order; every name generated
    before is still there and so is every uploaded image.  A lookup by tag
    finds the slot it found before. *)
Theorem DestroyGLTextures_deletes_nothing (fresh_texture_name : GL.state -> Z)
    (st : SceneManager) :
  registry_ok st ->
  exists st' new,
    DestroyGLTextures fresh_texture_name st = Done (tt, st') /\
    m_loadedTextures st' = m_loadedTextures st /\
    TEXTURE_INFO.tag <$> m_textureIDs st' = TEXTURE_INFO.tag <$> m_textureIDs st /\
    drop (Z.to_nat (m_loadedTextures st)) (m_textureIDs st')
    = drop (Z.to_nat (m_loadedTextures st)) (m_textureIDs st) /\
    TEXTURE_INFO.ID <$> registered st' = reverse new /\
    GL.generated (gl st') = new ++ GL.generated (gl st) /\
    length new = Z.to_nat (m_loadedTextures st) /\
    GL.uploads (gl st') = GL.uploads (gl st) /\
    GL.bound_2D (gl st') = GL.bound_2D (gl st) /\
    m_pShaderManager st' = m_pShaderManager st /\
    m_objectMaterials st' = m_objectMaterials st /\
    drawn st' = drawn st /\
    forall tag slot,
      FindTextureSlot tag st = Done (slot, st) ->
      FindTextureSlot tag st' = Done (slot, st').
Proof.
  intros Hok. pose proof Hok as Hok0. unfold registry_ok in Hok.
  destruct (DestroyGLTextures_loop_runs fresh_texture_name
              (Z.to_nat (m_loadedTextures st)) 0 st)
    as (st' & new & Hrun & Hcnt & Hsh & Hmat & Hdr & Hlen & Htags & _ & Hdrop & Hids
        & Hgen & Hnew & Hbound & Hup); [lia|].
  exists st', new. unfold DestroyGLTextures. run_method.
  change (Z.of_nat 0) with 0 in Hrun. rewrite Hrun.
  split; [reflexivity|]. split; [exact Hcnt|]. split; [exact Htags|].
  split; [exact Hdrop|].
  split; [unfold registered; rewrite Hcnt; exact Hids|].
  split; [exact Hgen|]. split; [exact Hnew|]. split; [exact Hup|]. split; [exact Hbound|].
  split; [exact Hsh|]. split; [exact Hmat|]. split; [exact Hdr|].
  intros tag slot Hslot.
  assert (Hok' : registry_ok st') by (unfold registry_ok; rewrite Hcnt, Hlen; exact Hok).
  rewrite FindTextureSlot_is_first_slot in Hslot by exact Hok0. injection Hslot as <-.
  rewrite FindTextureSlot_is_first_slot by exact Hok'. f_equal. f_equal.
  apply first_slot_same_tags. unfold registered. rewrite Hcnt, !fmap_take, Htags. reflexivity.
Qed.

Lemma DestroyGLTextures_deletes_nothing_witness :
  let st := registered_state (new_scene None) (GL.mkimage 64 64 3) "Floor" 1 in
  registry_ok st /\
  exists st',
    DestroyGLTextures counting_names st = Done (tt, st') /\
    m_loadedTextures st' = 1 /\
    GL.uploads (gl st') = [(1, GL.GL_RGB8, 64, 64)] /\
    FindTextureSlot "Floor" st' = Done (0, st').
Proof.
  intros st.
  assert (Hok : registry_ok st) by (unfold registry_ok; simpl; lia).
  split; [exact Hok|].
  destruct (DestroyGLTextures_deletes_nothing counting_names st Hok)
    as (st' & new & Hrun & Hcnt & _ & _ & _ & _ & _ & Hup & _ & _ & _ & _ & Hfind).
  exists st'. split; [exact Hrun|]. split; [exact Hcnt|]. split; [exact Hup|].
  apply Hfind. reflexivity.
Defined.


(** * Further properties of the materials and of the shader state channel *)

Lemma FindMaterial_loop_first (tag : string) (before after : list OBJECT_MATERIAL.t)
    (m material : OBJECT_MATERIAL.t) :
  Forall (fun m' => OBJECT_MATERIAL.tag m' <> tag) before ->
  OBJECT_MATERIAL.tag m = tag ->
  FindMaterial_loop tag (before ++ m :: after) material
  = OBJECT_MATERIAL.mk (OBJECT_MATERIAL.diffuseColor m) (OBJECT_MATERIAL.specularColor m)
      (OBJECT_MATERIAL.shininess m) (OBJECT_MATERIAL.tag material).
Proof.
  intros Hb Hm. induction Hb as [|m' before Hm' _ IH]; cbn [app FindMaterial_loop].
  - rewrite Hm, String.eqb_refl. reflexivity.
  - destruct (String.eqb_spec (OBJECT_MATERIAL.tag m') tag); [contradiction|exact IH].
Qed.

Lemma FindMaterial_finds_first (tag : string) (material m : OBJECT_MATERIAL.t)
    (before after : list OBJECT_MATERIAL.t) (st : SceneManager) :
  m_objectMaterials st = before ++ m :: after ->
  Forall (fun m' => OBJECT_MATERIAL.tag m' <> tag) before ->
  OBJECT_MATERIAL.tag m = tag ->
  FindMaterial tag material st
  = Done ((true,
           OBJECT_MATERIAL.mk (OBJECT_MATERIAL.diffuseColor m)
             (OBJECT_MATERIAL.specularColor m) (OBJECT_MATERIAL.shininess m)
             (OBJECT_MATERIAL.tag material)),
          st).
Proof.
  intros E Hb Hm. unfold FindMaterial. run_method. rewrite E.
  rewrite FindMaterial_loop_first by assumption.
  destruct before; reflexivity.
Qed.

(** X6. [FindMaterial] is a first-match search: when some material carries
    the tag, it returns [true] and the out-parameter holds the diffuse and
    specular colours and the shininess of the first such material, whatever
    follows it in the registry; the tag of the out-parameter is not
    assigned. *)
Theorem FindMaterial_first_match (tag : string) (material m : OBJECT_MATERIAL.t)
    (before after : list OBJECT_MATERIAL.t) (st : SceneManager) :
  m_objectMaterials st = before ++ m :: after ->
  Forall (fun m' => OBJECT_MATERIAL.tag m' <> tag) before ->
  OBJECT_MATERIAL.tag m = tag ->
  FindMaterial tag material st
  = Done ((true,
           OBJECT_MATERIAL.mk (OBJECT_MATERIAL.diffuseColor m)
             (OBJECT_MATERIAL.specularColor m) (OBJECT_MATERIAL.shininess m)
             (OBJECT_MATERIAL.tag material)),
          st).
Proof. apply FindMaterial_finds_first. Qed.

Lemma FindMaterial_first_match_witness :
  let red := OBJECT_MATERIAL.mk (glm.mkvec3 1 0 0) (glm.mkvec3 1 1 1) 8 "paint" in
  let blue := OBJECT_MATERIAL.mk (glm.mkvec3 0 0 1) (glm.mkvec3 0 0 0) 2 "paint" in
  let wood := OBJECT_MATERIAL.mk (glm.mkvec3 0 0 0) (glm.mkvec3 0 0 0) 1 "wood" in
  let st := mkSceneManager None [] 0 [wood; red; blue] (GL.mkstate [] 0 []) [] in
  m_objectMaterials st = [wood] ++ red :: [blue] /\
  Forall (fun m' => OBJECT_MATERIAL.tag m' <> "paint"%string) [wood] /\
  OBJECT_MATERIAL.tag red = "paint"%string /\
  FindMaterial "paint" wood st
  = Done ((true, OBJECT_MATERIAL.mk (glm.mkvec3 1 0 0) (glm.mkvec3 1 1 1) 8 "wood"), st).
Proof.
  intros red blue wood st.
  assert (E : m_objectMaterials st = [wood] ++ red :: [blue]) by reflexivity.
  assert (Hb : Forall (fun m' => OBJECT_MATERIAL.tag m' <> "paint"%string) [wood])
    by (repeat constructor; discriminate).
  assert (Hm : OBJECT_MATERIAL.tag red = "paint"%string) by reflexivity.
  split; [exact E|]. split; [exact Hb|]. split; [exact Hm|].
  exact (FindMaterial_first_match "paint" wood red [wood] [blue] st E Hb Hm).
Defined.

(** X7. [DefineObjectMaterials] appends its six materials behind those
    already registered.  Their tags are pairwise different, so each of them
    is found under its own tag, with its own colours and shininess, unless
    a material registered before carries that tag. *)
Theorem DefineObjectMaterials_defines_six (st : SceneManager) :
  exists defined,
    DefineObjectMaterials st
    = Done (tt, mkSceneManager (m_pShaderManager st) (m_textureIDs st)
                  (m_loadedTextures st) (m_objectMaterials st ++ defined) (gl st)
                  (drawn st)) /\
    OBJECT_MATERIAL.tag <$> defined
    = ["pacifier_material"; "floor_material"; "glass"; "metal_lid_material";
       "plastic_bottle_material"; "brown_glass_material"]%string /\
    NoDup (OBJECT_MATERIAL.tag <$> defined) /\
    forall m material,
      m ∈ defined ->
      no_material_tagged (OBJECT_MATERIAL.tag m) st ->
      FindMaterial (OBJECT_MATERIAL.tag m) material
        (mkSceneManager (m_pShaderManager st) (m_textureIDs st)
           (m_loadedTextures st) (m_objectMaterials st ++ defined) (gl st) (drawn st))
      = Done ((true,
               OBJECT_MATERIAL.mk (OBJECT_MATERIAL.diffuseColor m)
                 (OBJECT_MATERIAL.specularColor m) (OBJECT_MATERIAL.shininess m)
                 (OBJECT_MATERIAL.tag material)),
              mkSceneManager (m_pShaderManager st) (m_textureIDs st)
                (m_loadedTextures st) (m_objectMaterials st ++ defined) (gl st)
                (drawn st)).
Proof.
  eexists. split.
  { unfold DefineObjectMaterials, push_material. run_method.
    rewrite <- !app_assoc. cbn [app]. reflexivity. }
  split; [reflexivity|].
  split.
  { cbn [fmap list_fmap OBJECT_MATERIAL.tag].
    repeat (apply NoDup_cons; split;
            [rewrite ?not_elem_of_cons; repeat split; try discriminate; apply not_elem_of_nil|]).
    apply NoDup_nil. exact I. }
  intros m material Hin Hno. unfold no_material_tagged in Hno.
  repeat (apply elem_of_cons in Hin as [->|Hin]);
    [..|apply elem_of_nil in Hin; contradiction];
    cbn [OBJECT_MATERIAL.tag] in *.
  - eapply (FindMaterial_finds_first _ _ _ (m_objectMaterials st));
      [reflexivity | exact Hno | reflexivity].
  - eapply (FindMaterial_finds_first _ _ _ (m_objectMaterials st ++ [_]));
      [rewrite <- app_assoc; reflexivity
      | apply Forall_app; split; [exact Hno | repeat constructor; discriminate]
      | reflexivity].
  - eapply (FindMaterial_finds_first _ _ _ (m_objectMaterials st ++ [_; _]));
      [rewrite <- app_assoc; reflexivity
      | apply Forall_app; split; [exact Hno | repeat constructor; discriminate]
      | reflexivity].
  - eapply (FindMaterial_finds_first _ _ _ (m_objectMaterials st ++ [_; _; _]));
      [rewrite <- app_assoc; reflexivity
      | apply Forall_app; split; [exact Hno | repeat constructor; discriminate]
      | reflexivity].
  - eapply (FindMaterial_finds_first _ _ _ (m_objectMaterials st ++ [_; _; _; _]));
      [rewrite <- app_assoc; reflexivity
      | apply Forall_app; split; [exact Hno | repeat constructor; discriminate]
      | reflexivity].
  - eapply (FindMaterial_finds_first _ _ _ (m_objectMaterials st ++ [_; _; _; _; _]));
      [rewrite <- app_assoc; reflexivity
      | apply Forall_app; split; [exact Hno | repeat constructor; discriminate]
      | reflexivity].
Qed.


(** [SetShaderMaterial] with a shader manager, in one equation. *)
Lemma SetShaderMaterial_with_shader (indeterminate : OBJECT_MATERIAL.t)
    (tag : string) (mats : list OBJECT_MATERIAL.t)
    (sh : ShaderManager.t) (ids : list TEXTURE_INFO.t) (cnt : Z) (g : GL.state)
    (d : list (ShapeMeshes.draw * option ShaderManager.t)) :
  SetShaderMaterial indeterminate tag (mkSceneManager (Some sh) ids cnt mats g d)
  = Done (tt,
          mkSceneManager
            (Some (match mats with
                   | [] => sh
                   | _ :: _ =>
                       let material := FindMaterial_loop tag mats indeterminate in
                       ShaderManager.setFloatValue "material.shininess"
                         (OBJECT_MATERIAL.shininess material)
                         (ShaderManager.setVec3Value "material.specularColor"
                            (OBJECT_MATERIAL.specularColor material)
                            (ShaderManager.setVec3Value "material.diffuseColor"
                               (OBJECT_MATERIAL.diffuseColor material) sh))
                   end))
            ids cnt mats g d).
Proof. destruct mats; reflexivity. Qed.

(** X8. With a shader manager, [SetShaderMaterial] under a tag that some
    material carries sets the three material uniforms to the colours and
    the shininess of the first such material, and changes nothing else; the
    uninitialised local plays no part. *)
Theorem SetShaderMaterial_sets_first_match (indeterminate : OBJECT_MATERIAL.t)
    (tag : string) (m : OBJECT_MATERIAL.t) (before after : list OBJECT_MATERIAL.t)
    (sh : ShaderManager.t) (ids : list TEXTURE_INFO.t) (cnt : Z) (g : GL.state)
    (d : list (ShapeMeshes.draw * option ShaderManager.t)) :
  Forall (fun m' => OBJECT_MATERIAL.tag m' <> tag) before ->
  OBJECT_MATERIAL.tag m = tag ->
  SetShaderMaterial indeterminate tag
    (mkSceneManager (Some sh) ids cnt (before ++ m :: after) g d)
  = Done (tt,
          mkSceneManager
            (Some (ShaderManager.setFloatValue "material.shininess"
                     (OBJECT_MATERIAL.shininess m)
                     (ShaderManager.setVec3Value "material.specularColor"
                        (OBJECT_MATERIAL.specularColor m)
                        (ShaderManager.setVec3Value "material.diffuseColor"
                           (OBJECT_MATERIAL.diffuseColor m) sh))))
            ids cnt (before ++ m :: after) g d).
Proof.
  intros Hb Hm. rewrite SetShaderMaterial_with_shader.
  destruct (before ++ m :: after) as [|m0 rest] eqn:E.
  - destruct before; discriminate E.
  - rewrite <- E. cbv zeta. rewrite FindMaterial_loop_first by assumption. reflexivity.
Qed.

Lemma SetShaderMaterial_sets_first_match_witness :
  let glass := OBJECT_MATERIAL.mk (glm.mkvec3 0.2 0.6 0.2) (glm.mkvec3 1 1 1) 128 "glass" in
  let floor := OBJECT_MATERIAL.mk (glm.mkvec3 0.7 0.7 0.7) (glm.mkvec3 0.3 0.3 0.3) 2
                 "floor_material" in
  Forall (fun m' => OBJECT_MATERIAL.tag m' <> "glass"%string) [floor] /\
  OBJECT_MATERIAL.tag glass = "glass"%string /\
  SetShaderMaterial floor "glass"
    (mkSceneManager (Some ∅) [] 0 ([floor] ++ glass :: []) (GL.mkstate [] 0 []) [])
  = Done (tt,
          mkSceneManager
            (Some (ShaderManager.setFloatValue "material.shininess" 128
                     (ShaderManager.setVec3Value "material.specularColor" (glm.mkvec3 1 1 1)
                        (ShaderManager.setVec3Value "material.diffuseColor"
                           (glm.mkvec3 0.2 0.6 0.2) ∅))))
            [] 0 ([floor] ++ glass :: []) (GL.mkstate [] 0 []) []).
Proof.
  intros glass floor.
  assert (Hb : Forall (fun m' => OBJECT_MATERIAL.tag m' <> "glass"%string) [floor])
    by (repeat constructor; discriminate).
  assert (Hm : OBJECT_MATERIAL.tag glass = "glass"%string) by reflexivity.
  split; [exact Hb|]. split; [exact Hm|].
  exact (SetShaderMaterial_sets_first_match floor "glass" glass [floor] [] ∅ [] 0
           (GL.mkstate [] 0 []) [] Hb Hm).
Defined.

(** X9. With a shader manager, [SetShaderMaterial] under a tag that no
    material carries does nothing while the registry is empty; as soon as
    the registry holds a material, it overwrites the three material uniforms
    with what the uninitialised local [material] happens to hold. *)
Theorem SetShaderMaterial_unknown_tag (indeterminate : OBJECT_MATERIAL.t)
    (tag : string) (mats : list OBJECT_MATERIAL.t)
    (sh : ShaderManager.t) (ids : list TEXTURE_INFO.t) (cnt : Z) (g : GL.state)
    (d : list (ShapeMeshes.draw * option ShaderManager.t)) :
  Forall (fun m' => OBJECT_MATERIAL.tag m' <> tag) mats ->
  SetShaderMaterial indeterminate tag (mkSceneManager (Some sh) ids cnt mats g d)
  = Done (tt,
          mkSceneManager
            (Some (match mats with
                   | [] => sh
                   | _ :: _ =>
                       ShaderManager.setFloatValue "material.shininess"
                         (OBJECT_MATERIAL.shininess indeterminate)
                         (ShaderManager.setVec3Value "material.specularColor"
                            (OBJECT_MATERIAL.specularColor indeterminate)
                            (ShaderManager.setVec3Value "material.diffuseColor"
                               (OBJECT_MATERIAL.diffuseColor indeterminate) sh))
                   end))
            ids cnt mats g d).
Proof.
  intros Hno. rewrite SetShaderMaterial_with_shader.
  destruct mats as [|m mats]; [reflexivity|].
  cbv zeta. rewrite (FindMaterial_loop_no_match tag (m :: mats) indeterminate Hno).
  reflexivity.
Qed.

Lemma SetShaderMaterial_unknown_tag_witness :
  let stale := OBJECT_MATERIAL.mk (glm.mkvec3 9 9 9) (glm.mkvec3 8 8 8) 7 "" in
  let floor := OBJECT_MATERIAL.mk (glm.mkvec3 0.7 0.7 0.7) (glm.mkvec3 0.3 0.3 0.3) 2
                 "floor_material" in
  Forall (fun m' => OBJECT_MATERIAL.tag m' <> "marble"%string) [floor] /\
  SetShaderMaterial stale "marble"
    (mkSceneManager (Some ∅) [] 0 [floor] (GL.mkstate [] 0 []) [])
  = Done (tt,
          mkSceneManager
            (Some (ShaderManager.setFloatValue "material.shininess" 7
                     (ShaderManager.setVec3Value "material.specularColor" (glm.mkvec3 8 8 8)
                        (ShaderManager.setVec3Value "material.diffuseColor"
                           (glm.mkvec3 9 9 9) ∅))))
            [] 0 [floor] (GL.mkstate [] 0 []) []).
Proof.
  intros stale floor.
  assert (Hno : Forall (fun m' => OBJECT_MATERIAL.tag m' <> "marble"%string) [floor])
    by (repeat constructor; discriminate).
  split; [exact Hno|].
  exact (SetShaderMaterial_unknown_tag stale "marble" [floor] ∅ [] 0 (GL.mkstate [] 0 []) []
           Hno).
Defined.

Lemma SetShaderTexture_runs_slot (tag : string) (sh : ShaderManager.t)
    (ids : list TEXTURE_INFO.t) (cnt : Z) (mats : list OBJECT_MATERIAL.t)
    (g : GL.state) (d : list (ShapeMeshes.draw * option ShaderManager.t)) :
  registry_ok (mkSceneManager (Some sh) ids cnt mats g d) ->
  SetShaderTexture tag (mkSceneManager (Some sh) ids cnt mats g d)
  = Done (tt,
          mkSceneManager
            (Some (ShaderManager.setSampler2DValue g_TextureValueName
                     (first_slot tag (take (Z.to_nat cnt) ids) 0)
                     (ShaderManager.setIntValue g_UseTextureName 1 sh)))
            ids cnt mats g d).
Proof.
  intros Hok. unfold SetShaderTexture. run_method.
  rewrite (FindTextureSlot_is_first_slot tag
             (mkSceneManager (Some (ShaderManager.setIntValue g_UseTextureName 1 sh))
                             ids cnt mats g d)) by exact Hok.
  reflexivity.
Qed.

(** X10. With a shader manager and a registry within its array,
    [SetShaderTexture] hands the shader the very index [FindTextureSlot]
    answers for the tag, with [bUseTexture] set to 1; that index is -1 or
    the slot of a loaded texture.  Nothing else changes. *)
Theorem SetShaderTexture_uses_FindTextureSlot (tag : string) (slot : Z)
    (sh : ShaderManager.t) (ids : list TEXTURE_INFO.t) (cnt : Z)
    (mats : list OBJECT_MATERIAL.t) (g : GL.state)
    (d : list (ShapeMeshes.draw * option ShaderManager.t)) :
  let st := mkSceneManager (Some sh) ids cnt mats g d in
  registry_ok st ->
  FindTextureSlot tag st = Done (slot, st) ->
  SetShaderTexture tag st
  = Done (tt,
          mkSceneManager
            (Some (ShaderManager.setSampler2DValue g_TextureValueName slot
                     (ShaderManager.setIntValue g_UseTextureName 1 sh)))
            ids cnt mats g d) /\
  (slot = -1 \/ 0 <= slot < cnt).
Proof.
  intros st Hok Hslot. pose proof Hok as Hok'. unfold registry_ok in Hok'.
  rewrite FindTextureSlot_is_first_slot in Hslot by exact Hok. injection Hslot as <-.
  split; [apply SetShaderTexture_runs_slot; exact Hok|].
  destruct (first_slot_range tag (registered st) 0) as [H|H]; [left; exact H|right].
  rewrite registered_length in H by exact Hok. subst st. cbn [m_loadedTextures] in *. lia.
Qed.

Lemma SetShaderTexture_uses_FindTextureSlot_witness :
  let st0 := registered_state (new_scene (Some ∅)) (GL.mkimage 64 64 3) "Floor" 1 in
  let st := mkSceneManager (Some ∅) (m_textureIDs st0) 1 [] (gl st0) [] in
  registry_ok st /\ FindTextureSlot "Floor" st = Done (0, st) /\
  SetShaderTexture "Floor" st
  = Done (tt,
          mkSceneManager
            (Some (ShaderManager.setSampler2DValue g_TextureValueName 0
                     (ShaderManager.setIntValue g_UseTextureName 1 ∅)))
            (m_textureIDs st0) 1 [] (gl st0) []) /\
  (0 = -1 \/ 0 <= 0 < 1).
Proof.
  intros st0 st.
  assert (Hok : registry_ok st) by (unfold registry_ok; simpl; lia).
  assert (Hslot : FindTextureSlot "Floor" st = Done (0, st)) by reflexivity.
  split; [exact Hok|]. split; [exact Hslot|].
  exact (SetShaderTexture_uses_FindTextureSlot "Floor" 0 ∅ (m_textureIDs st0) 1 []
           (gl st0) [] Hok Hslot).
Defined.

(** X11. Colour and texture exclude each other, and the later call decides:
    after [SetShaderColor] then [SetShaderTexture] the shader has
    [bUseTexture] at 1, after [SetShaderTexture] then [SetShaderColor] at 0;
    in both orders the colour and the sampler index set by the two calls are
    both still in place. *)
Theorem last_of_color_and_texture_decides (tag : string) (r g' b a : R)
    (sh : ShaderManager.t) (ids : list TEXTURE_INFO.t) (cnt : Z)
    (mats : list OBJECT_MATERIAL.t) (g : GL.state)
    (d : list (ShapeMeshes.draw * option ShaderManager.t)) :
  let st := mkSceneManager (Some sh) ids cnt mats g d in
  registry_ok st ->
  exists slot sh1 sh2,
    FindTextureSlot tag st = Done (slot, st) /\
    (SetShaderColor r g' b a ;; SetShaderTexture tag) st
    = Done (tt, mkSceneManager (Some sh1) ids cnt mats g d) /\
    (SetShaderTexture tag ;; SetShaderColor r g' b a) st
    = Done (tt, mkSceneManager (Some sh2) ids cnt mats g d) /\
    sh1 !! g_UseTextureName = Some (ShaderManager.UInt 1) /\
    sh2 !! g_UseTextureName = Some (ShaderManager.UInt 0) /\
    sh1 !! g_ColorValueName = Some (ShaderManager.UVec4 (glm.mkvec4 r g' b a)) /\
    sh2 !! g_ColorValueName = Some (ShaderManager.UVec4 (glm.mkvec4 r g' b a)) /\
    sh1 !! g_TextureValueName = Some (ShaderManager.USampler2D slot) /\
    sh2 !! g_TextureValueName = Some (ShaderManager.USampler2D slot).
Proof.
  intros st Hok.
  exists (first_slot tag (registered st) 0). eexists _, _.
  split; [apply FindTextureSlot_is_first_slot; exact Hok|].
  split.
  { unfold mbind at 1, M_bind, bind, SetShaderColor. run_method.
    rewrite SetShaderTexture_runs_slot by exact Hok. reflexivity. }
  split.
  { unfold mbind at 1, M_bind, bind. subst st.
    rewrite SetShaderTexture_runs_slot by exact Hok. reflexivity. }
  unfold ShaderManager.setSampler2DValue, ShaderManager.setIntValue,
    ShaderManager.setVec4Value.
  repeat split;
    repeat first [ rewrite lookup_insert_eq; reflexivity
                 | rewrite lookup_insert_ne by discriminate ].
Qed.

Lemma last_of_color_and_texture_decides_witness :
  let st := new_scene (Some ∅) in
  registry_ok st /\
  exists slot sh1 sh2,
    FindTextureSlot "Floor" st = Done (slot, st) /\
    (SetShaderColor 1 1 1 1 ;; SetShaderTexture "Floor") st
    = Done (tt, mkSceneManager (Some sh1) (m_textureIDs st) 0 [] (gl st) []) /\
    (SetShaderTexture "Floor" ;; SetShaderColor 1 1 1 1) st
    = Done (tt, mkSceneManager (Some sh2) (m_textureIDs st) 0 [] (gl st) []) /\
    sh1 !! g_UseTextureName = Some (ShaderManager.UInt 1) /\
    sh2 !! g_UseTextureName = Some (ShaderManager.UInt 0) /\
    sh1 !! g_ColorValueName = Some (ShaderManager.UVec4 (glm.mkvec4 1 1 1 1)) /\
    sh2 !! g_ColorValueName = Some (ShaderManager.UVec4 (glm.mkvec4 1 1 1 1)) /\
    sh1 !! g_TextureValueName = Some (ShaderManager.USampler2D slot) /\
    sh2 !! g_TextureValueName = Some (ShaderManager.USampler2D slot).
Proof.
  intros st.
  assert (Hok : registry_ok st) by (unfold registry_ok; simpl; lia).
  split; [exact Hok|].
  exact (last_of_color_and_texture_decides "Floor" 1 1 1 1 ∅ (m_textureIDs st) 0 []
           (gl st) [] Hok).
Defined.


(** X12. With a shader manager and a registry within its array, each of the
    five setters returns, and leaves the texture registry, the materials,
    the GL state and the draws issued as they were; in the shader manager it
    writes its own uniforms only: every uniform under another name keeps
    its value. *)
Theorem setters_touch_only_their_uniforms (indeterminate : OBJECT_MATERIAL.t)
    (sh : ShaderManager.t) (ids : list TEXTURE_INFO.t) (cnt : Z)
    (mats : list OBJECT_MATERIAL.t) (g : GL.state)
    (d : list (ShapeMeshes.draw * option ShaderManager.t)) :
  let st := mkSceneManager (Some sh) ids cnt mats g d in
  let st_with := fun sh' => mkSceneManager (Some sh') ids cnt mats g d in
  registry_ok st ->
  (forall s rx ry rz p, exists sh',
      SetTransformations s rx ry rz p st = Done (tt, st_with sh') /\
      forall name, name <> "model"%string -> sh' !! name = sh !! name) /\
  (forall r g' b a, exists sh',
      SetShaderColor r g' b a st = Done (tt, st_with sh') /\
      forall name, name <> "bUseTexture"%string -> name <> "objectColor"%string ->
                   sh' !! name = sh !! name) /\
  (forall tag, exists sh',
      SetShaderTexture tag st = Done (tt, st_with sh') /\
      forall name, name <> "bUseTexture"%string -> name <> "objectTexture"%string ->
                   sh' !! name = sh !! name) /\
  (forall u v, exists sh',
      SetTextureUVScale u v st = Done (tt, st_with sh') /\
      forall name, name <> "UVscale"%string -> sh' !! name = sh !! name) /\
  (forall tag, exists sh',
      SetShaderMaterial indeterminate tag st = Done (tt, st_with sh') /\
      forall name, name <> "material.diffuseColor"%string ->
                   name <> "material.specularColor"%string ->
                   name <> "material.shininess"%string ->
                   sh' !! name = sh !! name).
Proof.
  assert (Other : forall key name : string, name <> key -> key <> name)
    by (intros key name H E; apply H; symmetry; exact E).
  intros st st_with Hok. subst st st_with. cbv beta.
  split; [|split; [|split; [|split]]].
  - intros. eexists. split; [reflexivity|]. intros name Hn.
    unfold ShaderManager.setMat4Value. apply lookup_insert_ne, Other, Hn.
  - intros. eexists. split; [reflexivity|]. intros name H1 H2.
    unfold ShaderManager.setVec4Value, ShaderManager.setIntValue.
    rewrite lookup_insert_ne by apply Other, H2.
    rewrite lookup_insert_ne by apply Other, H1. reflexivity.
  - intros. eexists. split; [apply SetShaderTexture_runs_slot; exact Hok|]. intros name H1 H2.
    unfold ShaderManager.setSampler2DValue, ShaderManager.setIntValue.
    rewrite lookup_insert_ne by apply Other, H2.
    rewrite lookup_insert_ne by apply Other, H1. reflexivity.
  - intros. eexists. split; [reflexivity|]. intros name Hn.
    unfold ShaderManager.setVec2Value. apply lookup_insert_ne, Other, Hn.
  - intros. eexists. split; [apply SetShaderMaterial_with_shader|]. intros name H1 H2 H3.
    destruct mats; [reflexivity|]. cbv zeta.
    unfold ShaderManager.setFloatValue, ShaderManager.setVec3Value.
    rewrite lookup_insert_ne by apply Other, H3.
    rewrite lookup_insert_ne by apply Other, H2.
    rewrite lookup_insert_ne by apply Other, H1. reflexivity.
Qed.

Lemma setters_touch_only_their_uniforms_witness :
  let sh : ShaderManager.t := {["viewPosition" := ShaderManager.UInt 3]} in
  let st := new_scene (Some sh) in
  registry_ok st /\
  exists sh',
    SetTextureUVScale 1 1 st
    = Done (tt, mkSceneManager (Some sh') (m_textureIDs st) 0 [] (gl st) []) /\
    sh' !! "viewPosition" = Some (ShaderManager.UInt 3).
Proof.
  intros sh st.
  assert (Hok : registry_ok st) by (unfold registry_ok; simpl; lia).
  split; [exact Hok|].
  destruct (setters_touch_only_their_uniforms
              (OBJECT_MATERIAL.mk (glm.mkvec3 0 0 0) (glm.mkvec3 0 0 0) 0 "")
              sh (m_textureIDs st) 0 [] (gl st) [] Hok) as (_ & _ & _ & Huv & _).
  destruct (Huv 1%R 1%R) as (sh' & Hrun & Hkeep).
  exists sh'. split; [exact Hrun|].
  rewrite Hkeep by discriminate. reflexivity.
Defined.

(** * Further properties of the transform composer *)

Section More_transforms.
Local Open Scope R_scope.
Import glm.

Lemma mkvec4_ext (a b c d a' b' c' d' : R) :
  a = a' -> b = b' -> c = c' -> d = d' -> mkvec4 a b c d = mkvec4 a' b' c' d'.
Proof. intros -> -> -> ->. reflexivity. Qed.

Lemma mkmat4_ext (a b c d a' b' c' d' : vec4) :
  a = a' -> b = b' -> c = c' -> d = d' -> mkmat4 a b c d = mkmat4 a' b' c' d'.
Proof. intros -> -> -> ->. reflexivity. Qed.

Ltac mat_cbv :=
  cbv [mul mul_vec vadd vscale point xyz identity scale translate rotate
       x3 y3 z3 x4 y4 z4 w4 col0 col1 col2 col3].

Lemma mul_identity_r (a : mat4) : mul a identity = a.
Proof.
  destruct a as [[] [] [] []]. mat_cbv. apply mkmat4_ext; apply mkvec4_ext; ring.
Qed.

Lemma rotate_zero (axis : vec3) : rotate 0 axis = identity.
Proof.
  unfold rotate. rewrite cos_0, sin_0. destruct (normalize axis).
  mat_cbv. apply mkmat4_ext; apply mkvec4_ext; ring.
Qed.

Lemma composed_unrotated (s p : vec3) :
  composed s 0 0 0 p
  = mkmat4 (mkvec4 (x3 s) 0 0 0) (mkvec4 0 (y3 s) 0 0) (mkvec4 0 0 (z3 s) 0)
           (mkvec4 (x3 p) (y3 p) (z3 p) 1).
Proof.
  unfold composed. replace (radians 0) with 0 by (unfold radians; ring).
  rewrite !rotate_zero, !mul_identity_r. destruct s, p.
  mat_cbv. apply mkmat4_ext; apply mkvec4_ext; ring.
Qed.

(** Directions, the vectors with last component 0: rotations and scalings
    map them to directions, translations leave them alone. *)
Lemma rotate_direction (a : R) (axis : vec3) (v : vec4) :
  w4 (mul_vec (rotate a axis) v) = w4 v.
Proof.
  unfold rotate. destruct (normalize axis), v. mat_cbv. ring.
Qed.

Lemma translate_direction (p : vec3) (v : vec4) :
  w4 v = 0 -> mul_vec (translate p) v = v.
Proof.
  destruct p, v. cbn [w4]. intros ->. mat_cbv. apply mkvec4_ext; ring.
Qed.

Lemma composed_column (s p : vec3) (rx ry rz : R) (v : vec4) :
  w4 v = 0 ->
  mul_vec (mul (mul (mul (translate p) (rotate (radians rz) (mkvec3 0 0 1)))
                     (rotate (radians ry) (mkvec3 0 1 0)))
                (rotate (radians rx) (mkvec3 1 0 0))) v
  = mul_vec (rotate (radians rz) (mkvec3 0 0 1))
      (mul_vec (rotate (radians ry) (mkvec3 0 1 0))
         (mul_vec (rotate (radians rx) (mkvec3 1 0 0)) v)).
Proof.
  intros Hv. rewrite !mul_vec_mul. apply translate_direction.
  rewrite !rotate_direction. exact Hv.
Qed.

(** The three columns the position does not reach. *)
Lemma composed_linear_part (s p p' : vec3) (rx ry rz : R) :
  col0 (composed s rx ry rz p) = col0 (composed s rx ry rz p') /\
  col1 (composed s rx ry rz p) = col1 (composed s rx ry rz p') /\
  col2 (composed s rx ry rz p) = col2 (composed s rx ry rz p') /\
  w4 (col0 (composed s rx ry rz p)) = 0 /\
  w4 (col1 (composed s rx ry rz p)) = 0 /\
  w4 (col2 (composed s rx ry rz p)) = 0.
Proof.
  assert (H0 : w4 (col0 (scale s)) = 0) by (destruct s; mat_cbv; ring).
  assert (H1 : w4 (col1 (scale s)) = 0) by (destruct s; mat_cbv; ring).
  assert (H2 : w4 (col2 (scale s)) = 0) by (destruct s; mat_cbv; ring).
  unfold composed. cbn [mul col0 col1 col2].
  rewrite !(composed_column s p), !(composed_column s p') by assumption.
  rewrite !rotate_direction. repeat split; assumption.
Qed.

End More_transforms.

(** X13. With the three angles at zero [SetTransformations] stages
    translation times scale: the matrix with the scale on the diagonal and
    the position in the fourth column.  With the scale (1, 1, 1) as well, it
    is [glm::translate(positionXYZ)]. *)
Theorem SetTransformations_without_rotation (sh : ShaderManager.t)
    (ids : list TEXTURE_INFO.t) (cnt : Z) (mats : list OBJECT_MATERIAL.t)
    (g : GL.state) (d : list (ShapeMeshes.draw * option ShaderManager.t))
    (scaleXYZ positionXYZ : glm.vec3) :
  exists sh' model,
    SetTransformations scaleXYZ 0 0 0 positionXYZ (mkSceneManager (Some sh) ids cnt mats g d)
    = Done (tt, mkSceneManager (Some sh') ids cnt mats g d) /\
    staged_model (Some sh') = Some model /\
    model = glm.mkmat4 (glm.mkvec4 (glm.x3 scaleXYZ) 0 0 0)
                       (glm.mkvec4 0 (glm.y3 scaleXYZ) 0 0)
                       (glm.mkvec4 0 0 (glm.z3 scaleXYZ) 0)
                       (glm.mkvec4 (glm.x3 positionXYZ) (glm.y3 positionXYZ)
                                   (glm.z3 positionXYZ) 1) /\
    (scaleXYZ = glm.mkvec3 1 1 1 -> model = glm.translate positionXYZ).
Proof.
  eexists _, _. split; [reflexivity|].
  split.
  { unfold staged_model, ShaderManager.setMat4Value. rewrite lookup_insert_eq. reflexivity. }
  split; [apply composed_unrotated|].
  intros ->. change (composed (glm.mkvec3 1 1 1) 0 0 0 positionXYZ = glm.translate positionXYZ).
  rewrite composed_unrotated. destruct positionXYZ.
  cbv [glm.translate glm.identity glm.vadd glm.vscale glm.x3 glm.y3 glm.z3
       glm.x4 glm.y4 glm.z4 glm.w4 glm.col0 glm.col1 glm.col2 glm.col3].
  apply mkmat4_ext; try reflexivity. apply mkvec4_ext; ring.
Qed.

(** X14. Whatever the scale and the angles, the matrix [SetTransformations]
    stages is affine with the position as its translation: its fourth
    column is (position, 1), the last component of its other columns is 0,
    and these three columns do not depend on the position.  Moving an
    object changes the translation column and nothing else. *)
Theorem SetTransformations_position_is_translation (sh : ShaderManager.t)
    (ids : list TEXTURE_INFO.t) (cnt : Z) (mats : list OBJECT_MATERIAL.t)
    (g : GL.state) (d : list (ShapeMeshes.draw * option ShaderManager.t))
    (scaleXYZ : glm.vec3) (rx ry rz : R) (positionXYZ positionXYZ' : glm.vec3) :
  exists sh1 sh2 model model',
    SetTransformations scaleXYZ rx ry rz positionXYZ
      (mkSceneManager (Some sh) ids cnt mats g d)
    = Done (tt, mkSceneManager (Some sh1) ids cnt mats g d) /\
    SetTransformations scaleXYZ rx ry rz positionXYZ'
      (mkSceneManager (Some sh) ids cnt mats g d)
    = Done (tt, mkSceneManager (Some sh2) ids cnt mats g d) /\
    staged_model (Some sh1) = Some model /\
    staged_model (Some sh2) = Some model' /\
    glm.col3 model = glm.point positionXYZ /\
    glm.col3 model' = glm.point positionXYZ' /\
    glm.col0 model = glm.col0 model' /\
    glm.col1 model = glm.col1 model' /\
    glm.col2 model = glm.col2 model' /\
    glm.w4 (glm.col0 model) = 0%R /\
    glm.w4 (glm.col1 model) = 0%R /\
    glm.w4 (glm.col2 model) = 0%R.
Proof.
  eexists _, _, _, _. split; [reflexivity|]. split; [reflexivity|].
  split.
  { unfold staged_model, ShaderManager.setMat4Value. rewrite lookup_insert_eq. reflexivity. }
  split.
  { unfold staged_model, ShaderManager.setMat4Value. rewrite lookup_insert_eq. reflexivity. }
  split; [apply composed_col3|]. split; [apply composed_col3|].
  apply (composed_linear_part scaleXYZ positionXYZ positionXYZ' rx ry rz).
Qed.


(** * Further properties of the view manager's callbacks *)

Section More_callbacks.
Import ViewManager.

Lemma scroll_keeps_pointer (x y : spec_float) (g : globals) :
  pointer_state (Mouse_Scroll_Wheel_Callback x y g) = pointer_state g.
Proof.
  unfold Mouse_Scroll_Wheel_Callback, pointer_state.
  repeat match goal with
         | |- context [if ?c then _ else _] => destruct c
         end; reflexivity.
Qed.

Lemma cursor_pointer_only (x y : spec_float) (g g' : globals) :
  pointer_state g = pointer_state g' ->
  pointer_state (Mouse_Position_Callback x y g)
  = pointer_state (Mouse_Position_Callback x y g').
Proof.
  destruct g, g'. unfold pointer_state. cbn. intros [= -> -> -> ->].
  unfold Mouse_Position_Callback. cbn. destruct gFirstMouse1; reflexivity.
Qed.

Lemma scroll_speed_only (x y : spec_float) (g g' : globals) :
  cameraSpeed g = cameraSpeed g' ->
  cameraSpeed (Mouse_Scroll_Wheel_Callback x y g)
  = cameraSpeed (Mouse_Scroll_Wheel_Callback x y g').
Proof. intros H. rewrite !scroll_tick_speed, H. reflexivity. Qed.

Lemma session_pointer_only (events : list event) (g g' : globals) :
  pointer_state g = pointer_state g' ->
  pointer_state (session events g) = pointer_state (session events g').
Proof.
  revert g g'. induction events as [|e events IH]; intros g g' H; [exact H|].
  cbn [session fold_left]. apply IH. destruct e as [x y|x y]; cbn [dispatch].
  - apply cursor_pointer_only. exact H.
  - rewrite !scroll_keeps_pointer. exact H.
Qed.

Lemma session_speed_only (events : list event) (g g' : globals) :
  cameraSpeed g = cameraSpeed g' ->
  cameraSpeed (session events g) = cameraSpeed (session events g').
Proof.
  revert g g'. induction events as [|e events IH]; intros g g' H; [exact H|].
  cbn [session fold_left]. apply IH. destruct e as [x y|x y]; cbn [dispatch].
  - rewrite !cursor_keeps_speed. exact H.
  - apply scroll_speed_only. exact H.
Qed.

(** X15. The two callbacks do not interfere.  In a session that mixes
    cursor and scroll events, the stored last position, the first-sample
    flag and the offsets handed to the camera are those of the session with
    the scroll events left out, and the speed multiplier is that of the
    session with the cursor events left out. *)
Theorem callbacks_do_not_interfere (events : list event) (g : globals) :
  pointer_state (session events g) = pointer_state (session (cursor_part events) g) /\
  cameraSpeed (session events g) = cameraSpeed (session (scroll_part events) g).
Proof.
  revert g. induction events as [|e events IH]; intros g; [split; reflexivity|].
  destruct (IH (dispatch g e)) as [IHp IHs].
  destruct e as [x y|x y]; cbn [session fold_left cursor_part scroll_part List.filter
                                 is_cursor negb].
  - split; [exact IHp|]. fold (scroll_part events).
    change (fold_left dispatch events (dispatch g (CursorPos x y)))
      with (session events (dispatch g (CursorPos x y))).
    rewrite IHs. apply session_speed_only. apply cursor_keeps_speed.
  - split; [|exact IHs]. fold (cursor_part events).
    change (fold_left dispatch events (dispatch g (Scroll x y)))
      with (session events (dispatch g (Scroll x y))).
    rewrite IHp. apply session_pointer_only. apply scroll_keeps_pointer.
Qed.

Lemma offsets_at_rest (x y : spec_float) (n : nat) :
  offsets_against (stored (x, y)) (repeat (x, y) n)
  = repeat (offsets_to (stored (x, y)) x y) n.
Proof. induction n as [|n IH]; [reflexivity|]. cbn [repeat offsets_against]. rewrite IH. reflexivity. Qed.

(** X16. A pointer at rest.  When the samples of a session all report the
    same position, every one of them, the first included, hands the camera
    the same offsets: those of the position against itself as stored in the
    [float] globals.  They are (+0, +0) when a [float] holds both
    coordinates exactly; at x = y = 16777217 they are (1, -1) for every
    sample. *)
Theorem pointer_at_rest (x y lastX lastY speed : spec_float) (n : nat) :
  let g := session (cursor_events (repeat (x, y) (S n)))
                   (mkglobals lastX lastY true speed []) in
  let residue :=
    (binary32.of_double (binary64.sub x (binary64.of_float (binary32.of_double x))),
     binary32.of_double (binary64.sub (binary64.of_float (binary32.of_double y)) y)) in
  ProcessMouseMovement_calls g = repeat residue (S n) /\
  (gLastX g, gLastY g) = (binary32.of_double x, binary32.of_double y) /\
  (representable x -> representable y -> residue = (S754_zero false, S754_zero false)) /\
  (x = binary64.of_Z 16777217 -> y = binary64.of_Z 16777217 ->
   residue = (binary32.of_Z 1, binary32.of_Z (-1))).
Proof.
  cbn zeta.
  change (session (cursor_events (repeat (x, y) (S n))) (mkglobals lastX lastY true speed []))
    with (session (cursor_events (repeat (x, y) n))
            (mkglobals (binary32.of_double x) (binary32.of_double y) false speed
               ([] ++ [offsets_to (stored (x, y)) x y]))).
  destruct (later_samples (repeat (x, y) n) (binary32.of_double x) (binary32.of_double y)
              speed ([] ++ [offsets_to (stored (x, y)) x y])) as (Hc & Hl & _).
  rewrite Hc, Hl. split; [|split; [|split]].
  - change (binary32.of_double x, binary32.of_double y) with (stored (x, y)).
    rewrite offsets_at_rest. reflexivity.
  - clear. induction n as [|n IH]; [reflexivity|].
    cbn [repeat fmap list_fmap].
    rewrite <- (last_after_first (stored <$> repeat (x, y) n) (stored (x, y))).
    destruct n as [|n]; [reflexivity|]. exact IH.
  - apply representable_offsets.
  - intros -> ->. vm_compute. reflexivity.
Qed.

Lemma pointer_at_rest_witness :
  let x := binary64.of_Z 500 in
  let y := SFdiv binary64.prec binary64.emax (binary64.of_Z 1601) (binary64.of_Z 4) in
  representable x /\ representable y /\
  ProcessMouseMovement_calls (session (cursor_events (repeat (x, y) 3)) initial)
  = repeat (S754_zero false, S754_zero false) 3.
Proof.
  intros x y.
  assert (Hx : representable x) by (vm_compute; reflexivity).
  assert (Hy : representable y) by (vm_compute; reflexivity).
  split; [exact Hx|]. split; [exact Hy|].
  destruct (pointer_at_rest x y (gLastX initial) (gLastY initial) (cameraSpeed initial) 2)
    as (Hc & _ & Hz & _).
  rewrite <- (Hz Hx Hy). exact Hc.
Defined.

(** The rounded product by [1.1f] of a normal number between the bounds is a
    greater normal number, and that by [0.9f] a smaller one. *)
Lemma product_up_greater (m : positive) (e : Z) :
  2 ^ 23 <= Zpos m < 2 ^ 24 -> -27 <= e <= -20 ->
  exists m' e',
    binary32.mul (S754_finite false m e) (binary32.literal 11 10)
    = S754_finite false m' e' /\
    2 ^ 23 <= Zpos m' < 2 ^ 24 /\ (e < e' \/ (e = e' /\ Zpos m < Zpos m')).
Proof.
  intros Hm He. destruct literals as (_ & -> & _).
  destruct (binary32_mul_normal false false m 9227469 e (-23))
    as (m' & n & E & Hm' & Hn & Hq); [exact Hm | cbn; lia | lia |].
  exists m', (e + -23 + n). split; [exact E|]. split; [exact Hm'|].
  change (2 ^ 23) with 8388608 in *. change (2 ^ 24) with 16777216 in *.
  assert (Cases : n = 23 \/ 24 <= n) by lia.
  destruct Cases as [-> | Hbig]; [right | left; lia].
  split; [lia|]. change (2 ^ 23) with 8388608 in Hq.
  assert (Zpos m + 1 <= Zpos m * 9227469 / 8388608)
    by (apply Z.div_le_lower_bound; lia).
  lia.
Qed.

Lemma product_down_smaller (m : positive) (e : Z) :
  2 ^ 23 <= Zpos m < 2 ^ 24 -> -27 <= e <= -20 ->
  exists m' e',
    binary32.mul (S754_finite false m e) (binary32.literal 9 10)
    = S754_finite false m' e' /\
    2 ^ 23 <= Zpos m' < 2 ^ 24 /\ (e' < e \/ (e' = e /\ Zpos m' < Zpos m)).
Proof.
  intros Hm He. destruct literals as (_ & _ & -> & _).
  destruct (binary32_mul_normal false false m 15099494 e (-24))
    as (m' & n & E & Hm' & Hn & Hq); [exact Hm | cbn; lia | lia |].
  exists m', (e + -24 + n). split; [exact E|]. split; [exact Hm'|].
  change (2 ^ 23) with 8388608 in *. change (2 ^ 24) with 16777216 in *.
  assert (Cases : n = 23 \/ n = 24 \/ n = 25) by lia.
  destruct Cases as [-> | [-> | ->]]; [left; lia | right | exfalso].
  - split; [lia|]. change (2 ^ 24) with 16777216 in Hq.
    assert (Zpos m * 15099494 / 16777216 < Zpos m - 1)
      by (apply Z.div_lt_upper_bound; lia).
    lia.
  - change (2 ^ 25) with 33554432 in Hq.
    assert (Zpos m * 15099494 / 33554432 < 7549747)
      by (apply Z.div_lt_upper_bound; lia).
    lia.
Qed.

(** X17. The rounding of the products never reverses a tick.  In any
    session, a tick of the wheel upwards does not lower the speed, and
    raises it unless it is [10.0f] already; a tick downwards does not raise
    it, and lowers it unless it is [0.1f] already. *)
Theorem scroll_ticks_are_monotone (events : list event) (x y : spec_float) :
  let g := session events initial in
  let s := cameraSpeed g in
  let s' := cameraSpeed (Mouse_Scroll_Wheel_Callback x y g) in
  (SFltb (binary64.of_Z 0) y = true ->
   SFleb s s' = true /\ (SFltb s s' = true \/ s = binary32.literal 10 1)) /\
  (SFltb y (binary64.of_Z 0) = true ->
   SFleb s' s = true /\ (SFltb s' s = true \/ s = binary32.literal 1 10)).
Proof.
  cbn zeta.
  pose proof (session_normal_speed events initial initial_normal_speed) as Hs.
  set (g := session events initial) in *.
  apply normal_speed_range in Hs as (m & e & Es & Hm & Hlo & Hhi).
  destruct literals as (_ & _ & _ & Lo & Hi).
  split; intros Hy; rewrite scroll_tick_speed, ?(SFltb_asym _ _ Hy), Hy, Es;
    unfold clamp; rewrite Lo, Hi.
  - destruct (product_up_greater m e Hm) as (m' & e' & -> & Hm' & Hgt); [lia|].
    destruct (SFltb (S754_finite false m' e') (S754_finite false 13421773 (-27))) eqn:E1.
    { apply SFltb_positive in E1. lia. }
    destruct (SFltb (S754_finite false 10485760 (-20)) (S754_finite false m' e')) eqn:E2.
    + split; [apply SFleb_positive; lia|].
      destruct (Z.eq_dec e (-20)) as [He|He];
        [destruct (Z.eq_dec (Zpos m) 10485760) as [Hm0|Hm0]|].
      * right. f_equal; lia.
      * left. apply SFltb_positive. lia.
      * left. apply SFltb_positive. lia.
    + split; [apply SFleb_positive; lia | left; apply SFltb_positive; lia].
  - destruct (product_down_smaller m e Hm) as (m' & e' & -> & Hm' & Hlt); [lia|].
    destruct (SFltb (S754_finite false m' e') (S754_finite false 13421773 (-27))) eqn:E1.
    + split; [apply SFleb_positive; lia|].
      destruct (Z.eq_dec e (-27)) as [He|He];
        [destruct (Z.eq_dec (Zpos m) 13421773) as [Hm0|Hm0]|].
      * right. f_equal; lia.
      * left. apply SFltb_positive. lia.
      * left. apply SFltb_positive. lia.
    + destruct (SFltb (S754_finite false 10485760 (-20)) (S754_finite false m' e')) eqn:E2.
      { apply SFltb_positive in E2. lia. }
      split; [apply SFleb_positive; lia | left; apply SFltb_positive; lia].
Qed.

Lemma above_bounds_not_below (s : spec_float) :
  SFltb (binary32.literal 10 1) s = true -> SFltb s (binary32.literal 1 10) = false.
Proof.
  destruct literals as (_ & _ & _ & -> & ->).
  destruct s as [sg|sg| |sg m e]; try discriminate; try (destruct sg; (discriminate || reflexivity)).
  destruct sg; [discriminate|]. intros H. apply SFltb_positive in H.
  destruct (SFltb (S754_finite false m e) (S754_finite false 13421773 (-27))) eqn:E;
    [|reflexivity].
  apply SFltb_positive in E. lia.
Qed.

(** X18. At the bounds the speed sticks, and a scroll event with distance 0
    changes nothing: a tick up whose product passes [10.0f] leaves exactly
    [10.0f], a tick down whose product passes [0.1f] leaves exactly [0.1f],
    and with a zero distance a speed within the bounds stays as it is, as
    does every other global. *)
Theorem scroll_saturates (x y : spec_float) (g : globals) :
  (SFltb (binary64.of_Z 0) y = true ->
   SFltb (binary32.literal 10 1) (binary32.mul (cameraSpeed g) (binary32.literal 11 10))
   = true ->
   cameraSpeed (Mouse_Scroll_Wheel_Callback x y g) = binary32.literal 10 1) /\
  (SFltb y (binary64.of_Z 0) = true ->
   SFltb (binary32.mul (cameraSpeed g) (binary32.literal 9 10)) (binary32.literal 1 10)
   = true ->
   cameraSpeed (Mouse_Scroll_Wheel_Callback x y g) = binary32.literal 1 10) /\
  (SFeqb y (binary64.of_Z 0) = true ->
   SFleb (binary32.literal 1 10) (cameraSpeed g) = true ->
   SFleb (cameraSpeed g) (binary32.literal 10 1) = true ->
   Mouse_Scroll_Wheel_Callback x y g = g).
Proof.
  split; [|split].
  - intros Hy Hs. rewrite scroll_tick_speed, Hy. unfold clamp.
    rewrite (above_bounds_not_below _ Hs), Hs. reflexivity.
  - intros Hy Hs. rewrite scroll_tick_speed, (SFltb_asym _ _ Hy), Hy. unfold clamp.
    rewrite Hs. reflexivity.
  - intros Hy Hlo Hhi. destruct (SFeqb_ltb_false _ _ Hy) as [H1 H2].
    unfold Mouse_Scroll_Wheel_Callback.
    rewrite H1, H2, (SFleb_ltb_false _ _ Hlo), (SFleb_ltb_false _ _ Hhi). reflexivity.
Qed.

Lemma scroll_saturates_witness :
  let zero := binary64.of_Z 0 in
  let fast := mkglobals (S754_zero false) (S754_zero false) false (binary32.literal 95 10) [] in
  let slow :=
    mkglobals (S754_zero false) (S754_zero false) false (binary32.literal 105 1000) [] in
  SFltb zero (binary64.of_Z 1) = true /\
  SFltb (binary32.literal 10 1) (binary32.mul (cameraSpeed fast) (binary32.literal 11 10))
  = true /\
  SFltb (binary64.of_Z (-1)) zero = true /\
  SFltb (binary32.mul (cameraSpeed slow) (binary32.literal 9 10)) (binary32.literal 1 10)
  = true /\
  SFeqb (S754_zero true) zero = true /\
  SFleb (binary32.literal 1 10) (cameraSpeed initial) = true /\
  SFleb (cameraSpeed initial) (binary32.literal 10 1) = true /\
  cameraSpeed (Mouse_Scroll_Wheel_Callback zero (binary64.of_Z 1) fast)
  = binary32.literal 10 1 /\
  cameraSpeed (Mouse_Scroll_Wheel_Callback zero (binary64.of_Z (-1)) slow)
  = binary32.literal 1 10 /\
  Mouse_Scroll_Wheel_Callback zero (S754_zero true) initial = initial.
Proof.
  intros zero fast slow.
  assert (H1 : SFltb zero (binary64.of_Z 1) = true) by reflexivity.
  assert (H2 : SFltb (binary32.literal 10 1)
                 (binary32.mul (cameraSpeed fast) (binary32.literal 11 10)) = true)
    by reflexivity.
  assert (H3 : SFltb (binary64.of_Z (-1)) zero = true) by reflexivity.
  assert (H4 : SFltb (binary32.mul (cameraSpeed slow) (binary32.literal 9 10))
                 (binary32.literal 1 10) = true) by reflexivity.
  assert (H5 : SFeqb (S754_zero true) zero = true) by reflexivity.
  assert (H6 : SFleb (binary32.literal 1 10) (cameraSpeed initial) = true) by reflexivity.
  assert (H7 : SFleb (cameraSpeed initial) (binary32.literal 10 1) = true) by reflexivity.
  repeat (split; [assumption|]).
  split; [exact (proj1 (scroll_saturates zero (binary64.of_Z 1) fast) H1 H2)|].
  split; [exact (proj1 (proj2 (scroll_saturates zero (binary64.of_Z (-1)) slow)) H3 H4)|].
  exact (proj2 (proj2 (scroll_saturates zero (S754_zero true) initial)) H5 H6 H7).
Defined.

End More_callbacks.

(** * Further properties: the texture units and the preparation of the scene *)

(** ** Binding the textures to the units *)

Lemma same_but_binding_refl (st : SceneManager) : same_but_binding st st.
Proof. repeat split. Qed.

Lemma same_but_binding_trans (a b c : SceneManager) :
  same_but_binding a b -> same_but_binding b c -> same_but_binding a c.
Proof.
  unfold same_but_binding. intros (?&?&?&?&?&?&?) (?&?&?&?&?&?&?).
  repeat split; congruence.
Qed.

Lemma glActiveTexture_selects (max_texture_units index : Z) (c : Context) :
  0 <= index < max_texture_units ->
  exists c',
    glActiveTexture max_texture_units index c = Done (tt, c') /\
    active_texture c' = index /\
    loaded_meshes c' = loaded_meshes c /\
    same_but_binding (scene c) (scene c') /\
    forall u, unit_binding c' u = unit_binding c u.
Proof.
  intros Hin. unfold glActiveTexture.
  destruct (Z.leb_spec 0 index); [|lia]. destruct (Z.ltb_spec index max_texture_units); [|lia].
  cbn [andb]. eexists. split; [reflexivity|].
  split; [reflexivity|]. split; [reflexivity|]. split; [repeat split|].
  intros u. unfold unit_binding. cbn [active_texture scene other_units gl GL.glBindTexture
                                       GL.bound_2D].
  destruct (Z.eqb_spec u index) as [->|Hu].
  - destruct (Z.eqb_spec index (active_texture c)) as [->|Ha].
    + rewrite lookup_insert_eq. reflexivity.
    + rewrite lookup_insert_ne by congruence. reflexivity.
  - destruct (Z.eqb_spec u (active_texture c)) as [->|Ha].
    + rewrite lookup_insert_eq. reflexivity.
    + rewrite lookup_insert_ne by congruence. reflexivity.
Qed.

Lemma glActiveTexture_refused (max_texture_units index : Z) (c : Context) :
  ~ (0 <= index < max_texture_units) ->
  glActiveTexture max_texture_units index c = Done (tt, c).
Proof.
  intros Hout. unfold glActiveTexture.
  destruct (Z.leb_spec 0 index); [|reflexivity].
  destruct (Z.ltb_spec index max_texture_units); [lia|reflexivity].
Qed.

Lemma C_bind_run {A B} (m : C A) (k : A -> C B) (c c' : Context) (a : A) :
  m c = Done (a, c') -> (m ≫= k) c = k a c'.
Proof. intros H. unfold mbind, C_bind. rewrite H. reflexivity. Qed.

Lemma on_scene_run {A} (m : M A) (c : Context) (a : A) (st' : SceneManager) :
  m (scene c) = Done (a, st') ->
  on_scene m c
  = Done (a, mkContext st' (active_texture c) (other_units c) (loaded_meshes c)).
Proof. intros H. unfold on_scene. rewrite H. reflexivity. Qed.

Lemma on_scene_crash {A} (m : M A) (c : Context) (f : fault) :
  m (scene c) = Crash f -> on_scene m c = Crash f.
Proof. intros H. unfold on_scene. rewrite H. reflexivity. Qed.

(** One turn of the loop of [BindGLTextures] on a slot of the array and a
    unit the implementation has. *)
Lemma BindGLTextures_turn (max_texture_units i : Z) (e : TEXTURE_INFO.t) (c : Context) :
  0 <= i < max_texture_units ->
  m_textureIDs (scene c) !! Z.to_nat i = Some e ->
  exists c',
    (glActiveTexture max_texture_units i;;
     e ← on_scene (texture_at i);
     on_scene (with_gl (GL.glBindTexture (TEXTURE_INFO.ID e)))) c = Done (tt, c') /\
    active_texture c' = i /\
    loaded_meshes c' = loaded_meshes c /\
    same_but_binding (scene c) (scene c') /\
    forall u, unit_binding c' u
              = if u =? i then TEXTURE_INFO.ID e else unit_binding c u.
Proof.
  intros Hi He.
  destruct (glActiveTexture_selects max_texture_units i c Hi)
    as (c1 & E1 & Ha & Hm & Hs & Hu).
  assert (He1 : texture_at i (scene c1) = Done (e, scene c1)).
  { replace i with (Z.of_nat (Z.to_nat i)) at 1 by lia. apply texture_at_in_bounds.
    destruct Hs as (_ & -> & _). rewrite He. reflexivity. }
  eexists. split.
  { rewrite (C_bind_run _ _ c c1 tt E1).
    rewrite (C_bind_run _ _ c1 _ e (on_scene_run _ c1 e _ He1)).
    unfold on_scene, with_gl. cbn [scene]. reflexivity. }
  cbn [active_texture loaded_meshes scene]. split; [exact Ha|]. split; [exact Hm|]. split.
  { apply (same_but_binding_trans _ (scene c1)); [exact Hs|]. repeat split. }
  intros u. rewrite <- Hu. unfold unit_binding.
  cbn [active_texture scene other_units gl GL.glBindTexture GL.bound_2D].
  rewrite Ha. destruct (u =? i); reflexivity.
Qed.

Lemma BindGLTextures_loop_runs (max_texture_units : Z) (n : nat) :
  forall (i : Z) (c : Context),
    0 <= i -> i + Z.of_nat n <= Z.of_nat (length (m_textureIDs (scene c))) ->
    i + Z.of_nat n <= max_texture_units ->
    exists c',
      BindGLTextures_loop max_texture_units n i c = Done (tt, c') /\
      loaded_meshes c' = loaded_meshes c /\
      same_but_binding (scene c) (scene c') /\
      (forall u e, i <= u < i + Z.of_nat n ->
                   m_textureIDs (scene c) !! Z.to_nat u = Some e ->
                   unit_binding c' u = TEXTURE_INFO.ID e) /\
      (forall u, ~ (i <= u < i + Z.of_nat n) -> unit_binding c' u = unit_binding c u).
Proof.
  induction n as [|n IH]; intros i c Hi Hlen Hmax.
  - exists c. split; [reflexivity|]. split; [reflexivity|].
    split; [apply same_but_binding_refl|]. split; [intros; lia | reflexivity].
  - destruct (lookup_lt_is_Some_2 (m_textureIDs (scene c)) (Z.to_nat i)) as [e He]; [lia|].
    destruct (BindGLTextures_turn max_texture_units i e c ltac:(lia) He)
      as (c1 & E1 & _ & Hm1 & Hs1 & Hu1).
    assert (Hids : m_textureIDs (scene c1) = m_textureIDs (scene c)) by apply Hs1.
    destruct (IH (i + 1) c1 ltac:(lia) ltac:(rewrite Hids; lia) ltac:(lia))
      as (c' & E' & Hm' & Hs' & Hin & Hout).
    exists c'. split.
    { cbn [BindGLTextures_loop].
      unfold mbind, C_bind in E1 |- *.
      destruct (glActiveTexture max_texture_units i c) as [[[] ca]|]; [|discriminate].
      destruct (on_scene (texture_at i) ca) as [[eb cb]|]; [|discriminate].
      rewrite E1. exact E'. }
    split; [congruence|]. split; [exact (same_but_binding_trans _ _ _ Hs1 Hs')|]. split.
    + intros u e' Hu He'. destruct (Z.eq_dec u i) as [->|Hne].
      * rewrite Hout by lia. rewrite Hu1, Z.eqb_refl. congruence.
      * apply Hin; [lia|]. rewrite Hids. exact He'.
    + intros u Hu. rewrite Hout by lia. rewrite Hu1.
      destruct (Z.eqb_spec u i); [lia|reflexivity].
Qed.
Lemma first_slot_found (tag : string) (l : list TEXTURE_INFO.t) (i : Z) :
  0 <= i -> first_slot tag l i <> -1 ->
  exists e, l !! Z.to_nat (first_slot tag l i - i) = Some e /\ TEXTURE_INFO.tag e = tag.
Proof.
  revert i. induction l as [|e l IH]; intros i Hi H; [contradiction|].
  cbn [first_slot] in *.
  destruct (String.eqb_spec (TEXTURE_INFO.tag e) tag) as [Heq|Hne].
  - exists e. replace (i - i) with 0 by lia. split; [reflexivity|exact Heq].
  - destruct (IH (i + 1) ltac:(lia) H) as (e' & He' & Ht). exists e'. split; [|exact Ht].
    destruct (first_slot_range tag l (i + 1)) as [Hr|Hr]; [contradiction|].
    replace (Z.to_nat (first_slot tag l (i + 1) - i))
      with (S (Z.to_nat (first_slot tag l (i + 1) - (i + 1)))) by lia.
    exact He'.
Qed.

(** X19. With the registry within its array and no more loaded textures
    than the implementation has texture units, [BindGLTextures] returns and
    leaves the texture of slot [i] bound to unit [i], for every loaded slot;
    the other units keep their bindings, and nothing but bindings changes.
    So the index [FindTextureSlot] answers for a registered tag, which
    [SetShaderTexture] hands to the sampler, designates the unit that holds
    the texture registered under that tag. *)
Theorem BindGLTextures_binds_slot_to_unit (max_texture_units : Z) (c : Context) :
  registry_ok (scene c) ->
  m_loadedTextures (scene c) <= max_texture_units ->
  exists c',
    BindGLTextures max_texture_units c = Done (tt, c') /\
    same_but_binding (scene c) (scene c') /\
    loaded_meshes c' = loaded_meshes c /\
    (forall i e, 0 <= i < m_loadedTextures (scene c) ->
                 m_textureIDs (scene c) !! Z.to_nat i = Some e ->
                 unit_binding c' i = TEXTURE_INFO.ID e) /\
    (forall u, ~ (0 <= u < m_loadedTextures (scene c)) ->
               unit_binding c' u = unit_binding c u) /\
    (forall tag, exists slot,
        FindTextureSlot tag (scene c') = Done (slot, scene c') /\
        (slot = -1 \/
         exists e, m_textureIDs (scene c') !! Z.to_nat slot = Some e /\
                   TEXTURE_INFO.tag e = tag /\
                   unit_binding c' slot = TEXTURE_INFO.ID e)).
Proof.
  intros Hok Hmax. pose proof Hok as Hok'. unfold registry_ok in Hok'.
  destruct (BindGLTextures_loop_runs max_texture_units
              (Z.to_nat (m_loadedTextures (scene c))) 0 c)
    as (c' & E & Hm & Hs & Hin & Hout); [lia..|].
  rewrite Z2Nat.id in Hin, Hout by lia. cbn [Z.add] in Hin, Hout.
  exists c'. split; [exact E|]. split; [exact Hs|]. split; [exact Hm|].
  split; [exact Hin|]. split; [exact Hout|].
  intros tag. destruct Hs as (_ & Hids & Hcnt & _).
  assert (Hok2 : registry_ok (scene c')) by (unfold registry_ok; rewrite Hids, Hcnt; exact Hok').
  exists (first_slot tag (registered (scene c')) 0).
  split; [apply FindTextureSlot_is_first_slot; exact Hok2|].
  destruct (Z.eq_dec (first_slot tag (registered (scene c')) 0) (-1)) as [Hno|Hyes];
    [left; exact Hno | right].
  destruct (first_slot_found tag (registered (scene c')) 0 ltac:(lia) Hyes) as (e & He & Ht).
  destruct (first_slot_range tag (registered (scene c')) 0) as [Hr|Hr]; [contradiction|].
  rewrite registered_length in Hr by exact Hok2. rewrite Z.sub_0_r in He.
  unfold registered in He. apply lookup_take_Some in He as [He _].
  exists e. split; [exact He|]. split; [exact Ht|].
  apply Hin; [lia|]. rewrite <- Hids. exact He.
Qed.

Lemma BindGLTextures_binds_slot_to_unit_witness :
  let st := mkSceneManager None [TEXTURE_INFO.mk 7 "Floor"; TEXTURE_INFO.mk 9 "Door";
                                 TEXTURE_INFO.mk 0 ""] 2 [] (GL.mkstate [9; 7] 0 []) [] in
  registry_ok st /\ 2 <= 16 /\
  exists c',
    BindGLTextures 16 (fresh_context st) = Done (tt, c') /\
    unit_binding c' 0 = 7 /\ unit_binding c' 1 = 9 /\ unit_binding c' 2 = 0.
Proof.
  intros st.
  assert (Hok : registry_ok st) by (unfold registry_ok; simpl; lia).
  assert (Hmax : m_loadedTextures (scene (fresh_context st)) <= 16) by (simpl; lia).
  split; [exact Hok|]. split; [lia|].
  destruct (BindGLTextures_binds_slot_to_unit 16 (fresh_context st) Hok Hmax)
    as (c' & E & _ & _ & Hin & Hout & _).
  exists c'. split; [exact E|].
  split; [apply (Hin 0 (TEXTURE_INFO.mk 7 "Floor")); [simpl; lia | reflexivity]|].
  split; [apply (Hin 1 (TEXTURE_INFO.mk 9 "Door")); [simpl; lia | reflexivity]|].
  rewrite Hout by (simpl; lia). reflexivity.
Defined.

(** ** Loading the textures of the scene *)

Lemma BindGLTextures_loop_returns (max_texture_units : Z) (n : nat) :
  forall (i : Z) (c : Context),
    0 <= i -> i + Z.of_nat n <= Z.of_nat (length (m_textureIDs (scene c))) ->
    exists c',
      BindGLTextures_loop max_texture_units n i c = Done (tt, c') /\
      loaded_meshes c' = loaded_meshes c /\
      same_but_binding (scene c) (scene c').
Proof.
  induction n as [|n IH]; intros i c Hi Hlen.
  - exists c. split; [reflexivity|]. split; [reflexivity|apply same_but_binding_refl].
  - destruct (lookup_lt_is_Some_2 (m_textureIDs (scene c)) (Z.to_nat i)) as [e He]; [lia|].
    assert (exists c1, glActiveTexture max_texture_units i c = Done (tt, c1) /\
                       loaded_meshes c1 = loaded_meshes c /\
                       same_but_binding (scene c) (scene c1)) as (c1 & E1 & Hm1 & Hs1).
    { destruct (decide (0 <= i < max_texture_units)) as [Hin|Hout].
      - destruct (glActiveTexture_selects max_texture_units i c Hin) as (c1 & E1 & _ & Hm & Hs & _).
        exists c1. repeat split; try assumption; apply Hs.
      - exists c. split; [apply glActiveTexture_refused; exact Hout|].
        split; [reflexivity|apply same_but_binding_refl]. }
    assert (Hids : m_textureIDs (scene c1) = m_textureIDs (scene c)) by apply Hs1.
    assert (He1 : texture_at i (scene c1) = Done (e, scene c1)).
    { replace i with (Z.of_nat (Z.to_nat i)) at 1 by lia. apply texture_at_in_bounds.
      rewrite Hids. exact He. }
    set (c2 := mkContext
                 (mkSceneManager (m_pShaderManager (scene c1)) (m_textureIDs (scene c1))
                    (m_loadedTextures (scene c1)) (m_objectMaterials (scene c1))
                    (GL.glBindTexture (TEXTURE_INFO.ID e) (gl (scene c1))) (drawn (scene c1)))
                 (active_texture c1) (other_units c1) (loaded_meshes c1)).
    destruct (IH (i + 1) c2 ltac:(lia) ltac:(cbn [c2 scene m_textureIDs]; rewrite Hids; lia))
      as (c' & E' & Hm' & Hs').
    exists c'. split.
    { cbn [BindGLTextures_loop].
      rewrite (C_bind_run _ _ c c1 tt E1).
      rewrite (C_bind_run _ _ c1 _ e (on_scene_run _ c1 e _ He1)).
      rewrite (C_bind_run _ _ _ c2 tt); [exact E'|]. reflexivity. }
    split; [rewrite Hm'; exact Hm1|].
    apply (same_but_binding_trans _ (scene c1)); [exact Hs1|].
    apply (same_but_binding_trans _ (scene c2)); [repeat split | exact Hs'].
Qed.

Lemma BindGLTextures_returns (max_texture_units : Z) (c : Context) :
  registry_ok (scene c) ->
  exists c',
    BindGLTextures max_texture_units c = Done (tt, c') /\
    loaded_meshes c' = loaded_meshes c /\
    same_but_binding (scene c) (scene c').
Proof.
  intros Hok. unfold registry_ok in Hok.
  apply (BindGLTextures_loop_returns max_texture_units
           (Z.to_nat (m_loadedTextures (scene c))) 0 c); lia.
Qed.

(** [LoadSceneTextures] is the loading of the files of [scene_textures] in
    turn, then [BindGLTextures]. *)
Lemma LoadSceneTextures_each
    (stbi_load : string -> option GL.stbi_image) (fresh_texture_name : GL.state -> Z)
    (max_texture_units : Z) (c : Context) :
  LoadSceneTextures stbi_load fresh_texture_name max_texture_units c
  = (on_scene (CreateGLTexture_each stbi_load fresh_texture_name scene_textures);;
     BindGLTextures max_texture_units) c.
Proof.
  unfold LoadSceneTextures, scene_textures. cbn [CreateGLTexture_each].
  unfold mbind, C_bind, M_bind, bind, on_scene, mret, M_ret, ret. cbn [scene].
  repeat match goal with
         | |- context [CreateGLTexture ?a ?b ?f ?t ?s] =>
             destruct (CreateGLTexture a b f t s) as [[? ?]|];
             cbn [scene active_texture other_units loaded_meshes]; [|reflexivity]
         end.
  reflexivity.
Qed.

(** One load on a registry with a free slot. *)
Lemma CreateGLTexture_step
    (stbi_load : string -> option GL.stbi_image) (fresh_texture_name : GL.state -> Z)
    (filename tag : string) (st : SceneManager) :
  has_free_slot st ->
  exists b st',
    CreateGLTexture stbi_load fresh_texture_name filename tag st = Done (b, st') /\
    registry_ok st' /\ same_but_textures st st' /\
    m_loadedTextures st <= m_loadedTextures st' <= m_loadedTextures st + 1 /\
    registered st `prefix_of` registered st'.
Proof.
  intros Hfree.
  destruct (stbi_load filename) as [image|] eqn:E.
  - destruct (decide (GL.colorChannels image = 3 \/ GL.colorChannels image = 4)) as [Hs|Hn].
    + exists true, (registered_state st image tag (fresh_texture_name (gl st))).
      split; [apply CreateGLTexture_runs; assumption|].
      split; [apply registered_state_ok; exact Hfree|].
      split; [repeat split; cbn [registered_state m_textureIDs]; apply length_insert|].
      split; [cbn [registered_state m_loadedTextures]; lia|].
      rewrite registered_after by exact Hfree. apply prefix_app_r. reflexivity.
    + destruct (CreateGLTexture_fails stbi_load fresh_texture_name filename tag st)
        as (g' & Eg).
      { intros (image' & E' & Hs). rewrite E in E'. injection E' as <-. exact (Hn Hs). }
      eexists false, _. split; [exact Eg|].
      split; [apply has_free_slot_ok; exact Hfree|].
      split; [repeat split|]. split; [cbn [m_loadedTextures]; lia|reflexivity].
  - destruct (CreateGLTexture_fails stbi_load fresh_texture_name filename tag st)
      as (g' & Eg).
    { intros (image' & E' & _). rewrite E in E'. discriminate. }
    eexists false, _. split; [exact Eg|].
    split; [apply has_free_slot_ok; exact Hfree|].
    split; [repeat split|]. split; [cbn [m_loadedTextures]; lia|reflexivity].
Qed.

Lemma same_but_textures_trans (a b c : SceneManager) :
  same_but_textures a b -> same_but_textures b c -> same_but_textures a c.
Proof.
  unfold same_but_textures. intros (?&?&?&?) (?&?&?&?). repeat split; congruence.
Qed.

Lemma CreateGLTexture_each_returns
    (stbi_load : string -> option GL.stbi_image) (fresh_texture_name : GL.state -> Z)
    (files : list (string * string)) :
  forall st : SceneManager,
    registry_ok st ->
    m_loadedTextures st + Z.of_nat (length files) <= Z.of_nat (length (m_textureIDs st)) ->
    exists bs st',
      CreateGLTexture_each stbi_load fresh_texture_name files st = Done (bs, st') /\
      registry_ok st' /\ same_but_textures st st' /\
      m_loadedTextures st <= m_loadedTextures st'
        <= m_loadedTextures st + Z.of_nat (length files) /\
      registered st `prefix_of` registered st'.
Proof.
  induction files as [|[filename tag] files IH]; intros st Hok Hroom.
  - exists [], st. split; [reflexivity|]. split; [exact Hok|]. split; [repeat split|].
    split; [cbn; lia|reflexivity].
  - cbn [length] in Hroom. pose proof Hok as Hrange. unfold registry_ok in Hrange.
    destruct (CreateGLTexture_step stbi_load fresh_texture_name filename tag st)
      as (b & st1 & E1 & Hok1 & Hs1 & Hc1 & Hp1); [unfold has_free_slot; lia|].
    assert (Hlen : length (m_textureIDs st1) = length (m_textureIDs st)) by apply Hs1.
    destruct (IH st1 Hok1 ltac:(rewrite Hlen; lia)) as (bs & st' & E' & Hok' & Hs' & Hc' & Hp').
    exists (b :: bs), st'. split.
    { cbn [CreateGLTexture_each]. rewrite (bind_run _ _ _ _ _ E1).
      rewrite (bind_run _ _ _ _ _ E'). reflexivity. }
    split; [exact Hok'|]. split; [exact (same_but_textures_trans _ _ _ Hs1 Hs')|].
    split; [cbn [length]; lia|]. etransitivity; eassumption.
Qed.

(** X20. Whatever the decoder makes of the thirteen files and whatever
    names the driver hands out, [LoadSceneTextures] on a registry with
    thirteen free slots returns: it registers at most thirteen textures after
    the ones already there, stays within the array, and touches neither the
    shader manager, the materials, the draws nor the meshes. *)
Theorem LoadSceneTextures_stays_within_array
    (stbi_load : string -> option GL.stbi_image) (fresh_texture_name : GL.state -> Z)
    (max_texture_units : Z) (c : Context) :
  registry_ok (scene c) ->
  m_loadedTextures (scene c) + 13 <= Z.of_nat (length (m_textureIDs (scene c))) ->
  exists c',
    LoadSceneTextures stbi_load fresh_texture_name max_texture_units c = Done (tt, c') /\
    registry_ok (scene c') /\
    m_loadedTextures (scene c) <= m_loadedTextures (scene c')
      <= m_loadedTextures (scene c) + 13 /\
    registered (scene c) `prefix_of` registered (scene c') /\
    same_but_textures (scene c) (scene c') /\
    loaded_meshes c' = loaded_meshes c.
Proof.
  intros Hok Hroom.
  destruct (CreateGLTexture_each_returns stbi_load fresh_texture_name scene_textures
              (scene c) Hok Hroom) as (bs & st1 & E1 & Hok1 & Hs1 & Hc1 & Hp1).
  set (c1 := mkContext st1 (active_texture c) (other_units c) (loaded_meshes c)).
  destruct (BindGLTextures_returns max_texture_units c1 Hok1) as (c' & E' & Hm' & Hs').
  destruct Hs' as (Hsh & Hids & Hcnt & Hmat & Hdr & _).
  exists c'. split.
  { rewrite LoadSceneTextures_each.
    rewrite (C_bind_run _ _ c c1 bs (on_scene_run _ c bs st1 E1)). exact E'. }
  cbn [c1 scene] in *.
  split; [unfold registry_ok; rewrite Hids, Hcnt; exact Hok1|].
  split; [rewrite Hcnt; exact Hc1|].
  split; [unfold registered; rewrite Hids, Hcnt; exact Hp1|].
  split; [|exact Hm'].
  destruct Hs1 as (?&?&?&?). unfold same_but_textures. repeat split; congruence.
Qed.

Lemma LoadSceneTextures_stays_within_array_witness :
  let c := fresh_context (new_scene None) in
  registry_ok (scene c) /\
  m_loadedTextures (scene c) + 13 <= Z.of_nat (length (m_textureIDs (scene c))) /\
  exists c',
    LoadSceneTextures (fun _ => None) counting_names 16 c = Done (tt, c') /\
    0 <= m_loadedTextures (scene c') <= 13.
Proof.
  intros c.
  assert (Hok : registry_ok (scene c)) by (unfold registry_ok; simpl; lia).
  assert (Hroom : m_loadedTextures (scene c) + 13
                  <= Z.of_nat (length (m_textureIDs (scene c)))) by (simpl; lia).
  split; [exact Hok|]. split; [exact Hroom|].
  destruct (LoadSceneTextures_stays_within_array (fun _ => None) counting_names 16 c Hok Hroom)
    as (c' & E & _ & Hc & _).
  exists c'. split; [exact E|exact Hc].
Defined.
Lemma first_slot_distinct_tags (l : list TEXTURE_INFO.t) :
  forall (k : nat) (e : TEXTURE_INFO.t) (i : Z),
    NoDup (TEXTURE_INFO.tag <$> l) -> l !! k = Some e ->
    first_slot (TEXTURE_INFO.tag e) l i = i + Z.of_nat k.
Proof.
  induction l as [|e0 l IH]; intros k e i Hnd He; [discriminate|].
  cbn [fmap list_fmap] in Hnd. apply NoDup_cons in Hnd as [Hfirst Hnd].
  cbn [first_slot]. destruct k as [|k].
  - injection He as ->. rewrite String.eqb_refl. lia.
  - cbn in He. destruct (String.eqb_spec (TEXTURE_INFO.tag e0) (TEXTURE_INFO.tag e)) as [Heq|_].
    + exfalso. apply Hfirst. rewrite Heq. apply list_elem_of_fmap.
      exists e. split; [reflexivity|]. eapply list_elem_of_lookup_2. exact He.
    + rewrite (IH k e (i + 1) Hnd He). lia.
Qed.

Lemma CreateGLTexture_each_all_decodable
    (stbi_load : string -> option GL.stbi_image) (fresh_texture_name : GL.state -> Z)
    (files : list (string * string)) :
  forall st : SceneManager,
    all_decodable stbi_load files -> registry_ok st ->
    m_loadedTextures st + Z.of_nat (length files) <= Z.of_nat (length (m_textureIDs st)) ->
    exists st' entries,
      CreateGLTexture_each stbi_load fresh_texture_name files st
      = Done (replicate (length files) true, st') /\
      registered st' = registered st ++ entries /\
      TEXTURE_INFO.tag <$> entries = files.*2 /\
      m_loadedTextures st' = m_loadedTextures st + Z.of_nat (length files) /\
      registry_ok st' /\ same_but_textures st st' /\
      (forall u, u ∈ GL.uploads (gl st) -> u ∈ GL.uploads (gl st')) /\
      Forall2 (fun e file =>
                 exists image, stbi_load file.1 = Some image /\
                   (TEXTURE_INFO.ID e, format_of image, GL.width image, GL.height image)
                   ∈ GL.uploads (gl st'))
              entries files.
Proof.
  induction files as [|[filename tag] files IH]; intros st Hall Hok Hroom.
  - exists st, []. split; [reflexivity|]. split; [rewrite app_nil_r; reflexivity|].
    split; [reflexivity|]. split; [cbn; lia|]. split; [exact Hok|].
    split; [repeat split|]. split; [auto|constructor].
  - cbn [length] in Hroom. pose proof Hok as Hrange. unfold registry_ok in Hrange.
    apply Forall_cons in Hall as [(image & E & Hs) Hall]. cbn [fst] in E.
    assert (Hfree : has_free_slot st) by (unfold has_free_slot; lia).
    set (name := fresh_texture_name (gl st)).
    set (st1 := registered_state st image tag name).
    assert (E1 : CreateGLTexture stbi_load fresh_texture_name filename tag st
                 = Done (true, st1)) by (apply CreateGLTexture_runs; assumption).
    assert (Hok1 : registry_ok st1) by (apply registered_state_ok; exact Hfree).
    assert (Hlen : length (m_textureIDs st1) = length (m_textureIDs st))
      by (cbn [st1 registered_state m_textureIDs]; apply length_insert).
    assert (Hcnt : m_loadedTextures st1 = m_loadedTextures st + 1) by reflexivity.
    destruct (IH st1 Hall Hok1 ltac:(rewrite Hlen, Hcnt; lia))
      as (st' & entries & E' & Hreg & Htags & Hcnt' & Hok' & Hs' & Hup & Hfiles).
    exists st', (TEXTURE_INFO.mk name tag :: entries). split.
    { cbn [CreateGLTexture_each length replicate]. rewrite (bind_run _ _ _ _ _ E1).
      rewrite (bind_run _ _ _ _ _ E'). reflexivity. }
    split.
    { rewrite Hreg. unfold st1. rewrite registered_after by exact Hfree.
      rewrite <- app_assoc. reflexivity. }
    split; [cbn; rewrite Htags; reflexivity|].
    split; [rewrite Hcnt', Hcnt; cbn [length]; lia|]. split; [exact Hok'|].
    split.
    { apply (same_but_textures_trans _ st1); [|exact Hs']. repeat split. exact Hlen. }
    split.
    { intros u Hu. apply Hup. cbn [st1 registered_state gl GL.uploads].
      apply list_elem_of_further. exact Hu. }
    constructor; [|exact Hfiles].
    exists image. split; [exact E|]. apply Hup.
    cbn [st1 registered_state gl GL.uploads TEXTURE_INFO.ID]. apply list_elem_of_here.
Qed.

(** A decodable image on a full registry: the store goes past the array. *)
Lemma CreateGLTexture_on_full_registry
    (stbi_load : string -> option GL.stbi_image) (fresh_texture_name : GL.state -> Z)
    (filename tag : string) (image : GL.stbi_image) (st : SceneManager) :
  stbi_load filename = Some image -> supported image ->
  m_loadedTextures st = Z.of_nat (length (m_textureIDs st)) ->
  CreateGLTexture stbi_load fresh_texture_name filename tag st
  = Crash (OutOfBounds (Z.of_nat (length (m_textureIDs st)))).
Proof.
  intros E Hs Hfull.
  unfold CreateGLTexture, register_texture, glGenTextures, set_texture_at.
  rewrite E. run_method.
  destruct Hs as [Hc|Hc]; rewrite Hc; simpl; rewrite Hfull, Z.ltb_irrefl, andb_false_r;
    reflexivity.
Qed.

Lemma CreateGLTexture_each_overflows
    (stbi_load : string -> option GL.stbi_image) (fresh_texture_name : GL.state -> Z)
    (files : list (string * string)) :
  forall st : SceneManager,
    all_decodable stbi_load files -> registry_ok st ->
    Z.of_nat (length (m_textureIDs st)) < m_loadedTextures st + Z.of_nat (length files) ->
    CreateGLTexture_each stbi_load fresh_texture_name files st
    = Crash (OutOfBounds (Z.of_nat (length (m_textureIDs st)))).
Proof.
  induction files as [|[filename tag] files IH]; intros st Hall Hok Hshort.
  - unfold registry_ok in Hok. cbn [length] in Hshort. lia.
  - pose proof Hok as Hrange. unfold registry_ok in Hrange.
    apply Forall_cons in Hall as [(image & E & Hs) Hall]. cbn [fst] in E.
    cbn [CreateGLTexture_each].
    destruct (decide (m_loadedTextures st = Z.of_nat (length (m_textureIDs st))))
      as [Hfull|Hfree].
    + unfold mbind, M_bind, bind.
      rewrite (CreateGLTexture_on_full_registry _ _ _ _ image) by assumption. reflexivity.
    + assert (Hfree' : has_free_slot st) by (unfold has_free_slot; lia).
      rewrite (bind_run _ _ _ _ _
                 (CreateGLTexture_runs stbi_load fresh_texture_name filename tag image st
                    E Hs Hfree')).
      set (st1 := registered_state st image tag (fresh_texture_name (gl st))).
      assert (Hlen : length (m_textureIDs st1) = length (m_textureIDs st))
        by (cbn [st1 registered_state m_textureIDs]; apply length_insert).
      assert (Hcnt : m_loadedTextures st1 = m_loadedTextures st + 1) by reflexivity.
      unfold mbind, M_bind, bind.
      rewrite (IH st1 Hall (registered_state_ok _ _ _ _ Hfree'))
        by (rewrite Hlen, Hcnt; cbn [length] in Hshort; lia).
      rewrite Hlen. reflexivity.
Qed.

Lemma scene_tags_distinct : NoDup scene_textures.*2.
Proof.
  cbn [scene_textures fmap list_fmap snd].
  repeat (apply NoDup_cons; split;
          [rewrite ?not_elem_of_cons; repeat split; try discriminate; apply not_elem_of_nil|]).
  apply NoDup_nil. exact I.
Qed.

(** The whole of what [LoadSceneTextures] does when every file decodes. *)
Lemma LoadSceneTextures_loads_all
    (stbi_load : string -> option GL.stbi_image) (fresh_texture_name : GL.state -> Z)
    (max_texture_units : Z) (c : Context) :
  all_decodable stbi_load scene_textures ->
  m_loadedTextures (scene c) = 0 ->
  13 <= Z.of_nat (length (m_textureIDs (scene c))) ->
  13 <= max_texture_units ->
  exists c',
    LoadSceneTextures stbi_load fresh_texture_name max_texture_units c = Done (tt, c') /\
    m_loadedTextures (scene c') = 13 /\
    TEXTURE_INFO.tag <$> registered (scene c') = scene_textures.*2 /\
    same_but_textures (scene c) (scene c') /\
    loaded_meshes c' = loaded_meshes c /\
    forall (k : nat) (filename tag : string),
      scene_textures !! k = Some (filename, tag) ->
      FindTextureSlot tag (scene c') = Done (Z.of_nat k, scene c') /\
      exists e image,
        m_textureIDs (scene c') !! k = Some e /\
        TEXTURE_INFO.tag e = tag /\
        stbi_load filename = Some image /\
        (TEXTURE_INFO.ID e, format_of image, GL.width image, GL.height image)
        ∈ GL.uploads (gl (scene c')) /\
        unit_binding c' (Z.of_nat k) = TEXTURE_INFO.ID e.
Proof.
  intros Hall Hzero Hslots Hunits.
  assert (Hok : registry_ok (scene c)) by (unfold registry_ok; lia).
  destruct (CreateGLTexture_each_all_decodable stbi_load fresh_texture_name scene_textures
              (scene c) Hall Hok)
    as (st1 & entries & E1 & Hreg & Htags & Hcnt & Hok1 & Hs1 & _ & Hfiles).
  { rewrite Hzero. cbn [scene_textures length]. lia. }
  assert (Hnil : registered (scene c) = []) by (unfold registered; rewrite Hzero; reflexivity).
  rewrite Hnil in Hreg. cbn [app] in Hreg.
  rewrite Hzero in Hcnt. cbn in Hcnt.
  set (c1 := mkContext st1 (active_texture c) (other_units c) (loaded_meshes c)).
  destruct (BindGLTextures_loop_runs max_texture_units
              (Z.to_nat (m_loadedTextures st1)) 0 c1)
    as (c' & E' & Hm' & Hs' & Hin & _).
  { lia. }
  { unfold registry_ok in Hok1. cbn [c1 scene]. lia. }
  { rewrite Hcnt. lia. }
  destruct Hs' as (Hsh' & Hids & Hcnt' & Hmat' & Hdr' & _ & Hup).
  cbn [c1 scene] in Hsh', Hids, Hcnt', Hmat', Hdr', Hup, Hin.
  assert (Hreg' : registered (scene c') = entries)
    by (unfold registered; rewrite Hids, Hcnt'; exact Hreg).
  assert (Hok' : registry_ok (scene c'))
    by (unfold registry_ok; rewrite Hids, Hcnt'; exact Hok1).
  exists c'. split.
  { rewrite LoadSceneTextures_each.
    rewrite (C_bind_run _ _ c c1 _ (on_scene_run _ c _ st1 E1)). exact E'. }
  split; [rewrite Hcnt'; exact Hcnt|]. split; [rewrite Hreg'; exact Htags|].
  split.
  { destruct Hs1 as (?&?&?&?). unfold same_but_textures. repeat split; congruence. }
  split; [exact Hm'|].
  intros k filename tag Hk.
  destruct (Forall2_lookup_r _ _ _ _ _ Hfiles Hk) as (e & He & image & Eimg & Hupl).
  cbn [fst] in Eimg.
  assert (Htag : TEXTURE_INFO.tag e = tag).
  { assert (H1 : (TEXTURE_INFO.tag <$> entries) !! k = Some (TEXTURE_INFO.tag e))
      by (rewrite list_lookup_fmap, He; reflexivity).
    rewrite Htags, list_lookup_fmap, Hk in H1. injection H1 as <-. reflexivity. }
  assert (Hslot : m_textureIDs st1 !! k = Some e).
  { unfold registered in Hreg. rewrite <- Hreg in He.
    apply lookup_take_Some in He as [He _]. exact He. }
  assert (Hklt : (k < 13)%nat).
  { apply lookup_lt_Some in Hk. cbn [scene_textures length] in Hk. exact Hk. }
  split.
  { rewrite FindTextureSlot_is_first_slot by exact Hok'. rewrite Hreg', <- Htag.
    rewrite (first_slot_distinct_tags entries k e 0); [reflexivity| |exact He].
    rewrite Htags. exact scene_tags_distinct. }
  exists e, image. split; [rewrite Hids; exact Hslot|]. split; [exact Htag|].
  split; [exact Eimg|]. split; [rewrite Hup; exact Hupl|].
  apply Hin; [rewrite Hcnt; lia|]. rewrite Nat2Z.id. exact Hslot.
Qed.

(** X21. When each of the thirteen files decodes to an image of 3 or 4
    channels, [LoadSceneTextures] on an empty registry of at least thirteen
    slots, with at least thirteen texture units, registers all thirteen, in
    the order of the calls.  For the k-th file and its tag:
    [FindTextureSlot] answers k for the tag, slot k carries the tag, the
    image of the file was uploaded under the name in slot k, and that
    texture is the one bound to unit k. *)
Theorem LoadSceneTextures_registers_and_binds
    (stbi_load : string -> option GL.stbi_image) (fresh_texture_name : GL.state -> Z)
    (max_texture_units : Z) (c : Context) :
  all_decodable stbi_load scene_textures ->
  m_loadedTextures (scene c) = 0 ->
  13 <= Z.of_nat (length (m_textureIDs (scene c))) ->
  13 <= max_texture_units ->
  exists c',
    LoadSceneTextures stbi_load fresh_texture_name max_texture_units c = Done (tt, c') /\
    m_loadedTextures (scene c') = 13 /\
    TEXTURE_INFO.tag <$> registered (scene c') = scene_textures.*2 /\
    forall (k : nat) (filename tag : string),
      scene_textures !! k = Some (filename, tag) ->
      FindTextureSlot tag (scene c') = Done (Z.of_nat k, scene c') /\
      exists e image,
        m_textureIDs (scene c') !! k = Some e /\
        TEXTURE_INFO.tag e = tag /\
        stbi_load filename = Some image /\
        (TEXTURE_INFO.ID e, format_of image, GL.width image, GL.height image)
        ∈ GL.uploads (gl (scene c')) /\
        unit_binding c' (Z.of_nat k) = TEXTURE_INFO.ID e.
Proof.
  intros Hall Hzero Hslots Hunits.
  destruct (LoadSceneTextures_loads_all stbi_load fresh_texture_name max_texture_units c
              Hall Hzero Hslots Hunits) as (c' & E & Hcnt & Htags & _ & _ & Hfind).
  exists c'. split; [exact E|]. split; [exact Hcnt|]. split; [exact Htags | exact Hfind].
Qed.

Lemma LoadSceneTextures_registers_and_binds_witness :
  let c := fresh_context (new_scene None) in
  all_decodable every_file_rgb scene_textures /\
  m_loadedTextures (scene c) = 0 /\
  13 <= Z.of_nat (length (m_textureIDs (scene c))) /\ 13 <= 16 /\
  exists c',
    LoadSceneTextures every_file_rgb counting_names 16 c = Done (tt, c') /\
    m_loadedTextures (scene c') = 13 /\
    FindTextureSlot "Door" (scene c') = Done (6, scene c').
Proof.
  intros c.
  assert (Hall : all_decodable every_file_rgb scene_textures).
  { unfold all_decodable. apply Forall_forall. intros file _.
    exists (GL.mkimage 64 64 3). split; [reflexivity | left; reflexivity]. }
  assert (Hzero : m_loadedTextures (scene c) = 0) by reflexivity.
  assert (Hslots : 13 <= Z.of_nat (length (m_textureIDs (scene c)))) by (simpl; lia).
  assert (Hunits : 13 <= 16) by lia.
  split; [exact Hall|]. split; [exact Hzero|]. split; [exact Hslots|]. split; [exact Hunits|].
  destruct (LoadSceneTextures_registers_and_binds every_file_rgb counting_names 16 c
              Hall Hzero Hslots Hunits) as (c' & E & Hcnt & _ & Hfind).
  exists c'. split; [exact E|]. split; [exact Hcnt|].
  apply (Hfind 6%nat "textures/Door.png" "Door"). reflexivity.
Defined.

(** X22. When the thirteen files decode and the registry has fewer than
    thirteen free slots, [LoadSceneTextures] stores past the end of
    [m_textureIDs]: nothing in it or in [CreateGLTexture] compares the count
    with the size of the array.  A second call on the 16 slots is such a
    case. *)
Theorem LoadSceneTextures_overflows_short_registry
    (stbi_load : string -> option GL.stbi_image) (fresh_texture_name : GL.state -> Z)
    (max_texture_units : Z) (c : Context) :
  all_decodable stbi_load scene_textures ->
  registry_ok (scene c) ->
  Z.of_nat (length (m_textureIDs (scene c))) < m_loadedTextures (scene c) + 13 ->
  LoadSceneTextures stbi_load fresh_texture_name max_texture_units c
  = Crash (OutOfBounds (Z.of_nat (length (m_textureIDs (scene c))))).
Proof.
  intros Hall Hok Hshort. rewrite LoadSceneTextures_each.
  unfold mbind, C_bind.
  rewrite (on_scene_crash _ c (OutOfBounds (Z.of_nat (length (m_textureIDs (scene c))))));
    [reflexivity|].
  apply CreateGLTexture_each_overflows; assumption.
Qed.

Lemma LoadSceneTextures_overflows_short_registry_witness :
  let st := mkSceneManager None (replicate 16 (TEXTURE_INFO.mk 0 "")) 13 []
                           (GL.mkstate [] 0 []) [] in
  all_decodable every_file_rgb scene_textures /\ registry_ok st /\
  Z.of_nat (length (m_textureIDs st)) < m_loadedTextures st + 13 /\
  LoadSceneTextures every_file_rgb counting_names 16 (fresh_context st)
  = Crash (OutOfBounds 16).
Proof.
  intros st.
  assert (Hall : all_decodable every_file_rgb scene_textures).
  { unfold all_decodable. apply Forall_forall. intros file _.
    exists (GL.mkimage 64 64 3). split; [reflexivity | left; reflexivity]. }
  assert (Hok : registry_ok (scene (fresh_context st))) by (unfold registry_ok; simpl; lia).
  assert (Hshort : Z.of_nat (length (m_textureIDs (scene (fresh_context st))))
                   < m_loadedTextures (scene (fresh_context st)) + 13) by (simpl; lia).
  split; [exact Hall|]. split; [exact Hok|]. split; [exact Hshort|].
  exact (LoadSceneTextures_overflows_short_registry every_file_rgb counting_names 16
           (fresh_context st) Hall Hok Hshort).
Defined.
(** ** The lights and the preparation of the scene *)

(** X23. [SetupSceneLights] calls the shader manager without testing the
    pointer: with [m_pShaderManager == NULL] it faults at its first
    statement, where the setters of the draw state return.  With a shader
    manager it returns, turns the lighting on and the point lights 0 and 1
    on, and writes no uniform but [bUseLighting] and those of
    [pointLights[0]] and [pointLights[1]]: the draw state and the lights 2
    and 3 are as before, and so are the registries, the GL state and the
    draws. *)
Theorem SetupSceneLights_needs_shader (ids : list TEXTURE_INFO.t) (cnt : Z)
    (mats : list OBJECT_MATERIAL.t) (g : GL.state)
    (d : list (ShapeMeshes.draw * option ShaderManager.t)) :
  SetupSceneLights (mkSceneManager None ids cnt mats g d) = Crash NullPointer /\
  forall sh : ShaderManager.t,
  exists sh',
    SetupSceneLights (mkSceneManager (Some sh) ids cnt mats g d)
    = Done (tt, mkSceneManager (Some sh') ids cnt mats g d) /\
    sh' !! g_UseLightingName = Some (ShaderManager.UBool true) /\
    sh' !! "pointLights[0].bActive" = Some (ShaderManager.UBool true) /\
    sh' !! "pointLights[1].bActive" = Some (ShaderManager.UBool true) /\
    forall name : string,
      name <> g_UseLightingName ->
      String.prefix "pointLights[0]." name = false ->
      String.prefix "pointLights[1]." name = false ->
      sh' !! name = sh !! name.
Proof.
  split; [reflexivity|]. intros sh. eexists. split.
  { cbv [SetupSceneLights mbind M_bind bind shader_call m_pShaderManager m_textureIDs
         m_loadedTextures m_objectMaterials gl drawn]. reflexivity. }
  unfold ShaderManager.setBoolValue, ShaderManager.setVec3Value, ShaderManager.setFloatValue.
  split; [rewrite !lookup_insert_ne by discriminate; apply lookup_insert_eq|].
  split; [rewrite !lookup_insert_ne by discriminate; apply lookup_insert_eq|].
  split; [apply lookup_insert_eq|].
  intros name Hn H0 H1.
  repeat (rewrite lookup_insert_ne;
          [|intros <-; first [discriminate H0 | discriminate H1 | exact (Hn eq_refl)]]).
  reflexivity.
Qed.

Lemma CreateGLTexture_keeps_shader
    (stbi_load : string -> option GL.stbi_image) (fresh_texture_name : GL.state -> Z)
    (filename tag : string) (st st' : SceneManager) (b : bool) :
  CreateGLTexture stbi_load fresh_texture_name filename tag st = Done (b, st') ->
  m_pShaderManager st' = m_pShaderManager st.
Proof.
  unfold CreateGLTexture, register_texture, glGenTextures, set_texture_at.
  destruct (stbi_load filename) as [image|]; run_method.
  - destruct (GL.colorChannels image =? 3); simpl.
    + destruct ((0 <=? m_loadedTextures st)
                && (m_loadedTextures st <? Z.of_nat (length (m_textureIDs st)))); simpl;
        intros [= <- <-]; reflexivity.
    + destruct (GL.colorChannels image =? 4); simpl.
      * destruct ((0 <=? m_loadedTextures st)
                  && (m_loadedTextures st <? Z.of_nat (length (m_textureIDs st)))); simpl;
          intros [= <- <-]; reflexivity.
      * intros [= <- <-]. reflexivity.
  - intros [= <- <-]. reflexivity.
Qed.

Lemma CreateGLTexture_each_keeps_shader
    (stbi_load : string -> option GL.stbi_image) (fresh_texture_name : GL.state -> Z)
    (files : list (string * string)) :
  forall (st st' : SceneManager) (bs : list bool),
    CreateGLTexture_each stbi_load fresh_texture_name files st = Done (bs, st') ->
    m_pShaderManager st' = m_pShaderManager st.
Proof.
  induction files as [|[filename tag] files IH]; intros st st' bs.
  - intros [= <- <-]. reflexivity.
  - cbn [CreateGLTexture_each]. unfold mbind, M_bind, bind.
    destruct (CreateGLTexture stbi_load fresh_texture_name filename tag st)
      as [[b st1]|] eqn:E1; [|discriminate].
    destruct (CreateGLTexture_each stbi_load fresh_texture_name files st1)
      as [[bs1 st2]|] eqn:E2; [|discriminate].
    intros [= <- <-]. rewrite (IH _ _ _ E2). exact (CreateGLTexture_keeps_shader _ _ _ _ _ _ _ E1).
Qed.

Lemma BindGLTextures_loop_keeps_shader (max_texture_units : Z) (n : nat) :
  forall (i : Z) (c c' : Context),
    BindGLTextures_loop max_texture_units n i c = Done (tt, c') ->
    m_pShaderManager (scene c') = m_pShaderManager (scene c).
Proof.
  induction n as [|n IH]; intros i c c'.
  - intros [= <-]. reflexivity.
  - cbn [BindGLTextures_loop]. unfold mbind, C_bind.
    destruct (glActiveTexture max_texture_units i c) as [[[] c1]|] eqn:E1; [|discriminate].
    assert (H1 : m_pShaderManager (scene c1) = m_pShaderManager (scene c)).
    { unfold glActiveTexture in E1.
      destruct ((0 <=? i) && (i <? max_texture_units)); injection E1 as <-; reflexivity. }
    unfold on_scene at 1, texture_at.
    destruct (0 <=? i); [|discriminate].
    destruct (m_textureIDs (scene c1) !! Z.to_nat i) as [e|]; [|discriminate].
    unfold on_scene, with_gl. cbn [scene]. intros E'.
    rewrite (IH _ _ _ E'). exact H1.
Qed.

Lemma LoadSceneTextures_keeps_shader
    (stbi_load : string -> option GL.stbi_image) (fresh_texture_name : GL.state -> Z)
    (max_texture_units : Z) (c c' : Context) :
  LoadSceneTextures stbi_load fresh_texture_name max_texture_units c = Done (tt, c') ->
  m_pShaderManager (scene c') = m_pShaderManager (scene c).
Proof.
  rewrite LoadSceneTextures_each. unfold mbind, C_bind, on_scene.
  destruct (CreateGLTexture_each stbi_load fresh_texture_name scene_textures (scene c))
    as [[bs st1]|] eqn:E1; [|discriminate].
  unfold BindGLTextures, mbind, C_bind, get_context. intros E'.
  rewrite (BindGLTextures_loop_keeps_shader _ _ _ _ _ E'). cbn [scene].
  exact (CreateGLTexture_each_keeps_shader _ _ _ _ _ _ E1).
Qed.

Lemma PrepareScene_after_textures
    (stbi_load : string -> option GL.stbi_image) (fresh_texture_name : GL.state -> Z)
    (max_texture_units : Z) (c c1 : Context) :
  LoadSceneTextures stbi_load fresh_texture_name max_texture_units c = Done (tt, c1) ->
  m_pShaderManager (scene c1) = None ->
  PrepareScene stbi_load fresh_texture_name max_texture_units c = Crash NullPointer.
Proof.
  intros E1 Hnull. unfold PrepareScene.
  rewrite (C_bind_run _ _ c c1 tt E1).
  unfold mbind at 1, C_bind at 1, on_scene at 1.
  unfold DefineObjectMaterials, push_material. run_method.
  unfold mbind, C_bind, on_scene. cbn [scene].
  unfold SetupSceneLights. run_method. rewrite Hnull. reflexivity.
Qed.

(** X24. Without a shader manager [PrepareScene] does not return, whatever
    the decoder, the driver and the state it starts from: it ends in a
    fault.  On a registry with room for the thirteen textures the fault is
    the call through the null pointer in [SetupSceneLights]. *)
Theorem PrepareScene_without_shader
    (stbi_load : string -> option GL.stbi_image) (fresh_texture_name : GL.state -> Z)
    (max_texture_units : Z) (c : Context) :
  m_pShaderManager (scene c) = None ->
  (exists f, PrepareScene stbi_load fresh_texture_name max_texture_units c = Crash f) /\
  (registry_ok (scene c) ->
   m_loadedTextures (scene c) + 13 <= Z.of_nat (length (m_textureIDs (scene c))) ->
   PrepareScene stbi_load fresh_texture_name max_texture_units c = Crash NullPointer).
Proof.
  intros Hnull. split.
  - destruct (LoadSceneTextures stbi_load fresh_texture_name max_texture_units c)
      as [[[] c1]|f] eqn:E1.
    + exists NullPointer. apply (PrepareScene_after_textures _ _ _ c c1 E1).
      rewrite (LoadSceneTextures_keeps_shader _ _ _ _ _ E1). exact Hnull.
    + exists f. unfold PrepareScene, mbind, C_bind. rewrite E1. reflexivity.
  - intros Hok Hroom.
    destruct (CreateGLTexture_each_returns stbi_load fresh_texture_name scene_textures
                (scene c) Hok Hroom) as (bs & st1 & E1 & Hok1 & Hs1 & _).
    set (c1 := mkContext st1 (active_texture c) (other_units c) (loaded_meshes c)).
    destruct (BindGLTextures_returns max_texture_units c1 Hok1) as (c' & E' & _ & Hs').
    assert (E : LoadSceneTextures stbi_load fresh_texture_name max_texture_units c
                = Done (tt, c')).
    { rewrite LoadSceneTextures_each.
      rewrite (C_bind_run _ _ c c1 bs (on_scene_run _ c bs st1 E1)). exact E'. }
    apply (PrepareScene_after_textures _ _ _ c c' E).
    rewrite (LoadSceneTextures_keeps_shader _ _ _ _ _ E). exact Hnull.
Qed.

Lemma PrepareScene_without_shader_witness :
  let c := fresh_context (new_scene None) in
  m_pShaderManager (scene c) = None /\
  PrepareScene every_file_rgb counting_names 16 c = Crash NullPointer.
Proof.
  intros c.
  assert (Hnull : m_pShaderManager (scene c) = None) by reflexivity.
  split; [exact Hnull|].
  apply (PrepareScene_without_shader every_file_rgb counting_names 16 c Hnull).
  - unfold registry_ok. simpl. lia.
  - simpl. lia.
Defined.
(** * Further properties: the renderers *)

(** ** A renderer as a sequence of statements *)

Lemma run_steps_cons (indeterminate : OBJECT_MATERIAL.t) (s : step) (k : M unit)
    (l : list step) :
  (forall st, k st = run_steps indeterminate l st) ->
  forall st, (run_step indeterminate s;; k) st = run_steps indeterminate (s :: l) st.
Proof.
  intros H st. cbn [run_steps]. unfold mbind, M_bind, bind.
  destruct (run_step indeterminate s st) as [[a st']|f]; [apply H | reflexivity].
Qed.

Lemma run_steps_last (indeterminate : OBJECT_MATERIAL.t) (s : step) :
  forall st, run_step indeterminate s st = run_steps indeterminate [s] st.
Proof.
  intros st. cbn [run_steps]. unfold mbind, M_bind, bind.
  destruct (run_step indeterminate s st) as [[[] st']|f]; reflexivity.
Qed.

Lemma run_steps_app (indeterminate : OBJECT_MATERIAL.t) (l1 l2 : list step) :
  forall st, (run_steps indeterminate l1;; run_steps indeterminate l2) st
             = run_steps indeterminate (l1 ++ l2) st.
Proof.
  induction l1 as [|s l1 IH]; intros st; [reflexivity|].
  cbn [app run_steps]. unfold mbind, M_bind, bind in *.
  destruct (run_step indeterminate s st) as [[a st']|f]; [apply IH | reflexivity].
Qed.

Lemma run_steps_seq (indeterminate : OBJECT_MATERIAL.t) (c k : M unit)
    (l1 l2 : list step) :
  (forall st, c st = run_steps indeterminate l1 st) ->
  (forall st, k st = run_steps indeterminate l2 st) ->
  forall st, (c;; k) st = run_steps indeterminate (l1 ++ l2) st.
Proof.
  intros H1 H2 st. rewrite <- run_steps_app. unfold mbind, M_bind, bind.
  rewrite H1. destruct (run_steps indeterminate l1 st) as [[a st']|f]; [apply H2 | reflexivity].
Qed.

(** Reads a renderer off as its sequence of statements. *)
Ltac read_steps ind :=
  lazymatch goal with
  | |- forall st, (SetTransformations ?s ?rx ?ry ?rz ?p ≫= _) st = _ =>
      refine (run_steps_cons ind (Transform s rx ry rz p) _ _ _); read_steps ind
  | |- forall st, (SetShaderColor ?r ?g ?b ?a ≫= _) st = _ =>
      refine (run_steps_cons ind (Color r g b a) _ _ _); read_steps ind
  | |- forall st, (SetTextureUVScale ?u ?v ≫= _) st = _ =>
      refine (run_steps_cons ind (UVScale u v) _ _ _); read_steps ind
  | |- forall st, (SetShaderTexture ?t ≫= _) st = _ =>
      refine (run_steps_cons ind (Texture t) _ _ _); read_steps ind
  | |- forall st, (SetShaderMaterial _ ?t ≫= _) st = _ =>
      refine (run_steps_cons ind (Material t) _ _ _); read_steps ind
  | |- forall st, (mesh_call ?d ≫= _) st = _ =>
      refine (run_steps_cons ind (Draw d) _ _ _); read_steps ind
  | |- forall st, mesh_call ?d st = _ => exact (run_steps_last ind (Draw d))
  | |- forall st, (?c ≫= _) st = _ =>
      refine (run_steps_seq ind c _ _ _ _ _); [read_steps ind | read_steps ind]
  end.

Ltac unfold_renderers :=
  cbv beta zeta delta [RenderScene RenderBackground RenderPacifier RenderCup RenderBottle
                       RenderJam RenderBabyLotion].

Lemma run_step_with_shader (indeterminate : OBJECT_MATERIAL.t) (s : step)
    (sh : ShaderManager.t) (ids : list TEXTURE_INFO.t) (cnt : Z)
    (mats : list OBJECT_MATERIAL.t) (g : GL.state)
    (d : list (ShapeMeshes.draw * option ShaderManager.t)) :
  registry_ok (mkSceneManager (Some sh) ids cnt mats g d) ->
  run_step indeterminate s (mkSceneManager (Some sh) ids cnt mats g d)
  = Done (tt, mkSceneManager
                (Some (stage indeterminate (take (Z.to_nat cnt) ids) mats s sh))
                ids cnt mats g
                (match s with Draw dr => d ++ [(dr, Some sh)] | _ => d end)).
Proof.
  intros Hok. destruct s; cbn [run_step stage].
  - reflexivity.
  - reflexivity.
  - reflexivity.
  - apply SetShaderTexture_runs_slot. exact Hok.
  - apply SetShaderMaterial_with_shader.
  - reflexivity.
Qed.

Lemma run_steps_with_shader (indeterminate : OBJECT_MATERIAL.t) (l : list step) :
  forall (sh : ShaderManager.t) (ids : list TEXTURE_INFO.t) (cnt : Z)
         (mats : list OBJECT_MATERIAL.t) (g : GL.state)
         (d : list (ShapeMeshes.draw * option ShaderManager.t)),
    registry_ok (mkSceneManager (Some sh) ids cnt mats g d) ->
    run_steps indeterminate l (mkSceneManager (Some sh) ids cnt mats g d)
    = Done (tt, mkSceneManager
                  (Some (stage_all indeterminate (take (Z.to_nat cnt) ids) mats l sh))
                  ids cnt mats g
                  (d ++ issue indeterminate (take (Z.to_nat cnt) ids) mats l sh)).
Proof.
  induction l as [|s l IH]; intros sh ids cnt mats g d Hok.
  - cbn [run_steps stage_all issue]. rewrite app_nil_r. reflexivity.
  - cbn [run_steps]. rewrite (bind_run _ _ _ _ _ (run_step_with_shader _ s _ _ _ _ _ _ Hok)).
    rewrite IH by exact Hok. destruct s; cbn [stage_all issue stage]; try reflexivity.
    rewrite <- app_assoc. reflexivity.
Qed.

Lemma issue_draws (indeterminate : OBJECT_MATERIAL.t) (entries : list TEXTURE_INFO.t)
    (mats : list OBJECT_MATERIAL.t) (l : list step) :
  forall sh, (issue indeterminate entries mats l sh).*1 = draws_of l.
Proof.
  induction l as [|s l IH]; intros sh; [reflexivity|].
  destruct s; cbn [issue draws_of fmap list_fmap fst]; rewrite ?IH; reflexivity.
Qed.

Lemma stage_keeps_model (indeterminate : OBJECT_MATERIAL.t) (entries : list TEXTURE_INFO.t)
    (mats : list OBJECT_MATERIAL.t) (s : step) (sh : ShaderManager.t) :
  match s with Transform _ _ _ _ _ => True
  | _ => stage indeterminate entries mats s sh !! g_ModelName = sh !! g_ModelName end.
Proof.
  destruct s; cbn [stage]; try exact I; try reflexivity;
    unfold ShaderManager.setVec4Value, ShaderManager.setIntValue, ShaderManager.setVec2Value,
      ShaderManager.setSampler2DValue, ShaderManager.setFloatValue, ShaderManager.setVec3Value.
  - rewrite !lookup_insert_ne by discriminate. reflexivity.
  - rewrite !lookup_insert_ne by discriminate. reflexivity.
  - rewrite !lookup_insert_ne by discriminate. reflexivity.
  - destruct mats; [reflexivity|]. cbv zeta. rewrite !lookup_insert_ne by discriminate.
    reflexivity.
Qed.

Lemma issue_poses (indeterminate : OBJECT_MATERIAL.t) (entries : list TEXTURE_INFO.t)
    (mats : list OBJECT_MATERIAL.t) (l : list step) :
  forall sh, staged_model <$> (issue indeterminate entries mats l sh).*2
             = poses l (staged_model (Some sh)).
Proof.
  induction l as [|s l IH]; intros sh; [reflexivity|].
  pose proof (stage_keeps_model indeterminate entries mats s sh) as Hk.
  destruct s; cbn [issue poses fmap list_fmap snd];
    try (rewrite IH; unfold staged_model; rewrite Hk; reflexivity).
  - rewrite IH. unfold staged_model at 1. cbn [stage]. unfold ShaderManager.setMat4Value.
    rewrite lookup_insert_eq. reflexivity.
  - f_equal. apply IH.
Qed.
Lemma run_step_without_shader (indeterminate : OBJECT_MATERIAL.t) (s : step)
    (ids : list TEXTURE_INFO.t) (cnt : Z) (mats : list OBJECT_MATERIAL.t) (g : GL.state)
    (d : list (ShapeMeshes.draw * option ShaderManager.t)) :
  is_material s = false ->
  run_step indeterminate s (mkSceneManager None ids cnt mats g d)
  = Done (tt, mkSceneManager None ids cnt mats g
                (match s with Draw dr => d ++ [(dr, None)] | _ => d end)).
Proof. destruct s; intros H; try discriminate H; reflexivity. Qed.

Lemma run_steps_without_shader (indeterminate : OBJECT_MATERIAL.t) (l : list step) :
  forall (ids : list TEXTURE_INFO.t) (cnt : Z) (g : GL.state)
         (d : list (ShapeMeshes.draw * option ShaderManager.t)),
    run_steps indeterminate l (mkSceneManager None ids cnt [] g d)
    = Done (tt, mkSceneManager None ids cnt [] g
                  (d ++ ((fun m => (m, None)) <$> draws_of l))).
Proof.
  induction l as [|s l IH]; intros ids cnt g d.
  - cbn. rewrite app_nil_r. reflexivity.
  - cbn [run_steps]. destruct s;
      try (match goal with
           | |- context [run_step ?i ?s ≫= _] =>
               rewrite (bind_run _ _ _ _ _ (run_step_without_shader i s ids cnt [] g d eq_refl))
           end;
           cbv iota; rewrite IH; cbn [draws_of fmap list_fmap]; rewrite <- ?app_assoc; reflexivity).
    rewrite (bind_run _ _ _ (mkSceneManager None ids cnt [] g d) tt) by reflexivity.
    rewrite IH. reflexivity.
Qed.

Lemma run_steps_null_material (indeterminate : OBJECT_MATERIAL.t) (l : list step) :
  forall (ids : list TEXTURE_INFO.t) (cnt : Z) (m : OBJECT_MATERIAL.t)
         (ms : list OBJECT_MATERIAL.t) (g : GL.state)
         (d : list (ShapeMeshes.draw * option ShaderManager.t)),
    existsb is_material l = true ->
    run_steps indeterminate l (mkSceneManager None ids cnt (m :: ms) g d)
    = Crash NullPointer.
Proof.
  induction l as [|s l IH]; intros ids cnt m ms g d H; [discriminate H|].
  cbn [run_steps existsb] in *. destruct (is_material s) eqn:Es.
  - destruct s; try discriminate Es. reflexivity.
  - rewrite (bind_run _ _ _ _ _ (run_step_without_shader _ _ _ _ _ _ _ Es)).
    apply IH. exact H.
Qed.

Lemma Forall_staged_model (P : option glm.mat4 -> Prop)
    (l : list (ShapeMeshes.draw * option ShaderManager.t)) :
  Forall P (staged_model <$> l.*2) -> Forall (fun dr => P (staged_model dr.2)) l.
Proof.
  induction l as [|dr l IH]; intros H; [constructor|].
  cbn [fmap list_fmap] in H. apply Forall_cons in H as [H1 H2].
  constructor; [exact H1 | apply IH; exact H2].
Qed.

(** X25. With a shader manager and the registry within its array,
    [RenderScene] returns whatever textures and materials are registered:
    it issues the 36 draws of the six objects in order, each under a model
    matrix composed by [SetTransformations] during the call, and leaves the
    registry, the materials and the GL state as they were. *)
Theorem RenderScene_issues_its_draws (indeterminate : OBJECT_MATERIAL.t)
    (sh : ShaderManager.t) (ids : list TEXTURE_INFO.t) (cnt : Z)
    (mats : list OBJECT_MATERIAL.t) (g : GL.state)
    (d : list (ShapeMeshes.draw * option ShaderManager.t)) :
  registry_ok (mkSceneManager (Some sh) ids cnt mats g d) ->
  exists sh' issued,
    RenderScene indeterminate (mkSceneManager (Some sh) ids cnt mats g d)
    = Done (tt, mkSceneManager (Some sh') ids cnt mats g (d ++ issued)) /\
    issued.*1 = scene_draws /\
    Forall (fun dr => exists scaleXYZ rx ry rz positionXYZ,
                staged_model dr.2 = Some (composed scaleXYZ rx ry rz positionXYZ))
           issued.
Proof.
  intros Hok.
  eassert (Hl : forall st, RenderScene indeterminate st
                           = run_steps indeterminate ?[l] st).
  { unfold_renderers. read_steps indeterminate. }
  rewrite Hl, run_steps_with_shader by exact Hok. clear Hl.
  eexists _, _. split; [reflexivity|]. split.
  - rewrite issue_draws. reflexivity.
  - apply (Forall_staged_model
             (fun m => exists scaleXYZ rx ry rz positionXYZ,
                         m = Some (composed scaleXYZ rx ry rz positionXYZ))).
    rewrite issue_poses. cbn [poses app].
    repeat (apply Forall_cons; split; [do 5 eexists; reflexivity|]).
    apply Forall_nil. exact I.
Qed.

Lemma RenderScene_issues_its_draws_witness :
  registry_ok (new_scene (Some ∅)) /\
  exists sh' issued,
    RenderScene (OBJECT_MATERIAL.mk (glm.mkvec3 0 0 0) (glm.mkvec3 0 0 0) 0 "")
      (new_scene (Some ∅))
    = Done (tt, mkSceneManager (Some sh') (m_textureIDs (new_scene None)) 0 []
                  (GL.mkstate [] 0 []) issued) /\
    issued.*1 = scene_draws.
Proof.
  assert (Hok : registry_ok (new_scene (Some ∅))) by (unfold registry_ok; simpl; lia).
  split; [exact Hok|].
  destruct (RenderScene_issues_its_draws
              (OBJECT_MATERIAL.mk (glm.mkvec3 0 0 0) (glm.mkvec3 0 0 0) 0 "")
              ∅ (m_textureIDs (new_scene None)) 0 [] (GL.mkstate [] 0 []) [] Hok)
    as (sh' & issued & E & Hd & _).
  exists sh', issued. split; [exact E | exact Hd].
Defined.

(** X26. Without a shader manager [RenderScene] issues its 36 draws with no
    uniform staged as long as no material is defined; once one is defined,
    it faults in [SetShaderMaterial], on the way to the first draw of the
    background. *)
Theorem RenderScene_without_shader (indeterminate : OBJECT_MATERIAL.t)
    (ids : list TEXTURE_INFO.t) (cnt : Z) (mats : list OBJECT_MATERIAL.t) (g : GL.state)
    (d : list (ShapeMeshes.draw * option ShaderManager.t)) :
  RenderScene indeterminate (mkSceneManager None ids cnt mats g d)
  = match mats with
    | [] => Done (tt, mkSceneManager None ids cnt [] g
                        (d ++ ((fun m => (m, None)) <$> scene_draws)))
    | _ :: _ => Crash NullPointer
    end.
Proof.
  eassert (Hl : forall st, RenderScene indeterminate st
                           = run_steps indeterminate ?[l] st).
  { unfold_renderers. read_steps indeterminate. }
  rewrite Hl. clear Hl. destruct mats as [|m ms].
  - rewrite run_steps_without_shader. reflexivity.
  - apply run_steps_null_material. reflexivity.
Qed.
(** ** Moving an object by its origin *)

Section Origins.
Local Open Scope R_scope.
Import glm.

Lemma composed_shift (s p o : vec3) (rx ry rz : R) :
  composed s rx ry rz (mkvec3 (x3 p + x3 o) (y3 p + y3 o) (z3 p + z3 o))
  = mul (translate o) (composed s rx ry rz p).
Proof.
  set (p' := mkvec3 (x3 p + x3 o) (y3 p + y3 o) (z3 p + z3 o)).
  destruct (composed_linear_part s p' p rx ry rz) as (H0 & H1 & H2 & _).
  destruct (composed_linear_part s p p rx ry rz) as (_ & _ & _ & W0 & W1 & W2).
  pose proof (composed_col3 s p' rx ry rz) as C'.
  pose proof (composed_col3 s p rx ry rz) as C.
  transitivity (mkmat4 (col0 (composed s rx ry rz p')) (col1 (composed s rx ry rz p'))
                       (col2 (composed s rx ry rz p')) (col3 (composed s rx ry rz p'))).
  { destruct (composed s rx ry rz p'). reflexivity. }
  unfold mul at 1. apply mkmat4_ext.
  - rewrite H0. symmetry. apply translate_direction. exact W0.
  - rewrite H1. symmetry. apply translate_direction. exact W1.
  - rewrite H2. symmetry. apply translate_direction. exact W2.
  - rewrite C', C, translate_acts. reflexivity.
Qed.

End Origins.

Lemma stage_same_but_model (indeterminate : OBJECT_MATERIAL.t)
    (entries : list TEXTURE_INFO.t) (mats : list OBJECT_MATERIAL.t) (s : step)
    (sh1 sh0 : ShaderManager.t) :
  delete g_ModelName sh1 = delete g_ModelName sh0 ->
  match s with
  | Transform _ _ _ _ _ => True
  | _ => delete g_ModelName (stage indeterminate entries mats s sh1)
         = delete g_ModelName (stage indeterminate entries mats s sh0)
  end.
Proof.
  intros H. destruct s; cbn [stage]; try exact I; try exact H;
    unfold ShaderManager.setVec4Value, ShaderManager.setIntValue, ShaderManager.setVec2Value,
      ShaderManager.setSampler2DValue, ShaderManager.setFloatValue, ShaderManager.setVec3Value.
  - rewrite !delete_insert_ne by discriminate. rewrite H. reflexivity.
  - rewrite !delete_insert_ne by discriminate. rewrite H. reflexivity.
  - rewrite !delete_insert_ne by discriminate. rewrite H. reflexivity.
  - destruct mats; [exact H|]. cbv zeta.
    rewrite !delete_insert_ne by discriminate. rewrite H. reflexivity.
Qed.

Lemma issue_moved_staged (indeterminate : OBJECT_MATERIAL.t)
    (entries : list TEXTURE_INFO.t) (mats : list OBJECT_MATERIAL.t) (origin : glm.vec3)
    (l1 l0 : list step) :
  Forall2 (shift_step origin) l1 l0 ->
  forall (sh1 sh0 : ShaderManager.t) (m1 m0 : glm.mat4),
    sh1 !! g_ModelName = Some (ShaderManager.UMat4 m1) ->
    sh0 !! g_ModelName = Some (ShaderManager.UMat4 m0) ->
    m1 = glm.mul (glm.translate origin) m0 ->
    delete g_ModelName sh1 = delete g_ModelName sh0 ->
    Forall2 (moved_by origin) (issue indeterminate entries mats l1 sh1)
                              (issue indeterminate entries mats l0 sh0).
Proof.
  induction 1 as [|a b l1 l0 Hab _ IH]; intros sh1 sh0 m1 m0 E1 E0 Hm Hd; [constructor|].
  pose proof (stage_keeps_model indeterminate entries mats a sh1) as K1.
  pose proof (stage_keeps_model indeterminate entries mats b sh0) as K0.
  pose proof (stage_same_but_model indeterminate entries mats b sh1 sh0 Hd) as S.
  destruct a, b; cbn [shift_step] in Hab; try contradiction; try discriminate Hab;
    cbn [issue]; [|simplify_eq..].
  - destruct Hab as (-> & -> & -> & -> & ->).
    apply (IH _ _ (composed scaleXYZ0 rx0 ry0 rz0
                     (glm.mkvec3 (glm.x3 positionXYZ0 + glm.x3 origin)
                                 (glm.y3 positionXYZ0 + glm.y3 origin)
                                 (glm.z3 positionXYZ0 + glm.z3 origin)))
                  (composed scaleXYZ0 rx0 ry0 rz0 positionXYZ0)).
    + cbn [stage]. apply lookup_insert_eq.
    + cbn [stage]. apply lookup_insert_eq.
    + apply composed_shift.
    + cbn [stage]. unfold ShaderManager.setMat4Value.
      rewrite !delete_insert_eq. exact Hd.
  - eapply IH; [rewrite K1; eassumption | rewrite K0; eassumption | reflexivity | exact S].
  - eapply IH; [rewrite K1; eassumption | rewrite K0; eassumption | reflexivity | exact S].
  - eapply IH; [rewrite K1; eassumption | rewrite K0; eassumption | reflexivity | exact S].
  - eapply IH; [rewrite K1; eassumption | rewrite K0; eassumption | reflexivity | exact S].
  - constructor.
    + split; [reflexivity|]. do 4 eexists.
      split; [reflexivity|]. split; [reflexivity|]. split; [eassumption|].
      split; [eassumption|]. split; [reflexivity | assumption].
    + eapply IH; [eassumption | eassumption | reflexivity | assumption].
Qed.

Lemma issue_moved (indeterminate : OBJECT_MATERIAL.t)
    (entries : list TEXTURE_INFO.t) (mats : list OBJECT_MATERIAL.t) (origin : glm.vec3)
    (s : glm.vec3) (rx ry rz : R) (p1 p0 : glm.vec3) (l1 l0 : list step)
    (sh : ShaderManager.t) :
  shift_step origin (Transform s rx ry rz p1) (Transform s rx ry rz p0) ->
  Forall2 (shift_step origin) l1 l0 ->
  Forall2 (moved_by origin)
    (issue indeterminate entries mats (Transform s rx ry rz p1 :: l1) sh)
    (issue indeterminate entries mats (Transform s rx ry rz p0 :: l0) sh).
Proof.
  intros (_ & _ & _ & _ & ->) Hl. cbn [issue].
  apply (issue_moved_staged _ _ _ _ _ _ Hl _ _
           (composed s rx ry rz
              (glm.mkvec3 (glm.x3 p0 + glm.x3 origin)%R (glm.y3 p0 + glm.y3 origin)%R
                          (glm.z3 p0 + glm.z3 origin)%R))
           (composed s rx ry rz p0)).
  - cbn [stage]. apply lookup_insert_eq.
  - cbn [stage]. apply lookup_insert_eq.
  - apply composed_shift.
  - cbn [stage]. unfold ShaderManager.setMat4Value. rewrite !delete_insert_eq. reflexivity.
Qed.

Ltac shifted_steps :=
  repeat (apply List.Forall2_cons;
          [cbv [shift_step glm.x3 glm.y3 glm.z3];
           first [reflexivity
                 | repeat split; try reflexivity; f_equal; lra]|]);
  apply List.Forall2_nil.

Lemma FindMaterial_loop_known (tag : string) (mats : list OBJECT_MATERIAL.t)
    (a b : OBJECT_MATERIAL.t) :
  among (OBJECT_MATERIAL.tag <$> mats) tag = true ->
  OBJECT_MATERIAL.diffuseColor (FindMaterial_loop tag mats a)
  = OBJECT_MATERIAL.diffuseColor (FindMaterial_loop tag mats b) /\
  OBJECT_MATERIAL.specularColor (FindMaterial_loop tag mats a)
  = OBJECT_MATERIAL.specularColor (FindMaterial_loop tag mats b) /\
  OBJECT_MATERIAL.shininess (FindMaterial_loop tag mats a)
  = OBJECT_MATERIAL.shininess (FindMaterial_loop tag mats b).
Proof.
  unfold among. induction mats as [|m mats IH]; intros H; [discriminate H|].
  cbn [fmap list_fmap existsb FindMaterial_loop] in *.
  rewrite String.eqb_sym in H.
  destruct (String.eqb (OBJECT_MATERIAL.tag m) tag); [repeat split | apply IH; exact H].
Qed.

Lemma issue_known_materials (a b : OBJECT_MATERIAL.t) (entries : list TEXTURE_INFO.t)
    (mats : list OBJECT_MATERIAL.t) (l : list step) :
  materials_known (OBJECT_MATERIAL.tag <$> mats) l = true ->
  forall sh,
    issue a entries mats l sh = issue b entries mats l sh /\
    stage_all a entries mats l sh = stage_all b entries mats l sh.
Proof.
  unfold materials_known. induction l as [|s l IH]; intros H sh; [split; reflexivity|].
  cbn [forallb] in H. apply andb_prop in H as [Hs H].
  assert (E : stage a entries mats s sh = stage b entries mats s sh).
  { destruct s; try reflexivity. cbn [stage]. destruct mats as [|m mats]; [reflexivity|].
    cbv zeta. destruct (FindMaterial_loop_known tag (m :: mats) a b Hs) as (-> & -> & ->).
    reflexivity. }
  destruct (IH H (stage b entries mats s sh)) as [Hi Ha].
  destruct (IH H sh) as [Hi' Ha'].
  destruct s; cbn [issue stage_all]; rewrite ?E; try (split; assumption).
  split; [f_equal; exact Hi' | exact Ha'].
Qed.

Lemma materials_known_among (names tags : list string) (l : list step) :
  Forall (fun tag => among names tag = true) tags ->
  materials_known tags l = true -> materials_known names l = true.
Proof.
  intros Hall. unfold materials_known. induction l as [|s l IH]; [reflexivity|].
  cbn [forallb]. intros H. apply andb_prop in H as [Hs H]. rewrite (IH H), andb_true_r.
  destruct s; try reflexivity.
  unfold among in Hs. apply existsb_exists in Hs as (t & Hin & Ht).
  apply String.eqb_eq in Ht. subst t.
  rewrite List.Forall_forall in Hall. apply Hall. exact Hin.
Qed.

Lemma issue_provided_materials (a b : OBJECT_MATERIAL.t) (entries : list TEXTURE_INFO.t)
    (mats : list OBJECT_MATERIAL.t) (tags : list string) (l : list step) :
  materials_provided mats tags -> materials_known tags l = true ->
  forall sh,
    issue a entries mats l sh = issue b entries mats l sh /\
    stage_all a entries mats l sh = stage_all b entries mats l sh.
Proof.
  intros [-> | Hall] Hl.
  - clear Hl. induction l as [|s l IH]; intros sh; [split; reflexivity|].
    assert (E : stage a entries [] s sh = stage b entries [] s sh)
      by (destruct s; reflexivity).
    destruct (IH (stage b entries [] s sh)) as [Hi Ha].
    destruct (IH sh) as [Hi' Ha'].
    destruct s; cbn [issue stage_all]; rewrite ?E; try (split; assumption).
    split; [f_equal; exact Hi' | exact Ha'].
  - apply issue_known_materials. apply materials_known_among with tags; assumption.
Qed.

Lemma materials_provided_objects (mats : list OBJECT_MATERIAL.t) :
  materials_provided mats scene_materials -> materials_provided mats object_materials.
Proof.
  intros [-> | H]; [left; reflexivity | right].
  unfold scene_materials in H. apply Forall_cons in H as [_ H]. exact H.
Qed.

Ltac moved_renderer a b Hok Hmats :=
  let H1 := fresh "H" in
  let H0 := fresh "H" in
  cbv beta;
  match goal with
  | |- exists sh1 sh0 at_origin at_zero,
         ?r1 ?st = _ /\ ?r0 ?st = _ /\ _ =>
      eassert (H1 : forall st', r1 st' = run_steps a ?[l1] st')
        by (unfold_renderers; read_steps a);
      eassert (H0 : forall st', r0 st' = run_steps b ?[l0] st')
        by (unfold_renderers; read_steps b);
      rewrite H1, H0, !run_steps_with_shader by exact Hok; clear H1 H0;
      match goal with
      | |- context [issue b ?e ?m ?l ?s] =>
          destruct (issue_provided_materials b a e m object_materials l Hmats eq_refl s)
            as [-> ->]
      end;
      eexists _, _, _, _; split; [reflexivity|]; split; [reflexivity|];
      apply issue_moved;
      [cbv [shift_step glm.x3 glm.y3 glm.z3]; repeat split; f_equal; lra
      | shifted_steps]
  end.

(** X27. The origin handed to an object renderer moves the object rigidly.
    On a material registry that is empty or defines the tags the object
    renderers ask for, the pacifier, the cup, the bottle, the jar and the
    lotion drawn at (x, y, z) are the draws of the same object at (0, 0, 0),
    mesh for mesh, with the translation by (x, y, z) applied after each
    model matrix, and with every other uniform unchanged, whatever the
    uninitialised local of [SetShaderMaterial] holds in either run. *)
Theorem objects_move_with_their_origin (indeterminate indeterminate' : OBJECT_MATERIAL.t)
    (x y z : R) (sh : ShaderManager.t) (ids : list TEXTURE_INFO.t) (cnt : Z)
    (mats : list OBJECT_MATERIAL.t) (g : GL.state)
    (d : list (ShapeMeshes.draw * option ShaderManager.t)) :
  registry_ok (mkSceneManager (Some sh) ids cnt mats g d) ->
  materials_provided mats object_materials ->
  Forall (fun render : OBJECT_MATERIAL.t -> R -> R -> R -> M unit =>
            exists sh1 sh0 at_origin at_zero,
              render indeterminate x y z (mkSceneManager (Some sh) ids cnt mats g d)
              = Done (tt, mkSceneManager (Some sh1) ids cnt mats g (d ++ at_origin)) /\
              render indeterminate' 0%R 0%R 0%R (mkSceneManager (Some sh) ids cnt mats g d)
              = Done (tt, mkSceneManager (Some sh0) ids cnt mats g (d ++ at_zero)) /\
              Forall2 (moved_by (glm.mkvec3 x y z)) at_origin at_zero)
         [RenderPacifier; fun _ => RenderCup; RenderBottle; RenderJam; RenderBabyLotion].
Proof.
  intros Hok Hmats.
  repeat (apply Forall_cons; split;
          [moved_renderer indeterminate indeterminate' Hok Hmats|]).
  apply Forall_nil. exact I.
Qed.

Lemma objects_move_with_their_origin_witness :
  let st := mkSceneManager (Some ∅) (m_textureIDs (new_scene None)) 0 defined_materials
              (GL.mkstate [] 0 []) [] in
  let left_over := OBJECT_MATERIAL.mk (glm.mkvec3 0 0 0) (glm.mkvec3 0 0 0) 0 "" in
  let left_over' := OBJECT_MATERIAL.mk (glm.mkvec3 1 1 1) (glm.mkvec3 1 1 1) 1 "x" in
  registry_ok st /\
  materials_provided defined_materials object_materials /\
  exists sh1 sh0 at_origin at_zero,
    RenderBottle left_over (-9.0)%R 0.005%R (-7.0)%R st
    = Done (tt, mkSceneManager (Some sh1) (m_textureIDs (new_scene None)) 0
                  defined_materials (GL.mkstate [] 0 []) ([] ++ at_origin)) /\
    RenderBottle left_over' 0%R 0%R 0%R st
    = Done (tt, mkSceneManager (Some sh0) (m_textureIDs (new_scene None)) 0
                  defined_materials (GL.mkstate [] 0 []) ([] ++ at_zero)) /\
    Forall2 (moved_by (glm.mkvec3 (-9.0) 0.005 (-7.0))) at_origin at_zero.
Proof.
  intros st left_over left_over'.
  assert (Hok : registry_ok st) by (unfold registry_ok; simpl; lia).
  assert (Hmats : materials_provided defined_materials object_materials)
    by (right; repeat constructor).
  split; [exact Hok|]. split; [exact Hmats|].
  pose proof (objects_move_with_their_origin left_over left_over'
                (-9.0)%R 0.005%R (-7.0)%R
                ∅ (m_textureIDs (new_scene None)) 0 defined_materials (GL.mkstate [] 0 []) []
                Hok Hmats) as H.
  apply Forall_cons in H as [_ H]. apply Forall_cons in H as [_ H].
  apply Forall_cons in H as [H _]. exact H.
Defined.

(** ** One frame after another *)

Lemma among_app (a b : list string) (name : string) :
  among (a ++ b) name = among a name || among b name.
Proof. unfold among. apply existsb_app. Qed.

Lemma among_filter (f : string -> bool) (names : list string) (name : string) :
  among (List.filter f names) name = among names name && f name.
Proof.
  unfold among. induction names as [|n names IH]; [reflexivity|].
  cbn [List.filter existsb]. destruct (f n) eqn:Ef; cbn [existsb]; rewrite IH;
    destruct (String.eqb_spec name n) as [->|_]; rewrite ?Ef; cbn [orb andb];
    rewrite ?andb_false_r; reflexivity.
Qed.

Lemma lookup_insert_same {A} (m m' : gmap string A) (key name : string) (v : A) :
  (String.eqb name key = false -> m !! name = m' !! name) ->
  <[key := v]> m !! name = <[key := v]> m' !! name.
Proof.
  intros H. destruct (String.eqb_spec name key) as [->|Hne].
  - rewrite !lookup_insert_eq. reflexivity.
  - rewrite !lookup_insert_ne by congruence. apply H. reflexivity.
Qed.

Lemma lookup_insert_other {A} (m : gmap string A) (key name : string) (v : A) :
  String.eqb name key = false -> <[key := v]> m !! name = m !! name.
Proof.
  intros H. apply lookup_insert_ne. intros ->. rewrite String.eqb_refl in H. discriminate H.
Qed.

(** A statement touches the uniforms it writes and no other. *)
Lemma stage_other_uniforms (indeterminate : OBJECT_MATERIAL.t)
    (entries : list TEXTURE_INFO.t) (mats : list OBJECT_MATERIAL.t) (s : step)
    (sh : ShaderManager.t) (name : string) :
  among (writes mats s) name = false ->
  stage indeterminate entries mats s sh !! name = sh !! name.
Proof.
  unfold among. destruct s; cbn [writes existsb stage]; intros H;
    unfold ShaderManager.setMat4Value, ShaderManager.setVec4Value, ShaderManager.setIntValue,
      ShaderManager.setVec2Value, ShaderManager.setSampler2DValue,
      ShaderManager.setFloatValue, ShaderManager.setVec3Value;
    try reflexivity.
  - apply orb_false_elim in H as [H1 _]. rewrite lookup_insert_other by exact H1. reflexivity.
  - apply orb_false_elim in H as [H1 H]. apply orb_false_elim in H as [H2 _].
    rewrite !lookup_insert_other by assumption. reflexivity.
  - apply orb_false_elim in H as [H1 _]. rewrite lookup_insert_other by exact H1. reflexivity.
  - apply orb_false_elim in H as [H1 H]. apply orb_false_elim in H as [H2 _].
    rewrite !lookup_insert_other by assumption. reflexivity.
  - destruct mats; [reflexivity|]. cbn [existsb] in H. cbv zeta.
    apply orb_false_elim in H as [H1 H]. apply orb_false_elim in H as [H2 H].
    apply orb_false_elim in H as [H3 _].
    rewrite !lookup_insert_other by assumption. reflexivity.
Qed.

(** What it writes does not depend on what was there. *)
Lemma stage_agrees (indeterminate : OBJECT_MATERIAL.t)
    (entries : list TEXTURE_INFO.t) (mats : list OBJECT_MATERIAL.t) (s : step)
    (sh sh' : ShaderManager.t) (name : string) :
  (among (writes mats s) name = false -> sh !! name = sh' !! name) ->
  stage indeterminate entries mats s sh !! name
  = stage indeterminate entries mats s sh' !! name.
Proof.
  unfold among. destruct s; cbn [writes existsb stage]; intros H;
    unfold ShaderManager.setMat4Value, ShaderManager.setVec4Value, ShaderManager.setIntValue,
      ShaderManager.setVec2Value, ShaderManager.setSampler2DValue,
      ShaderManager.setFloatValue, ShaderManager.setVec3Value.
  - apply lookup_insert_same. intros H1. apply H. rewrite H1. reflexivity.
  - apply lookup_insert_same. intros H2. apply lookup_insert_same. intros H1.
    apply H. rewrite H1, H2. reflexivity.
  - apply lookup_insert_same. intros H1. apply H. rewrite H1. reflexivity.
  - apply lookup_insert_same. intros H2. apply lookup_insert_same. intros H1.
    apply H. rewrite H1, H2. reflexivity.
  - destruct mats; [apply H; reflexivity|]. cbn [existsb] in H. cbv zeta.
    apply lookup_insert_same. intros H3. apply lookup_insert_same. intros H2.
    apply lookup_insert_same. intros H1. apply H. rewrite H1, H2, H3. reflexivity.
  - apply H. reflexivity.
Qed.

Lemma stage_all_other_uniforms (indeterminate : OBJECT_MATERIAL.t)
    (entries : list TEXTURE_INFO.t) (mats : list OBJECT_MATERIAL.t) (l : list step) :
  forall (sh : ShaderManager.t) (name : string),
    among (written mats l) name = false ->
    stage_all indeterminate entries mats l sh !! name = sh !! name.
Proof.
  induction l as [|s l IH]; intros sh name H; [reflexivity|].
  unfold written in H. cbn [fmap list_fmap concat] in H. rewrite among_app in H.
  apply orb_false_elim in H as [H1 H2]. cbn [stage_all].
  rewrite IH by exact H2. apply stage_other_uniforms. exact H1.
Qed.

(** Two shader states that agree on every uniform but the pending ones lead
    to the same draws and the same final state, when the pending ones are
    all written before the first draw. *)
Lemma issue_settled (indeterminate : OBJECT_MATERIAL.t)
    (entries : list TEXTURE_INFO.t) (mats : list OBJECT_MATERIAL.t) (l : list step) :
  forall (pending : list string) (sh sh' : ShaderManager.t),
    (forall name, among pending name = false -> sh !! name = sh' !! name) ->
    settled mats l pending = true ->
    issue indeterminate entries mats l sh = issue indeterminate entries mats l sh' /\
    stage_all indeterminate entries mats l sh = stage_all indeterminate entries mats l sh'.
Proof.
  assert (Hnil : forall (pending : list string) (sh sh' : ShaderManager.t),
             (forall name, among pending name = false -> sh !! name = sh' !! name) ->
             match pending with [] => true | _ :: _ => false end = true -> sh = sh').
  { intros [|? ?] sh sh' H Hp; [|discriminate Hp]. apply map_eq. intros name.
    apply H. reflexivity. }
  induction l as [|s l IH]; intros pending sh sh' Hagree Hs.
  - rewrite (Hnil _ _ _ Hagree Hs). split; reflexivity.
  - assert (Hstep : forall name,
               among (List.filter (fun n => negb (among (writes mats s) n)) pending) name
               = false ->
               stage indeterminate entries mats s sh !! name
               = stage indeterminate entries mats s sh' !! name).
    { intros name Hn. apply stage_agrees. intros Hw. apply Hagree.
      rewrite among_filter, Hw in Hn. cbn in Hn. rewrite andb_true_r in Hn. exact Hn. }
    destruct s; cbn [settled issue stage_all] in *;
      try (apply (IH _ _ _ Hstep Hs)).
    rewrite (Hnil _ _ _ Hagree Hs). split; reflexivity.
Qed.

(** X28. A frame leaves nothing behind that the next frame depends on.  On a
    material registry that is empty or defines the tags the scene asks for,
    from the state [RenderScene] ends in, [RenderScene] issues the same 36
    draws again, each under the same uniform values as in the first frame,
    and ends in the same shader state, whatever the uninitialised local of
    [SetShaderMaterial] holds in either frame; every uniform a draw of the
    scene is issued under is written by the scene before its first draw. *)
Theorem RenderScene_again_issues_the_same_draws (indeterminate : OBJECT_MATERIAL.t)
    (sh : ShaderManager.t) (ids : list TEXTURE_INFO.t) (cnt : Z)
    (mats : list OBJECT_MATERIAL.t) (g : GL.state)
    (d : list (ShapeMeshes.draw * option ShaderManager.t)) :
  registry_ok (mkSceneManager (Some sh) ids cnt mats g d) ->
  materials_provided mats scene_materials ->
  exists sh' issued,
    RenderScene indeterminate (mkSceneManager (Some sh) ids cnt mats g d)
    = Done (tt, mkSceneManager (Some sh') ids cnt mats g (d ++ issued)) /\
    issued.*1 = scene_draws /\
    forall indeterminate' d',
      RenderScene indeterminate' (mkSceneManager (Some sh') ids cnt mats g d')
      = Done (tt, mkSceneManager (Some sh') ids cnt mats g (d' ++ issued)).
Proof.
  intros Hok Hmats.
  eassert (Hl : forall st, RenderScene indeterminate st
                           = run_steps indeterminate ?[l] st).
  { unfold_renderers. read_steps indeterminate. }
  match type of Hl with
  | forall st, _ = run_steps _ ?steps st => set (l := steps) in Hl
  end.
  assert (Hl' : forall ind' st, RenderScene ind' st = run_steps ind' l st).
  { intros ind'. unfold_renderers. subst l. read_steps ind'. }
  rewrite Hl, run_steps_with_shader by exact Hok.
  eexists _, _. split; [reflexivity|]. split; [apply issue_draws|].
  intros indeterminate' d'.
  rewrite Hl', run_steps_with_shader by exact Hok.
  match goal with
  | |- context [issue indeterminate' ?e ?m l ?s] =>
      destruct (issue_provided_materials indeterminate' indeterminate e m scene_materials l
                  Hmats eq_refl s) as [-> ->]
  end.
  destruct (issue_settled indeterminate (take (Z.to_nat cnt) ids) mats l (written mats l)
              (stage_all indeterminate (take (Z.to_nat cnt) ids) mats l sh) sh)
    as [Hi Hs].
  - intros name Hn. apply stage_all_other_uniforms. exact Hn.
  - destruct mats; reflexivity.
  - rewrite Hi, Hs. reflexivity.
Qed.

Lemma RenderScene_again_issues_the_same_draws_witness :
  let ids := m_textureIDs (new_scene None) in
  let g := GL.mkstate [] 0 [] in
  let left_over := OBJECT_MATERIAL.mk (glm.mkvec3 0 0 0) (glm.mkvec3 0 0 0) 0 "" in
  let left_over' := OBJECT_MATERIAL.mk (glm.mkvec3 1 1 1) (glm.mkvec3 1 1 1) 1 "x" in
  registry_ok (mkSceneManager (Some ∅) ids 0 defined_materials g []) /\
  materials_provided defined_materials scene_materials /\
  exists sh' issued,
    RenderScene left_over (mkSceneManager (Some ∅) ids 0 defined_materials g [])
    = Done (tt, mkSceneManager (Some sh') ids 0 defined_materials g ([] ++ issued)) /\
    RenderScene left_over' (mkSceneManager (Some sh') ids 0 defined_materials g ([] ++ issued))
    = Done (tt, mkSceneManager (Some sh') ids 0 defined_materials g
                  (([] ++ issued) ++ issued)).
Proof.
  intros ids g left_over left_over'.
  assert (Hok : registry_ok (mkSceneManager (Some ∅) ids 0 defined_materials g []))
    by (unfold registry_ok; simpl; lia).
  assert (Hmats : materials_provided defined_materials scene_materials)
    by (right; repeat constructor).
  split; [exact Hok|]. split; [exact Hmats|].
  destruct (RenderScene_again_issues_the_same_draws left_over
              ∅ ids 0 defined_materials g [] Hok Hmats)
    as (sh' & issued & E & _ & Hagain).
  exists sh', issued. split; [exact E | apply Hagain].
Defined.

(** ** The prepared scene *)

Lemma issue_samplers (indeterminate : OBJECT_MATERIAL.t) (entries : list TEXTURE_INFO.t)
    (mats : list OBJECT_MATERIAL.t) (l : list step) :
  forall sh, staged_sampler <$> (issue indeterminate entries mats l sh).*2
             = samplers entries l (staged_sampler (Some sh)).
Proof.
  induction l as [|s l IH]; intros sh; [reflexivity|].
  destruct s; cbn [issue samplers fmap list_fmap snd];
    try (rewrite IH; unfold staged_sampler;
         rewrite (stage_other_uniforms _ _ _ _ _ g_TextureValueName)
           by (destruct mats; reflexivity);
         reflexivity).
  - rewrite IH. unfold staged_sampler at 1. cbn [stage].
    unfold ShaderManager.setSampler2DValue. rewrite lookup_insert_eq. reflexivity.
  - f_equal. apply IH.
Qed.

Lemma samplers_same_tags (e1 e2 : list TEXTURE_INFO.t) (l : list step) :
  TEXTURE_INFO.tag <$> e1 = TEXTURE_INFO.tag <$> e2 ->
  forall current, samplers e1 l current = samplers e2 l current.
Proof.
  intros Ht. induction l as [|s l IH]; intros current; [reflexivity|].
  destruct s; cbn [samplers]; rewrite ?IH; try reflexivity.
  rewrite (first_slot_same_tags tag e1 e2 0 Ht). reflexivity.
Qed.

Lemma Forall_staged_sampler (P : option Z -> Prop)
    (l : list (ShapeMeshes.draw * option ShaderManager.t)) :
  Forall P (staged_sampler <$> l.*2) -> Forall (fun dr => P (staged_sampler dr.2)) l.
Proof.
  induction l as [|dr l IH]; intros H; [constructor|].
  cbn [fmap list_fmap] in H. apply Forall_cons in H as [H1 H2].
  constructor; [exact H1 | apply IH; exact H2].
Qed.

(** X29. [PrepareScene] provides what [RenderScene] asks for.  With a
    shader manager, an empty texture registry of at least thirteen slots, no
    material, at least thirteen texture units and thirteen files that
    decode, [PrepareScene] returns with the seven meshes loaded, and
    [RenderScene] then issues its draws so that the sampler of every draw
    designates the slot of a loaded texture and the unit to which that
    texture is bound (never the unit -1 of a tag that is not found); every material it asks for is
    defined, so the uninitialised local of [SetShaderMaterial] never reaches
    the shader. *)
Theorem PrepareScene_provides_for_RenderScene
    (stbi_load : string -> option GL.stbi_image) (fresh_texture_name : GL.state -> Z)
    (max_texture_units : Z) (indeterminate : OBJECT_MATERIAL.t) (c : Context)
    (sh : ShaderManager.t) :
  all_decodable stbi_load scene_textures ->
  m_pShaderManager (scene c) = Some sh ->
  m_loadedTextures (scene c) = 0 ->
  m_objectMaterials (scene c) = [] ->
  13 <= Z.of_nat (length (m_textureIDs (scene c))) ->
  13 <= max_texture_units ->
  exists c' st' issued,
    PrepareScene stbi_load fresh_texture_name max_texture_units c = Done (tt, c') /\
    loaded_meshes c' = loaded_meshes c ++ scene_meshes /\
    RenderScene indeterminate (scene c') = Done (tt, st') /\
    drawn st' = drawn (scene c) ++ issued /\
    issued.*1 = scene_draws /\
    Forall (fun dr => exists slot e,
                staged_sampler dr.2 = Some slot /\
                0 <= slot < m_loadedTextures (scene c') /\
                m_textureIDs (scene c') !! Z.to_nat slot = Some e /\
                unit_binding c' slot = TEXTURE_INFO.ID e)
           issued /\
    forall indeterminate', RenderScene indeterminate' (scene c') = Done (tt, st').
Proof.
  intros Hall Hsh Hzero Hmats Hslots Hunits.
  destruct (LoadSceneTextures_loads_all stbi_load fresh_texture_name max_texture_units c
              Hall Hzero Hslots Hunits)
    as (c1 & E1 & Hcnt & Htags & Hs1 & Hm1 & Hfind).
  destruct c1 as [[sh1 ids1 cnt1 mats1 g1 d1] a1 o1 ml1].
  destruct Hs1 as (Hsh1 & Hmats1 & Hd1 & Hlen1).
  cbn [scene m_pShaderManager m_textureIDs m_loadedTextures m_objectMaterials gl drawn
       loaded_meshes] in *.
  rewrite Hsh in Hsh1. rewrite Hmats in Hmats1. subst sh1 mats1 d1 cnt1 ml1.
  set (d0 := drawn (scene c)) in *. set (ml0 := loaded_meshes c) in *.
  clearbody d0 ml0.
  eassert (Hl : forall st, RenderScene indeterminate st
                           = run_steps indeterminate ?[l] st).
  { unfold_renderers. read_steps indeterminate. }
  match type of Hl with
  | forall st, _ = run_steps _ ?steps st => set (l := steps) in Hl
  end.
  assert (Hl' : forall ind' st, RenderScene ind' st = run_steps ind' l st).
  { intros ind'. unfold_renderers. subst l. read_steps ind'. }
  eexists _, _, _. split.
  { unfold PrepareScene. rewrite (C_bind_run _ _ c _ tt E1).
    cbv [mbind C_bind on_scene DefineObjectMaterials push_material M_bind bind mesh_load
         SetupSceneLights shader_call scene active_texture other_units loaded_meshes
         m_pShaderManager m_textureIDs m_loadedTextures m_objectMaterials gl drawn].
    cbn [app]. reflexivity. }
  cbn [scene loaded_meshes].
  split; [rewrite <- !app_assoc; reflexivity|].
  assert (Hok : forall shx mats,
             registry_ok (mkSceneManager (Some shx) ids1 13 mats g1 d0)).
  { intros shx mats. unfold registry_ok. cbn [m_loadedTextures m_textureIDs]. lia. }
  split.
  { rewrite Hl. rewrite run_steps_with_shader by (apply Hok). reflexivity. }
  cbn [drawn]. split; [reflexivity|].
  split; [apply issue_draws|].
  split.
  - apply (Forall_staged_sampler
             (fun o => exists slot e, o = Some slot /\ 0 <= slot < 13 /\
                         ids1 !! Z.to_nat slot = Some e /\ _ = TEXTURE_INFO.ID e)).
    rewrite issue_samplers.
    rewrite (samplers_same_tags _ ((fun t => TEXTURE_INFO.mk 0 t) <$> scene_textures.*2))
      by (unfold registered in Htags; cbn [m_loadedTextures m_textureIDs] in Htags;
          rewrite Htags, <- list_fmap_compose; reflexivity).
    eassert (Hs : forall current,
                samplers ((fun t => TEXTURE_INFO.mk 0 t) <$> scene_textures.*2) l current
                = ?[r]).
    { intros current. subst l. lazy. reflexivity. }
    rewrite Hs. clear Hs.
    assert (Hunit : forall k : nat, (k < 13)%nat ->
               exists slot e, Some (Z.of_nat k) = Some slot /\ 0 <= slot < 13 /\
                 ids1 !! Z.to_nat slot = Some e /\
                 unit_binding (mkContext (mkSceneManager (Some sh) ids1 13 [] g1 d0)
                                         a1 o1 ml0)
                              slot = TEXTURE_INFO.ID e).
    { intros k Hk.
      destruct (lookup_lt_is_Some_2 scene_textures k) as [[filename tag] Hft];
        [cbn [scene_textures length]; exact Hk|].
      destruct (Hfind k filename tag Hft) as (_ & e & image & He & _ & _ & _ & Hu).
      exists (Z.of_nat k), e. split; [reflexivity|]. split; [lia|].
      rewrite Nat2Z.id. split; [exact He | exact Hu]. }
    repeat (apply Forall_cons; split;
            [match goal with
             | |- exists slot e, Some ?z = Some slot /\ _ =>
                 apply (Hunit (Z.to_nat z)); cbn; lia
             end|]).
    apply Forall_nil. exact I.
  - intros ind'. rewrite Hl'. rewrite run_steps_with_shader by (apply Hok).
    match goal with
    | |- Done (tt, mkSceneManager (Some (stage_all _ ?e ?m _ ?s)) _ _ _ _ _) = _ =>
        destruct (issue_known_materials ind' indeterminate e m l eq_refl s) as [-> ->]
    end.
    reflexivity.
Qed.

Lemma PrepareScene_provides_for_RenderScene_witness :
  let c := fresh_context (new_scene (Some ∅)) in
  let indeterminate := OBJECT_MATERIAL.mk (glm.mkvec3 0 0 0) (glm.mkvec3 0 0 0) 0 "" in
  all_decodable every_file_rgb scene_textures /\
  m_pShaderManager (scene c) = Some ∅ /\
  m_loadedTextures (scene c) = 0 /\
  m_objectMaterials (scene c) = [] /\
  13 <= Z.of_nat (length (m_textureIDs (scene c))) /\
  13 <= 16 /\
  exists c' st' issued,
    PrepareScene every_file_rgb counting_names 16 c = Done (tt, c') /\
    RenderScene indeterminate (scene c') = Done (tt, st') /\
    drawn st' = issued /\
    Forall (fun dr => exists slot e,
                staged_sampler dr.2 = Some slot /\
                0 <= slot < m_loadedTextures (scene c') /\
                m_textureIDs (scene c') !! Z.to_nat slot = Some e /\
                unit_binding c' slot = TEXTURE_INFO.ID e)
           issued.
Proof.
  intros c indeterminate.
  assert (Hall : all_decodable every_file_rgb scene_textures).
  { unfold all_decodable. apply Forall_forall. intros file _.
    exists (GL.mkimage 64 64 3). split; [reflexivity | left; reflexivity]. }
  assert (Hsh : m_pShaderManager (scene c) = Some ∅) by reflexivity.
  assert (Hzero : m_loadedTextures (scene c) = 0) by reflexivity.
  assert (Hmats : m_objectMaterials (scene c) = []) by reflexivity.
  assert (Hslots : 13 <= Z.of_nat (length (m_textureIDs (scene c)))) by (simpl; lia).
  assert (Hunits : 13 <= 16) by lia.
  split; [exact Hall|]. split; [exact Hsh|]. split; [exact Hzero|]. split; [exact Hmats|].
  split; [exact Hslots|]. split; [exact Hunits|].
  destruct (PrepareScene_provides_for_RenderScene every_file_rgb counting_names 16
              indeterminate c ∅ Hall Hsh Hzero Hmats Hslots Hunits)
    as (c' & st' & issued & E & _ & Er & Hd & _ & Hs & _).
  exists c', st', issued. split; [exact E|]. split; [exact Er|].
  split; [exact Hd | exact Hs].
Defined.

(** * Further properties: the frame of the view manager *)

Section Frames.
Local Open Scope R_scope.

Variable members : Type.
Variable ProcessKeyboard : Camera.Camera_Movement -> R -> Camera.t members -> Camera.t members.
Variable GetViewMatrix : Camera.t members -> glm.mat4.
Variable ortho : R -> R -> R -> R -> R -> R -> glm.mat4.
Variable perspective : R -> R -> R -> R -> glm.mat4.

Lemma V_bind_run {A B} (m : View.V members A) (k : A -> View.V members B)
    (v v' : View.state members) (a : A) :
  m v = Done (a, v') -> (m ≫= k) v = k a v'.
Proof. intros H. unfold mbind, View.V_bind. rewrite H. reflexivity. Qed.

Lemma key_closes (rest : View.V members unit) (cb : ViewManager.globals) (dt lf : R)
    (bo : bool) (cam : Camera.t members) (pr : GLFW.key -> bool) (cl : bool)
    (sh : option ShaderManager.t) :
  (key ← View.glfwGetKey members GLFW.KEY_ESCAPE;
   (if (key : bool) then View.glfwSetWindowShouldClose members true else mret tt);;
   rest) (View.mkstate cb dt lf bo cam (Some (GLFW.mkwindow pr cl)) sh)
  = rest (View.mkstate cb dt lf bo cam
            (Some (GLFW.mkwindow pr (if pr GLFW.KEY_ESCAPE then true else cl))) sh).
Proof.
  unfold mbind, View.V_bind, View.glfwGetKey. cbn [View.m_pWindow GLFW.pressed].
  destruct (pr GLFW.KEY_ESCAPE); reflexivity.
Qed.

Lemma key_moves (key_asked : GLFW.key) (direction : Camera.Camera_Movement)
    (rest : View.V members unit) (cb : ViewManager.globals) (dt lf : R)
    (bo : bool) (cam : Camera.t members) (w : GLFW.window)
    (sh : option ShaderManager.t) :
  (key ← View.glfwGetKey members key_asked;
   (if (key : bool) then View.move members ProcessKeyboard direction else mret tt);;
   rest) (View.mkstate cb dt lf bo cam (Some w) sh)
  = rest (View.mkstate cb dt lf bo
            ((if GLFW.pressed w key_asked
              then ProcessKeyboard direction (dt * Q2R (float_value (ViewManager.cameraSpeed cb)))
              else fun c => c) cam)
            (Some w) sh).
Proof.
  unfold mbind, View.V_bind, View.glfwGetKey. cbn [View.m_pWindow].
  destruct (GLFW.pressed w key_asked); reflexivity.
Qed.

Lemma key_projects (key_asked : GLFW.key) (value : bool)
    (rest : View.V members unit) (cb : ViewManager.globals) (dt lf : R)
    (bo : bool) (cam : Camera.t members) (w : GLFW.window)
    (sh : option ShaderManager.t) :
  (key ← View.glfwGetKey members key_asked;
   (if (key : bool) then View.set_bOrthographicProjection members value else mret tt);;
   rest) (View.mkstate cb dt lf bo cam (Some w) sh)
  = rest (View.mkstate cb dt lf (if GLFW.pressed w key_asked then value else bo) cam
            (Some w) sh).
Proof.
  unfold mbind, View.V_bind, View.glfwGetKey. cbn [View.m_pWindow].
  destruct (GLFW.pressed w key_asked); reflexivity.
Qed.

Lemma key_poses (key_asked : GLFW.key) (position up front : glm.vec3)
    (rest : View.V members unit) (cb : ViewManager.globals) (dt lf : R)
    (bo : bool) (cam : Camera.t members) (w : GLFW.window)
    (sh : option ShaderManager.t) :
  (key ← View.glfwGetKey members key_asked;
   (if (key : bool) then
      View.camera_call members (View.set_Position members position);;
      View.camera_call members (View.set_Up members up);;
      View.camera_call members (View.set_Front members front)
    else mret tt);;
   rest) (View.mkstate cb dt lf bo cam (Some w) sh)
  = rest (View.mkstate cb dt lf bo
            ((if GLFW.pressed w key_asked then with_pose position up front
              else fun c => c) cam)
            (Some w) sh).
Proof.
  unfold mbind, View.V_bind, View.glfwGetKey. cbn [View.m_pWindow].
  destruct (GLFW.pressed w key_asked); reflexivity.
Qed.

Lemma last_key_poses (key_asked : GLFW.key) (position up front : glm.vec3)
    (cb : ViewManager.globals) (dt lf : R)
    (bo : bool) (cam : Camera.t members) (w : GLFW.window)
    (sh : option ShaderManager.t) :
  (key ← View.glfwGetKey members key_asked;
   if (key : bool) then
     View.camera_call members (View.set_Position members position);;
     View.camera_call members (View.set_Up members up);;
     View.camera_call members (View.set_Front members front)
   else mret tt) (View.mkstate cb dt lf bo cam (Some w) sh)
  = Done (tt, View.mkstate cb dt lf bo
                ((if GLFW.pressed w key_asked then with_pose position up front
                  else fun c => c) cam)
                (Some w) sh).
Proof.
  unfold mbind, View.V_bind, View.glfwGetKey. cbn [View.m_pWindow].
  destruct (GLFW.pressed w key_asked); reflexivity.
Qed.

Lemma normalize_axis (x y z : R) :
  x * x + y * y + z * z = 1 -> glm.normalize (glm.mkvec3 x y z) = glm.mkvec3 x y z.
Proof.
  intros H. unfold glm.normalize, glm.inversesqrt, glm.dot. cbn [glm.x3 glm.y3 glm.z3].
  rewrite H, sqrt_1. f_equal; field.
Qed.

Lemma preset_views_decide (w : GLFW.window) (c : Camera.t members) :
  (if GLFW.pressed w GLFW.KEY_4
   then with_pose (glm.mkvec3 (-20.0) 8.0 20.0) (glm.mkvec3 0.0 1.0 0.0)
                  (glm.normalize (glm.mkvec3 1.0 (-0.3) (-1.0)))
   else fun c => c)
    ((if GLFW.pressed w GLFW.KEY_3
      then with_pose (glm.mkvec3 0.0 30.0 0.01) (glm.mkvec3 0.0 0.0 (-1.0))
                     (glm.mkvec3 0.0 (-1.0) 0.0)
      else fun c => c)
       ((if GLFW.pressed w GLFW.KEY_2
         then with_pose (glm.mkvec3 25.0 5.0 0.0) (glm.mkvec3 0.0 1.0 0.0)
                        (glm.normalize (glm.mkvec3 (-1.0) 0.0 0.0))
         else fun c => c)
          ((if GLFW.pressed w GLFW.KEY_1
            then with_pose (glm.mkvec3 0.0 5.0 25.0) (glm.mkvec3 0.0 1.0 0.0)
                           (glm.normalize (glm.mkvec3 0.0 0.0 (-1.0)))
            else fun c => c) c)))
  = preset_view w c.
Proof.
  assert (E1 : glm.normalize (glm.mkvec3 0.0 0.0 (-1.0)) = glm.mkvec3 0 0 (-1)).
  { replace 0.0 with 0 by lra. replace (-1.0) with (-1) by lra.
    apply normalize_axis. lra. }
  assert (E2 : glm.normalize (glm.mkvec3 (-1.0) 0.0 0.0) = glm.mkvec3 (-1) 0 0).
  { replace 0.0 with 0 by lra. replace (-1.0) with (-1) by lra.
    apply normalize_axis. lra. }
  assert (E3 : glm.mkvec3 1.0 (-0.3) (-1.0) = glm.mkvec3 1 (-0.3) (-1)) by (f_equal; lra).
  assert (N : forall a b c a' b' c' : R, a = a' -> b = b' -> c = c' ->
                glm.mkvec3 a b c = glm.mkvec3 a' b' c') by (intros; subst; reflexivity).
  unfold preset_view. rewrite E1, E2, E3.
  destruct (GLFW.pressed w GLFW.KEY_4), (GLFW.pressed w GLFW.KEY_3),
    (GLFW.pressed w GLFW.KEY_2), (GLFW.pressed w GLFW.KEY_1);
    unfold with_pose; cbn [Camera.Zoom Camera.other_members];
    try reflexivity; f_equal; apply N; lra.
Qed.

Lemma movements_in_turn (w : GLFW.window) (velocity : R) (c : Camera.t members) :
  (if GLFW.pressed w GLFW.KEY_E then ProcessKeyboard Camera.DOWN velocity else fun c => c)
    ((if GLFW.pressed w GLFW.KEY_Q then ProcessKeyboard Camera.UP velocity else fun c => c)
       ((if GLFW.pressed w GLFW.KEY_D then ProcessKeyboard Camera.RIGHT velocity
         else fun c => c)
          ((if GLFW.pressed w GLFW.KEY_A then ProcessKeyboard Camera.LEFT velocity
            else fun c => c)
             ((if GLFW.pressed w GLFW.KEY_S then ProcessKeyboard Camera.BACKWARD velocity
               else fun c => c)
                ((if GLFW.pressed w GLFW.KEY_W then ProcessKeyboard Camera.FORWARD velocity
                  else fun c => c) c)))))
  = moved ProcessKeyboard w velocity c.
Proof.
  unfold moved, movement_keys. cbn [fold_left fst snd].
  destruct (GLFW.pressed w GLFW.KEY_W), (GLFW.pressed w GLFW.KEY_S),
    (GLFW.pressed w GLFW.KEY_A), (GLFW.pressed w GLFW.KEY_D),
    (GLFW.pressed w GLFW.KEY_Q), (GLFW.pressed w GLFW.KEY_E); reflexivity.
Qed.

Lemma ProcessKeyboardEvents_runs (cb : ViewManager.globals) (dt lf : R) (bo : bool)
    (cam : Camera.t members) (pr : GLFW.key -> bool) (cl : bool)
    (sh : option ShaderManager.t) :
  View.ProcessKeyboardEvents members ProcessKeyboard
    (View.mkstate cb dt lf bo cam (Some (GLFW.mkwindow pr cl)) sh)
  = Done (tt,
          View.mkstate cb dt lf
            (if pr GLFW.KEY_O then true else if pr GLFW.KEY_P then false else bo)
            (preset_view (GLFW.mkwindow pr cl)
               (moved ProcessKeyboard (GLFW.mkwindow pr cl)
                  (dt * Q2R (float_value (ViewManager.cameraSpeed cb))) cam))
            (Some (GLFW.mkwindow pr (if pr GLFW.KEY_ESCAPE then true else cl)))
            sh).
Proof.
  unfold View.ProcessKeyboardEvents.
  rewrite key_closes. rewrite !key_moves. rewrite !key_projects. rewrite !key_poses.
  rewrite last_key_poses. cbn [GLFW.pressed].
  rewrite <- (preset_views_decide (GLFW.mkwindow pr cl)),
          <- (movements_in_turn (GLFW.mkwindow pr cl)).
  cbn [GLFW.pressed]. reflexivity.
Qed.

Lemma ProcessKeyboardEvents_without_window (cb : ViewManager.globals) (dt lf : R)
    (bo : bool) (cam : Camera.t members) (sh : option ShaderManager.t) :
  View.ProcessKeyboardEvents members ProcessKeyboard
    (View.mkstate cb dt lf bo cam None sh)
  = Crash NullPointer.
Proof. reflexivity. Qed.

(** X30. A frame of the view manager.  [PrepareSceneView] reads the keys
    through the window pointer: before a window exists it faults.  With a
    window it returns, and: the frame time is the clock reading minus the
    previous one; the camera is moved once for each movement key held down,
    in the order W, S, A, D, Q, E, each time by that frame time times the
    speed multiplier of the scroll callback; a preset key overrides the
    position, front and up vectors such a movement left, the highest of the
    keys 1 to 4 deciding; O decides the projection over P; Escape sets the
    close flag and nothing resets it.  With a shader manager the uniforms
    [view], [projection] and [viewPosition] are written from the camera as
    the keys of this very frame left it, the orthographic volume being
    20 by 16 and the aspect ratio 1.25, and no other uniform is touched;
    without one nothing is written and the rest happens all the same. *)
Theorem PrepareSceneView_frame (currentFrame : R) (v : View.state members) :
  match View.m_pWindow v with
  | None =>
      View.PrepareSceneView members ProcessKeyboard GetViewMatrix ortho perspective
        currentFrame v = Crash NullPointer
  | Some w =>
      let delta := currentFrame - View.gLastFrame v in
      let cam :=
        preset_view w
          (moved ProcessKeyboard w
             (delta * Q2R (float_value (ViewManager.cameraSpeed (View.callbacks v))))
             (View.g_pCamera v)) in
      let orthographic :=
        if GLFW.pressed w GLFW.KEY_O then true
        else if GLFW.pressed w GLFW.KEY_P then false
        else View.bOrthographicProjection v in
      let projection :=
        if orthographic then ortho (-20) 20 (-16) 16 0.1 100
        else perspective (glm.radians (Camera.Zoom cam)) 1.25 0.1 100 in
      exists shader',
        View.PrepareSceneView members ProcessKeyboard GetViewMatrix ortho perspective
          currentFrame v
        = Done (tt,
                View.mkstate (View.callbacks v) delta currentFrame orthographic cam
                  (Some (GLFW.mkwindow (GLFW.pressed w)
                           (if GLFW.pressed w GLFW.KEY_ESCAPE then true
                            else GLFW.should_close w)))
                  shader') /\
        match View.m_pShaderManager v with
        | None => shader' = None
        | Some sh =>
            shader'
            = Some (<["viewPosition" := ShaderManager.UVec3 (Camera.Position cam)]>
                      (<[View.g_ProjectionName := ShaderManager.UMat4 projection]>
                         (<[View.g_ViewName := ShaderManager.UMat4 (GetViewMatrix cam)]>
                            sh))) /\
            forall (name : string) sh',
              shader' = Some sh' ->
              name <> View.g_ViewName -> name <> View.g_ProjectionName ->
              name <> "viewPosition" ->
              sh' !! name = sh !! name
        end
  end.
Proof.
  destruct v as [cb dt lf bo cam [[pr cl]|] shm];
    cbn [View.m_pWindow View.gLastFrame View.callbacks View.g_pCamera
         View.bOrthographicProjection View.m_pShaderManager GLFW.pressed GLFW.should_close].
  - cbv zeta. unfold View.PrepareSceneView.
    rewrite (V_bind_run _ _ _ _ _ eq_refl). cbn [View.gLastFrame].
    erewrite V_bind_run by reflexivity.
    rewrite V_bind_run
      with (v' := View.mkstate cb (currentFrame - lf) currentFrame
                    (if pr GLFW.KEY_O then true else if pr GLFW.KEY_P then false else bo)
                    (preset_view (GLFW.mkwindow pr cl)
                       (moved ProcessKeyboard (GLFW.mkwindow pr cl)
                          ((currentFrame - lf) * Q2R (float_value (ViewManager.cameraSpeed cb))) cam))
                    (Some (GLFW.mkwindow pr (if pr GLFW.KEY_ESCAPE then true else cl)))
                    shm) (a := tt)
      by apply ProcessKeyboardEvents_runs.
    rewrite (V_bind_run _ _ _ _ _ eq_refl).
    cbn [View.m_pShaderManager View.bOrthographicProjection View.g_pCamera].
    assert (Eo : ortho (Ropp 20.0) 20.0
                   (Ropp 20.0 * (IZR ViewManager.WINDOW_HEIGHT / IZR ViewManager.WINDOW_WIDTH))
                   (20.0 * (IZR ViewManager.WINDOW_HEIGHT / IZR ViewManager.WINDOW_WIDTH))
                   0.1 100.0
                 = ortho (-20) 20 (-16) 16 0.1 100).
    { unfold ViewManager.WINDOW_HEIGHT, ViewManager.WINDOW_WIDTH. f_equal; lra. }
    assert (Ep : forall zoom,
               perspective zoom (IZR ViewManager.WINDOW_WIDTH / IZR ViewManager.WINDOW_HEIGHT)
                 0.1 100.0
               = perspective zoom 1.25 0.1 100).
    { intros zoom. unfold ViewManager.WINDOW_HEIGHT, ViewManager.WINDOW_WIDTH.
      f_equal; lra. }
    cbv zeta. rewrite Eo, Ep. destruct shm as [sh|].
    + eexists. split.
      { cbv [mbind View.V_bind View.shader_call View.m_pShaderManager View.callbacks
             View.gDeltaTime View.gLastFrame View.bOrthographicProjection View.g_pCamera
             View.m_pWindow ShaderManager.setMat4Value ShaderManager.setVec3Value].
        reflexivity. }
      split; [reflexivity|].
      intros name sh' [= <-] Hv Hp Hn.
      rewrite !lookup_insert_ne by congruence. reflexivity.
    + exists None. split; reflexivity.
  - unfold View.PrepareSceneView.
    rewrite (V_bind_run _ _ _ _ _ eq_refl). cbn [View.gLastFrame].
    erewrite V_bind_run by reflexivity.
    unfold mbind at 1, View.V_bind at 1.
    rewrite ProcessKeyboardEvents_without_window. reflexivity.
Qed.

End Frames.
